(** * pa2.c: two-level page tables, frame reference counts, copy-on-write

    A shallow embedding of the four entry points of [src/pa2.c]
    ([alloc_page], [free_page], [handle_page_fault], [switch_process];
    the first, complete variant in the file) together with the
    properties the specification states about them.

    The C code works on four globals: the ready queue [processes], the
    pointers [current] and [ptbr], and the array [mapcounts].  They are
    gathered in one record that every operation takes and returns.
    Process objects live in a heap (a list indexed by address) so that
    [ptbr] and the pointer [p] of [switch_process] may name the same
    page table, as they can in C.

    Dereferencing NULL and indexing an array out of its bounds are
    undefined behaviour in C; the embedding makes both observable as the
    [Undefined] result.

    The code obtains its memory from [malloc] and writes only some of
    the fields before it reads them.  What [malloc] returns is a
    parameter of the embedding; nothing is proved about the code by
    assuming that fresh memory is zero, unless the statement says so. *)

From Stdlib Require Import ZArith Lia.
From stdpp Require Import base numbers list.

Set Default Proof Using "Type".

(** ** Results of C code that may run into undefined behaviour *)

Inductive fault : Type :=
| NullDeref
| OutOfBounds.

Inductive result (A : Type) : Type :=
| Ok (a : A)
| Undefined (f : fault).
Arguments Ok {A} a.
Arguments Undefined {A} f.

Definition bind {A B : Type} (m : result A) (k : A -> result B) : result B :=
  match m with
  | Ok a => k a
  | Undefined f => Undefined f
  end.

Notation "x <- m ;; k" := (bind m (fun x => k))
  (at level 100, m at next level, right associativity).

(** [l[i]] on a C array. *)
Definition index {A : Type} (l : list A) (i : nat) : result A :=
  match l !! i with
  | Some x => Ok x
  | None => Undefined OutOfBounds
  end.

(** [*p] for a pointer that may be NULL. *)
Definition deref {A : Type} (p : option A) : result A :=
  match p with
  | Some x => Ok x
  | None => Undefined NullDeref
  end.

(** ** Data model

    The declarations of [vm.h] are not part of the sources at hand; the
    structures below have the fields the code reads and writes. *)

(** Modelled from the spec: [struct pte], the translation entry.
    [valid] and [writable] are assigned [true]/[false]; [pfn] receives
    frame numbers; [private] is assigned 0 and 1 and tested with
    [== 1]. *)
Record pte : Type := Pte {
  valid : bool;
  writable : bool;
  pfn : nat;
  private : Z
}.

Definition set_valid (b : bool) (e : pte) : pte :=
  Pte b (writable e) (pfn e) (private e).
Definition set_writable (b : bool) (e : pte) : pte :=
  Pte (valid e) b (pfn e) (private e).
Definition set_pfn (n : nat) (e : pte) : pte :=
  Pte (valid e) (writable e) n (private e).
Definition set_private (z : Z) (e : pte) : pte :=
  Pte (valid e) (writable e) (pfn e) z.

(** An all-zero entry. *)
Definition zero_pte : pte := Pte false false 0 0%Z.

(** Memory as [calloc] would return it: all-zero entries, NULL
    pointers.  The closed examples run on it. *)
Definition zeroed_pte : nat -> nat -> nat -> pte := fun _ _ _ => zero_pte.
Definition zeroed_null : nat -> nat -> bool := fun _ _ => true.

(** Memory that has been used before, for the examples on memory the
    code does not initialise: every entry reads as a valid mapping of
    frame 7 with 5 in its [private] field, and no pointer reads as
    NULL. *)
Definition stale_pte : nat -> nat -> nat -> pte :=
  fun _ _ _ => Pte true false 7 5%Z.
Definition stale_null : nat -> nat -> bool := fun _ _ => false.

(** Modelled from the spec: [struct pte_directory], the array [ptes]. *)
Abbreviation pte_directory := (list pte).

(** Modelled from the spec: [struct pagetable], the array [outer_ptes]
    of directory pointers, [None] for NULL. *)
Abbreviation pagetable := (list (option pte_directory)).

(** A pointer that is neither NULL nor the address of a directory, as an
    uninitialised slot may hold: it points to no entry at all, so that
    every access through it is out of bounds. *)
Definition wild : pte_directory := [].

(** Modelled from the spec: [struct process]; its field [pagetable] is
    [ptable] here, and its list link is kept by the queue [processes]
    of the state. *)
Record process : Type := Process {
  pid : nat;
  ptable : pagetable
}.

(** The globals.  [heap] holds every process object, addressed by its
    position; [processes] is the ready queue, the addresses of its
    members in list order; [current] and [ptbr] are addresses ([ptbr]
    is always a [&q->pagetable], kept as the address of [q]);
    [mapcounts] is the [unsigned int] array of reference counts. *)
Record vm : Type := Vm {
  heap : list process;
  processes : list nat;
  current : nat;
  ptbr : nat;
  mapcounts : list Z
}.

Definition set_heap (h : list process) (s : vm) : vm :=
  Vm h (processes s) (current s) (ptbr s) (mapcounts s).
Definition set_mapcounts (mc : list Z) (s : vm) : vm :=
  Vm (heap s) (processes s) (current s) (ptbr s) mc.

(** [unsigned int] arithmetic wraps around at 2^32. *)
Definition wrap32 (z : Z) : Z := (z mod 2 ^ 32)%Z.

(** ** Views used in the statements *)

(** The slot [a->pagetable.outer_ptes[i]]. *)
Definition dir_at (s : vm) (a i : nat) : option (option pte_directory) :=
  match heap s !! a with
  | Some P => ptable P !! i
  | None => None
  end.

(** The entry [a->pagetable.outer_ptes[i]->ptes[j]], when every step of
    the walk is defined. *)
Definition pte_at (s : vm) (a i j : nat) : option pte :=
  match dir_at s a i with
  | Some (Some d) => d !! j
  | _ => None
  end.

(** ** Reference counts against page tables *)

Definition maps_frame (f : nat) (e : pte) : bool := valid e && (pfn e =? f).

(** Number of valid entries of a directory whose [pfn] is [f]. *)
Definition count_directory (f : nat) (d : pte_directory) : nat :=
  sum_list (map (fun e => if maps_frame f e then 1 else 0) d).

Definition count_table (f : nat) (t : pagetable) : nat :=
  sum_list (map (fun od => match od with
                           | Some d => count_directory f d
                           | None => 0
                           end) t).

(** Number of valid entries, over the tables of all processes, whose
    [pfn] is [f]. *)
Definition count_refs (s : vm) (f : nat) : nat :=
  sum_list (map (fun P => count_table f (ptable P)) (heap s)).

(** The reference counts are exact: [mapcounts[f]] is [count_refs s f]
    for every frame [f]. *)
Definition refcounts_exact (s : vm) : Prop :=
  forall f c, mapcounts s !! f = Some c -> c = Z.of_nat (count_refs s f).

Definition refcounts_exactb (s : vm) : bool :=
  forallb (fun fc => (snd fc =? Z.of_nat (count_refs s (fst fc)))%Z)
          (imap (fun f c => (f, c)) (mapcounts s)).

(** ** Loops *)

(** What an iteration hands to its loop: go on, or [break]. *)
Inductive flow : Type :=
| Continue (s : vm)
| Break (s : vm).

(** [for (k = i; k < i + n; k++) body] *)
Fixpoint for_loop (body : nat -> vm -> result flow) (i n : nat) (s : vm)
  : result vm :=
  match n with
  | 0 => Ok s
  | S n' =>
      r <- body i s ;;
      match r with
      | Continue s' => for_loop body (S i) n' s'
      | Break s' => Ok s'
      end
  end.

(** The four operations, as commands of a driver. *)
Inductive op : Type :=
| AllocPage (vpn rw : nat)
| FreePage (vpn : nat)
| HandlePageFault (vpn rw : nat)
| SwitchProcess (target : nat).

Section VM.

(** The constants of [vm.h], which is not part of the sources at hand:
    the number of entries of a directory, the number of page frames, and
    the number of slots of [outer_ptes]. *)
Variables NR_PTES_PER_PAGE NR_PAGEFRAMES NR_OUTER_PTES : nat.

(** ** Memory primitives *)

(** The content of the memory that [malloc] returns.  The code never
    initialises it as a whole: [alloc_page] leaves [private] and the
    other entries of a directory it allocates as they come, and line 210
    tests a pointer inside a process structure allocated at line 201.
    [fresh_pte a i j] is what entry [j] holds in the directory allocated
    for slot [i] of the process at address [a], and [fresh_null a i]
    tells whether slot [i] of the process structure allocated at [a]
    reads as NULL.  A slot is assigned a directory at most once and an
    address holds one process for good, so every call of [malloc] has
    arguments of its own here: the content may differ from call to
    call.  The allocation itself is taken to succeed; the code does not
    test the pointer it gets. *)
Variable fresh_pte : nat -> nat -> nat -> pte.
Variable fresh_null : nat -> nat -> bool.

(** [malloc(sizeof(struct pte_directory))] for slot [i] of the process
    at [a]. *)
Definition malloc_directory (a i : nat) : pte_directory :=
  fresh_pte a i <$> seq 0 NR_PTES_PER_PAGE.

(** [malloc(sizeof(struct process))] at address [a].  A slot that does
    not read as NULL is a wild pointer.  The [pid] is assigned (line
    204) before it is read. *)
Definition malloc_process (a : nat) : process :=
  Process 0 ((fun i => if fresh_null a i then None else Some wild)
               <$> seq 0 NR_OUTER_PTES).

(** Read the pointer [a->pagetable.outer_ptes[i]]. *)
Definition read_dir (a i : nat) (s : vm) : result (option pte_directory) :=
  P <- deref (heap s !! a) ;;
  index (ptable P) i.

(** Read [a->pagetable.outer_ptes[i]->ptes[j]]. *)
Definition read_pte (a i j : nat) (s : vm) : result pte :=
  P <- deref (heap s !! a) ;;
  od <- index (ptable P) i ;;
  d <- deref od ;;
  index d j.

(** The state in which entry [(i, j)] of the table of [a] holds [e]. *)
Definition poke (a i j : nat) (e : pte) (s : vm) : vm :=
  match heap s !! a with
  | Some P =>
      match ptable P !! i with
      | Some (Some d) =>
          set_heap
            (<[a := Process (pid P) (<[i := Some (<[j := e]> d)]> (ptable P))]>
               (heap s)) s
      | _ => s
      end
  | None => s
  end.

(** An assignment to one field of
    [a->pagetable.outer_ptes[i]->ptes[j]]. *)
Definition modify_pte (a i j : nat) (f : pte -> pte) (s : vm) : result vm :=
  e <- read_pte a i j s ;;
  Ok (poke a i j (f e) s).

(** [if (a->pagetable.outer_ptes[i] == NULL)
       a->pagetable.outer_ptes[i] = malloc(sizeof(struct pte_directory));] *)
Definition ensure_dir (a i : nat) (s : vm) : result vm :=
  P <- deref (heap s !! a) ;;
  od <- index (ptable P) i ;;
  match od with
  | Some _ => Ok s
  | None =>
      Ok (set_heap
            (<[a := Process (pid P)
                      (<[i := Some (malloc_directory a i)]> (ptable P))]>
               (heap s)) s)
  end.

(** [mapcounts[f]++] and [mapcounts[f]--]. *)
Definition incr_mapcount (f : nat) (s : vm) : result vm :=
  c <- index (mapcounts s) f ;;
  Ok (set_mapcounts (<[f := wrap32 (c + 1)]> (mapcounts s)) s).

Definition decr_mapcount (f : nat) (s : vm) : result vm :=
  c <- index (mapcounts s) f ;;
  Ok (set_mapcounts (<[f := wrap32 (c - 1)]> (mapcounts s)) s).

(** [for (int i = 0;; i++) if (!mapcounts[i]) ...]: the loop has no
    bound of its own; it stops at the first zero counter, and when there
    is none it reads past the end of the array. *)
Fixpoint first_free_from (i : nat) (mc : list Z) : result nat :=
  match mc with
  | [] => Undefined OutOfBounds
  | c :: mc' => if (c =? 0)%Z then Ok i else first_free_from (S i) mc'
  end.

Definition first_free (mc : list Z) : result nat := first_free_from 0 mc.

(** [rw == 2 || rw == 3] *)
Definition is_write (rw : nat) : bool := (rw =? 2) || (rw =? 3).

(** ** alloc_page (lines 63-92) *)

Definition alloc_page (vpn rw : nat) (s : vm) : result (vm * nat) :=
  let pd_index := vpn / NR_PTES_PER_PAGE in
  let pte_index := vpn mod NR_PTES_PER_PAGE in
  s <- ensure_dir (ptbr s) pd_index s ;;
  s <- modify_pte (ptbr s) pd_index pte_index (set_valid true) s ;;
  s <- (if is_write rw
        then modify_pte (ptbr s) pd_index pte_index (set_writable true) s
        else modify_pte (ptbr s) pd_index pte_index (set_writable false) s) ;;
  i <- first_free (mapcounts s) ;;
  s <- modify_pte (ptbr s) pd_index pte_index (set_pfn i) s ;;
  s <- incr_mapcount i s ;;
  Ok (s, i).

(** ** free_page (lines 104-115) *)

Definition free_page (vpn : nat) (s : vm) : result vm :=
  let pd_index := vpn / NR_PTES_PER_PAGE in
  let pte_index := vpn mod NR_PTES_PER_PAGE in
  s <- modify_pte (ptbr s) pd_index pte_index (set_valid false) s ;;
  s <- modify_pte (ptbr s) pd_index pte_index (set_writable false) s ;;
  s <- modify_pte (ptbr s) pd_index pte_index (set_private 0) s ;;
  e <- read_pte (ptbr s) pd_index pte_index s ;;
  decr_mapcount (pfn e) s.

(** ** handle_page_fault (lines 135-163) *)

Definition handle_page_fault (vpn rw : nat) (s : vm) : result (vm * bool) :=
  let pd_index := vpn / NR_PTES_PER_PAGE in
  let pte_index := vpn mod NR_PTES_PER_PAGE in
  e <- read_pte (ptbr s) pd_index pte_index s ;;
  if negb (writable e) && is_write rw && (private e =? 1)%Z then
    s <- modify_pte (ptbr s) pd_index pte_index (set_writable true) s ;;
    e <- read_pte (ptbr s) pd_index pte_index s ;;
    c <- index (mapcounts s) (pfn e) ;;
    if (1 <? c)%Z then
      s <- decr_mapcount (pfn e) s ;;
      i <- first_free (mapcounts s) ;;
      s <- modify_pte (ptbr s) pd_index pte_index (set_pfn i) s ;;
      s <- incr_mapcount i s ;;
      Ok (s, true)
    else Ok (s, true)
  else Ok (s, false).

(** ** switch_process (lines 182-255) *)

(** [list_for_each_entry(p, &processes, list) if (p->pid == pid) ... break;]
    walks the ready queue in order and stops at the first match. *)
Fixpoint find_process (h : list process) (q : list nat) (target : nat)
  : result (option nat) :=
  match q with
  | [] => Ok None
  | a :: q' =>
      P <- deref (h !! a) ;;
      if pid P =? target then Ok (Some a) else find_process h q' target
  end.

(** Body of the inner loop of the fork branch (lines 209-221), for the
    new process at address [p]. *)
Definition fork_body (p i j : nat) (s : vm) : result flow :=
  od <- read_dir (ptbr s) i s ;;
  match od with
  | None => Ok (Break s)
  | Some _ =>
      s <- ensure_dir p i s ;;
      e <- read_pte (ptbr s) i j s ;;
      s <- (if writable e || (private e =? 1)%Z
            then modify_pte p i j (set_private 1) s
            else Ok s) ;;
      e <- read_pte (ptbr s) i j s ;;
      s <- modify_pte p i j (set_valid (valid e)) s ;;
      e <- read_pte (ptbr s) i j s ;;
      s <- modify_pte p i j (set_pfn (pfn e)) s ;;
      e <- read_pte (ptbr s) i j s ;;
      s <- (if valid e then incr_mapcount (pfn e) s else Ok s) ;;
      s <- modify_pte p i j (set_writable false) s ;;
      Ok (Continue s)
  end.

(** Body of the inner loop of the branch taken when the pid is found
    (lines 232-245); [p] is the process found. *)
Definition switch_body (p i j : nat) (s : vm) : result flow :=
  od <- read_dir (ptbr s) i s ;;
  match od with
  | None => Ok (Break s)
  | Some _ =>
      s <- ensure_dir p i s ;;
      e <- read_pte (ptbr s) i j s ;;
      s <- (if writable e || (private e =? 1)%Z
            then modify_pte p i j (set_private 1) s
            else Ok s) ;;
      d <- read_pte p i j s ;;
      s <- (if negb (valid d) then
              e <- read_pte (ptbr s) i j s ;;
              s <- modify_pte p i j (set_valid (valid e)) s ;;
              e <- read_pte (ptbr s) i j s ;;
              modify_pte p i j (set_pfn (pfn e)) s
            else Ok s) ;;
      s <- modify_pte p i j (set_writable false) s ;;
      Ok (Continue s)
  end.

(** The two nested [for] loops, with the inner body as a parameter. *)
Definition walk_tables (body : nat -> nat -> vm -> result flow) (s : vm)
  : result vm :=
  for_loop
    (fun i s =>
       s <- for_loop (body i) 0 NR_PTES_PER_PAGE s ;;
       Ok (Continue s))
    0 (NR_PAGEFRAMES / NR_PTES_PER_PAGE) s.

Definition switch_process (target : nat) (s : vm) : result vm :=
  found <- find_process (heap s) (processes s) target ;;
  match found with
  | None =>
      (* p = malloc(sizeof( *p)); list_add_tail(...); p->pid = pid; *)
      let p := length (heap s) in
      let s := Vm (heap s ++ [Process target (ptable (malloc_process p))])
                  (processes s ++ [p]) (current s) (ptbr s) (mapcounts s) in
      s <- walk_tables (fork_body p) s ;;
      Ok (Vm (heap s) (processes s) p p (mapcounts s))
  | Some p =>
      s <- walk_tables (switch_body p) s ;;
      Ok (Vm (heap s) (processes s) p p (mapcounts s))
  end.

(** ** Sequences of operations *)

Definition step (o : op) (s : vm) : result vm :=
  match o with
  | AllocPage vpn rw => r <- alloc_page vpn rw s ;; Ok (fst r)
  | FreePage vpn => free_page vpn s
  | HandlePageFault vpn rw => r <- handle_page_fault vpn rw s ;; Ok (fst r)
  | SwitchProcess target => switch_process target s
  end.

Fixpoint run (ops : list op) (s : vm) : result vm :=
  match ops with
  | [] => Ok s
  | o :: ops' => s <- step o s ;; run ops' s
  end.

(** Modelled from the spec: the driver, which sets up the globals, is
    not part of the sources at hand.  The specification's scenarios
    start from a fresh system with an empty registry: one process with
    pid 0 and an empty table, which is current and is not on the ready
    queue, and no frame in use. *)
Definition init_vm : vm :=
  Vm [Process 0 (replicate NR_OUTER_PTES None)] [] 0 0
     (replicate NR_PAGEFRAMES 0%Z).


(** ** Notions used in the statements *)

(** The state after [ensure_dir], where it is defined. *)
Definition ens (a i : nat) (s : vm) : vm :=
  match ensure_dir a i s with
  | Ok s' => s'
  | Undefined _ => s
  end.

(** Frame [f] is the smallest-indexed frame whose counter is zero. *)
Definition lowest_free (mc : list Z) (f : nat) : Prop :=
  mc !! f = Some 0%Z /\ forall g, g < f -> mc !! g <> Some 0%Z.

(** The sum of all reference counts. *)
Definition sum_counts (mc : list Z) : Z := foldr Z.add 0%Z mc.

(** The entry the fork branch leaves in the child, from the parent's
    entry [e] and the child's entry [d] before the iteration. *)
Definition fork_entry (e d : pte) : pte :=
  set_writable false
    (set_pfn (pfn e)
       (set_valid (valid e)
          (if writable e || (private e =? 1)%Z then set_private 1 d else d))).

(** The entry the other branch leaves in the process found, from the
    entry [e] of the outgoing table and its own entry [d] before the
    iteration. *)
Definition switch_entry (e d : pte) : pte :=
  let d1 := if writable e || (private e =? 1)%Z then set_private 1 d else d in
  set_writable false
    (if valid d1 then d1 else set_pfn (pfn e) (set_valid (valid e) d1)).

(** [if (e.valid) mapcounts[e.pfn]++], where it is defined. *)
Definition bump (e : pte) (mc : list Z) : list Z :=
  if valid e then
    match mc !! pfn e with
    | Some c => <[pfn e := wrap32 (c + 1)]> mc
    | None => mc
    end
  else mc.

(** Everything but the page table of [p] and the counters is the same
    in both states. *)
Definition same_outside (p : nat) (s s' : vm) : Prop :=
  processes s' = processes s /\
  current s' = current s /\
  ptbr s' = ptbr s /\
  length (heap s') = length (heap s) /\
  (forall a, a <> p -> heap s' !! a = heap s !! a) /\
  pid <$> heap s' !! p = pid <$> heap s !! p.

(** A copy-on-write fault, in the words of the specification: a write
    access to an entry that is valid, not writable and marked private. *)
Definition cow_fault (e : pte) (rw : nat) : bool :=
  valid e && negb (writable e) && (private e =? 1)%Z && is_write rw.

(** Well-formed states: every page table has [NR_OUTER_PTES] slots,
    every directory has [NR_PTES_PER_PAGE] entries, and [ptbr] points to
    a process of the heap. *)
Definition wf_table (t : pagetable) : bool :=
  (length t =? NR_OUTER_PTES) &&
  forallb (fun od => match od with
                     | Some d => length d =? NR_PTES_PER_PAGE
                     | None => true
                     end) t.

Definition wf_vm (s : vm) : bool :=
  forallb (fun P => wf_table (ptable P)) (heap s) &&
  (ptbr s <? length (heap s)).

(** The reference counts are exact in [unsigned int] arithmetic. *)
Definition refcounts_exact32 (s : vm) : Prop :=
  forall f c, mapcounts s !! f = Some c ->
              c = wrap32 (Z.of_nat (count_refs s f)).

(** The state in which the fork branch starts its walk (lines 201-204
    done): the new process is allocated and queued. *)
Definition fork_start (target : nat) (s : vm) : vm :=
  Vm (heap s ++ [Process target (ptable (malloc_process (length (heap s))))])
     (processes s ++ [length (heap s)]) (current s) (ptbr s) (mapcounts s).

(** Every valid entry names a frame of [mapcounts]. *)
Definition frames_ok (s : vm) : bool :=
  forallb
    (fun P =>
       forallb
         (fun od => match od with
                    | Some d =>
                        forallb (fun e => negb (valid e)
                                          || (pfn e <? length (mapcounts s))) d
                    | None => true
                    end)
         (ptable P))
    (heap s).

(** Every counter holds an [unsigned int]. *)
Definition counts_in_range (mc : list Z) : bool :=
  forallb (fun c => (0 <=? c)%Z && (c <? 2 ^ 32)%Z) mc.

(** The shape the operations rely on without checking it: well-formed
    tables, valid entries that name frames of [mapcounts], counters that
    are [unsigned int]s. *)
Definition vm_ok (s : vm) : bool :=
  wf_vm s && frames_ok s && counts_in_range (mapcounts s).

(** The pids of the processes on the ready queue, in queue order. *)
Definition queue_pids (s : vm) : list (option nat) :=
  (fun a => pid <$> heap s !! a) <$> processes s.

(** The ready queue holds allocated processes with pairwise distinct
    pids. *)
Definition queue_ok (s : vm) : Prop :=
  Forall (fun a => a < length (heap s)) (processes s) /\
  NoDup (queue_pids s).

(** An entry that is not valid is neither writable nor marked private. *)
Definition entry_ok (e : pte) : bool :=
  valid e || negb (writable e || (private e =? 1)%Z).

Definition flags_ok (s : vm) : bool :=
  forallb
    (fun P =>
       forallb
         (fun od => match od with
                    | Some d => forallb entry_ok d
                    | None => true
                    end)
         (ptable P))
    (heap s).

(** Conditions on what [malloc] returns, for the statements that need
    them: the slots of the process structure allocated at [a] read as
    NULL; no entry of a fresh directory is valid; no entry of a fresh
    directory is writable or marked private. *)
Definition fresh_slots_null (a : nat) : Prop :=
  forall i, i < NR_OUTER_PTES -> fresh_null a i = true.

Definition fresh_invalid : Prop :=
  forall a i j, valid (fresh_pte a i j) = false.

Definition fresh_unmarked : Prop :=
  forall a i j, writable (fresh_pte a i j) = false /\
                (private (fresh_pte a i j) =? 1)%Z = false.

(** The test of line 140. *)
Definition fault_test (e : pte) (rw : nat) : bool :=
  negb (writable e) && is_write rw && (private e =? 1)%Z.

(** The state reached from the initial one by a sequence of operations
    (the initial state itself if the sequence is undefined). *)
Definition state_after (ops : list op) : vm :=
  match run ops init_vm with
  | Ok s => s
  | Undefined _ => init_vm
  end.

(** One [alloc_page] per frame: afterwards no counter is zero. *)
Definition fill_frames : list op :=
  map (fun v => AllocPage v 3) (seq 0 NR_PAGEFRAMES).

(** A process takes every frame and forks: every frame is then shared
    by parent and child, and none is free. *)
Definition all_shared_ops : list op :=
  [SwitchProcess 1] ++ fill_frames ++ [SwitchProcess 2].

(** Two processes are forked in a row, the second maps a page, and the
    first is switched back to. *)
Definition switch_back_ops : list op :=
  [SwitchProcess 1; SwitchProcess 2; AllocPage 0 3; SwitchProcess 1].

(** A page mapped for writing and one mapped for reading, as in the
    first two steps of the specification's scenario. *)
Definition two_pages_ops : list op := [AllocPage 0 3; AllocPage 1 1].

(** One page mapped for writing. *)
Definition one_page_ops : list op := [AllocPage 0 3].

(** A page mapped in a directory beyond those that the walks of
    [switch_process] visit. *)
Definition far_page_ops : list op := [AllocPage 200 3].

(** A process that is on the ready queue maps a page for writing. *)
Definition queued_owner_ops : list op := [SwitchProcess 1; AllocPage 0 3].

(** A process maps a page for writing, forks, and the child maps a page
    of its own. *)
Definition child_page_ops : list op :=
  [SwitchProcess 1; AllocPage 0 3; SwitchProcess 2; AllocPage 1 3].

(** A process maps a page for writing and forks. *)
Definition forked_ops : list op :=
  [SwitchProcess 1; AllocPage 0 3; SwitchProcess 2].

(** ... then the child writes to the page and the parent is switched
    back to: the parent's entry is private and its frame is its own. *)
Definition sole_owner_ops : list op :=
  forked_ops ++ [HandlePageFault 0 2; SwitchProcess 1].

(** ** Facts about the primitives *)

Lemma bind_Ok {A B : Type} (m : result A) (k : A -> result B) (b : B) :
  bind m k = Ok b -> exists a, m = Ok a /\ k a = Ok b.
Proof. destruct m as [a|f]; simpl; [eauto | discriminate]. Qed.

Lemma index_Ok {A : Type} (l : list A) (i : nat) (x : A) :
  index l i = Ok x <-> l !! i = Some x.
Proof. unfold index. destruct (l !! i); split; congruence. Qed.

Lemma index_Some {A : Type} (l : list A) (i : nat) (x : A) :
  l !! i = Some x -> index l i = Ok x.
Proof. apply index_Ok. Qed.

Lemma read_pte_Ok a i j s e :
  read_pte a i j s = Ok e <-> pte_at s a i j = Some e.
Proof.
  unfold read_pte, pte_at, dir_at, index.
  destruct (heap s !! a) as [P|]; simpl; [|split; discriminate].
  destruct (ptable P !! i) as [[d|]|]; simpl; [|split; discriminate ..].
  destruct (d !! j); split; congruence.
Qed.

Lemma read_pte_Some a i j s e :
  pte_at s a i j = Some e -> read_pte a i j s = Ok e.
Proof. apply read_pte_Ok. Qed.

Lemma read_dir_Some a i s od : dir_at s a i = Some od -> read_dir a i s = Ok od.
Proof.
  unfold read_dir, dir_at, index. destruct (heap s !! a); [|discriminate].
  simpl. by intros ->.
Qed.

Lemma pte_at_dir s a i j e :
  pte_at s a i j = Some e ->
  exists d, dir_at s a i = Some (Some d) /\ d !! j = Some e.
Proof.
  unfold pte_at. destruct (dir_at s a i) as [[d|]|]; try discriminate. eauto.
Qed.

Lemma dir_pte_at s a i j d :
  dir_at s a i = Some (Some d) -> pte_at s a i j = d !! j.
Proof. unfold pte_at. by intros ->. Qed.

Lemma dir_at_None_pte s a i j :
  dir_at s a i = Some None -> pte_at s a i j = None.
Proof. unfold pte_at. by intros ->. Qed.

Lemma dir_at_heap s s' a :
  heap s' !! a = heap s !! a -> forall i, dir_at s' a i = dir_at s a i.
Proof. intros H i. unfold dir_at. by rewrite H. Qed.

Lemma pte_at_same_dir s s' a i :
  dir_at s' a i = dir_at s a i -> forall j, pte_at s' a i j = pte_at s a i j.
Proof. intros H j. unfold pte_at. by rewrite H. Qed.

(** *** [poke] *)

Lemma poke_fields a i j x s :
  processes (poke a i j x s) = processes s /\
  current (poke a i j x s) = current s /\
  ptbr (poke a i j x s) = ptbr s /\
  mapcounts (poke a i j x s) = mapcounts s /\
  length (heap (poke a i j x s)) = length (heap s).
Proof.
  unfold poke. destruct (heap s !! a) as [P|]; [|done].
  destruct (ptable P !! i) as [[d|]|]; try done.
  simpl. by rewrite length_insert.
Qed.

Lemma processes_poke a i j x s : processes (poke a i j x s) = processes s.
Proof. apply poke_fields. Qed.
Lemma current_poke a i j x s : current (poke a i j x s) = current s.
Proof. apply poke_fields. Qed.
Lemma ptbr_poke a i j x s : ptbr (poke a i j x s) = ptbr s.
Proof. apply poke_fields. Qed.
Lemma mapcounts_poke a i j x s : mapcounts (poke a i j x s) = mapcounts s.
Proof. apply poke_fields. Qed.
Lemma length_heap_poke a i j x s :
  length (heap (poke a i j x s)) = length (heap s).
Proof. apply poke_fields. Qed.

Lemma heap_poke_ne a i j x s b :
  a <> b -> heap (poke a i j x s) !! b = heap s !! b.
Proof.
  intros Hab. unfold poke. destruct (heap s !! a) as [P|]; [|done].
  destruct (ptable P !! i) as [[d|]|]; try done.
  simpl. by rewrite list_lookup_insert_ne.
Qed.

Lemma heap_poke_pid a i j x s b :
  pid <$> heap (poke a i j x s) !! b = pid <$> heap s !! b.
Proof.
  destruct (decide (a = b)) as [<-|Hab]; [|by rewrite heap_poke_ne].
  unfold poke. destruct (heap s !! a) as [P|] eqn:Ha; [|by rewrite Ha].
  destruct (ptable P !! i) as [[d|]|]; rewrite ?Ha; try done.
  simpl. rewrite list_lookup_insert_eq; [done|]. by eapply lookup_lt_Some.
Qed.

Lemma dir_at_poke_ne a i j x s a' i' :
  (a, i) <> (a', i') -> dir_at (poke a i j x s) a' i' = dir_at s a' i'.
Proof.
  intros Hne. unfold dir_at.
  destruct (decide (a = a')) as [<-|Ha]; [|by rewrite heap_poke_ne].
  unfold poke. destruct (heap s !! a) as [P|] eqn:HP; [|by rewrite HP].
  destruct (ptable P !! i) as [[d|]|] eqn:Hi; rewrite ?HP; try done.
  simpl. rewrite list_lookup_insert_eq by (by eapply lookup_lt_Some). simpl.
  rewrite list_lookup_insert_ne; [done|]. congruence.
Qed.

Lemma dir_at_poke_eq a i j x s d :
  dir_at s a i = Some (Some d) ->
  dir_at (poke a i j x s) a i = Some (Some (<[j := x]> d)).
Proof.
  unfold dir_at, poke. destruct (heap s !! a) as [P|] eqn:HP; [|discriminate].
  intros Hi. rewrite Hi. simpl.
  rewrite list_lookup_insert_eq by (by eapply lookup_lt_Some). simpl.
  rewrite list_lookup_insert_eq by (by eapply lookup_lt_Some). done.
Qed.

Lemma dir_at_poke_None a i j x s a' i' :
  dir_at (poke a i j x s) a' i' = Some None <-> dir_at s a' i' = Some None.
Proof.
  destruct (decide ((a, i) = (a', i'))) as [[= <- <-]|Hne];
    [|by rewrite dir_at_poke_ne].
  destruct (dir_at s a i) as [[d|]|] eqn:Hd.
  - by rewrite (dir_at_poke_eq _ _ _ _ _ _ Hd).
  - unfold poke, dir_at in *. destruct (heap s !! a) as [P|] eqn:HP; [|done].
    rewrite Hd. by rewrite HP.
  - unfold poke, dir_at in *. destruct (heap s !! a) as [P|] eqn:HP.
    + rewrite Hd. by rewrite HP, Hd.
    + by rewrite HP.
Qed.

Lemma pte_at_poke_eq a i j x s e :
  pte_at s a i j = Some e -> pte_at (poke a i j x s) a i j = Some x.
Proof.
  intros (d & Hd & Hj)%pte_at_dir. unfold pte_at.
  rewrite (dir_at_poke_eq _ _ _ _ _ _ Hd).
  apply list_lookup_insert_eq. by eapply lookup_lt_Some.
Qed.

Lemma pte_at_poke_ne a i j x s a' i' j' :
  (a, i, j) <> (a', i', j') ->
  pte_at (poke a i j x s) a' i' j' = pte_at s a' i' j'.
Proof.
  intros Hne.
  destruct (decide ((a, i) = (a', i'))) as [[= <- <-]|Hai];
    [|apply pte_at_same_dir; by apply dir_at_poke_ne].
  destruct (dir_at s a i) as [[d|]|] eqn:Hd.
  - unfold pte_at. rewrite (dir_at_poke_eq _ _ _ _ _ _ Hd), Hd.
    apply list_lookup_insert_ne. congruence.
  - unfold pte_at. rewrite Hd.
    by rewrite (proj2 (dir_at_poke_None a i j x s a i) Hd).
  - unfold pte_at. rewrite Hd.
    destruct (dir_at (poke a i j x s) a i) as [[d|]|] eqn:Hd'; try done.
    exfalso. unfold poke, dir_at in *.
    destruct (heap s !! a) as [P|] eqn:HP.
    + rewrite Hd in Hd'. by rewrite HP, Hd in Hd'.
    + by rewrite HP in Hd'.
Qed.

Lemma poke_poke a i j x y s :
  poke a i j x (poke a i j y s) = poke a i j x s.
Proof.
  destruct (heap s !! a) as [P|] eqn:HP;
    [|unfold poke at 2; by rewrite HP].
  destruct (ptable P !! i) as [[d|]|] eqn:Hi;
    [|unfold poke at 2; by rewrite HP, Hi ..].
  unfold poke. rewrite HP, Hi. simpl.
  rewrite list_lookup_insert_eq by (by eapply lookup_lt_Some). simpl.
  rewrite list_lookup_insert_eq by (by eapply lookup_lt_Some).
  unfold set_heap. simpl.
  by rewrite !list_insert_insert_eq.
Qed.

Lemma modify_pte_Some a i j f s e :
  pte_at s a i j = Some e -> modify_pte a i j f s = Ok (poke a i j (f e) s).
Proof. intros H. unfold modify_pte. by rewrite (read_pte_Some _ _ _ _ _ H). Qed.

Lemma modify_pte_Ok_inv a i j f s s' :
  modify_pte a i j f s = Ok s' ->
  exists e, pte_at s a i j = Some e /\ s' = poke a i j (f e) s.
Proof.
  unfold modify_pte. intros (e & He%read_pte_Ok & [= <-])%bind_Ok. eauto.
Qed.

Lemma read_poke_eq a i j x s d :
  pte_at s a i j = Some d -> read_pte a i j (poke a i j x s) = Ok x.
Proof. intros H. apply read_pte_Some. by eapply pte_at_poke_eq. Qed.

Lemma read_poke_alias a i j x s d a' :
  a' = a -> pte_at s a i j = Some d -> read_pte a' i j (poke a i j x s) = Ok x.
Proof. intros ->. apply read_poke_eq. Qed.

Lemma read_poke_ne a i j x s a' e :
  a' <> a -> pte_at s a' i j = Some e ->
  read_pte a' i j (poke a i j x s) = Ok e.
Proof.
  intros Hne H. apply read_pte_Some. rewrite pte_at_poke_ne; [done|congruence].
Qed.

Lemma modify_poke a i j f x s d :
  pte_at s a i j = Some d ->
  modify_pte a i j f (poke a i j x s) = Ok (poke a i j (f x) s).
Proof.
  intros H. rewrite (modify_pte_Some _ _ _ _ _ x); [by rewrite poke_poke|].
  by eapply pte_at_poke_eq.
Qed.

(** *** Small facts on lists and counters *)

Lemma forallb_lookup {A : Type} (f : A -> bool) (l : list A) (i : nat) (x : A) :
  forallb f l = true -> l !! i = Some x -> f x = true.
Proof.
  revert i. induction l as [|y l IH]; intros [|i]; simpl; try discriminate.
  - intros H [= ->]. by apply andb_prop in H as [? _].
  - intros H. apply andb_prop in H as [_ H]. by apply IH.
Qed.

Lemma wrap32_small (z : Z) : (0 <= z < 2 ^ 32)%Z -> wrap32 z = z.
Proof. intros H. unfold wrap32. by apply Z.mod_small. Qed.

(** The reference counts are exact in [unsigned int] arithmetic. *)
Lemma wrap32_succ (z : Z) : wrap32 (wrap32 z + 1) = wrap32 (z + 1).
Proof. unfold wrap32. by rewrite Zplus_mod_idemp_l. Qed.

Lemma sum_counts_insert (mc : list Z) (i : nat) (x y : Z) :
  mc !! i = Some x ->
  sum_counts (<[i := y]> mc) = (sum_counts mc - x + y)%Z.
Proof.
  revert i. induction mc as [|c mc IH]; intros [|i]; simpl; try discriminate.
  - intros [= ->]. lia.
  - intros H. rewrite (IH _ H). lia.
Qed.

(** *** The scan for a free frame *)

Lemma first_free_from_Ok (mc : list Z) (i f : nat) :
  first_free_from i mc = Ok f <-> exists k, f = i + k /\ lowest_free mc k.
Proof.
  revert i. induction mc as [|c mc IH]; intros i; simpl.
  - split; [discriminate|]. intros (k & _ & H & _). by destruct k.
  - destruct (Z.eqb_spec c 0) as [->|Hc].
    + split.
      * intros [= <-]. exists 0. split; [lia|]. split; [done|]. intros; lia.
      * intros (k & -> & Hk & Hlow). destruct k as [|k]; [f_equal; lia|].
        exfalso. apply (Hlow 0); [lia | done].
    + rewrite IH. split.
      * intros (k & -> & Hk & Hlow). exists (S k). split; [lia|].
        split; [done|]. intros [|g] Hg; simpl; [congruence|].
        apply Hlow. lia.
      * intros (k & -> & Hk & Hlow). destruct k as [|k]; [simpl in Hk;
          congruence|].
        exists k. split; [lia|]. split; [done|].
        intros g Hg. apply (Hlow (S g)). lia.
Qed.

Lemma first_free_Ok (mc : list Z) (f : nat) :
  first_free mc = Ok f <-> lowest_free mc f.
Proof.
  unfold first_free. rewrite first_free_from_Ok. split.
  - by intros (k & -> & H).
  - intros H. by exists f.
Qed.

Lemma first_free_from_full (mc : list Z) (i : nat) :
  (forall f c, mc !! f = Some c -> c <> 0%Z) ->
  first_free_from i mc = Undefined OutOfBounds.
Proof.
  revert i. induction mc as [|c mc IH]; intros i H; simpl; [done|].
  destruct (Z.eqb_spec c 0) as [->|Hc].
  - by destruct (H 0 0%Z).
  - apply IH. intros f c' Hf. by apply (H (S f)).
Qed.

Lemma first_free_find (mc : list Z) (f : nat) :
  mc !! f = Some 0%Z -> exists g, first_free mc = Ok g.
Proof.
  unfold first_free. generalize 0.
  revert f. induction mc as [|c mc IH]; intros f i; [by destruct f|].
  simpl. destruct (Z.eqb_spec c 0) as [->|Hc]; [eauto|].
  destruct f as [|f]; simpl; [congruence|]. apply IH.
Qed.

Lemma lookup_zero_insert (mc : list Z) (i g : nat) (x y : Z) :
  mc !! i = Some x -> x <> 0%Z -> y <> 0%Z ->
  <[i := y]> mc !! g = Some 0%Z <-> mc !! g = Some 0%Z.
Proof.
  intros Hi Hx Hy. destruct (decide (i = g)) as [<-|Hne].
  - rewrite list_lookup_insert_eq by (by eapply lookup_lt_Some).
    rewrite Hi. split; congruence.
  - by rewrite list_lookup_insert_ne.
Qed.

Lemma lowest_free_insert (mc : list Z) (i f : nat) (x y : Z) :
  mc !! i = Some x -> x <> 0%Z -> y <> 0%Z ->
  lowest_free (<[i := y]> mc) f <-> lowest_free mc f.
Proof.
  intros Hi Hx Hy. unfold lowest_free.
  rewrite (lookup_zero_insert _ _ _ _ _ Hi Hx Hy).
  split; intros [Hf Hl]; (split; [done|]); intros g Hg Hz;
    apply (Hl g Hg); by apply (lookup_zero_insert _ _ _ _ _ Hi Hx Hy).
Qed.

(** *** [ensure_dir] *)

Lemma ensure_dir_Ok a i s od :
  dir_at s a i = Some od -> ensure_dir a i s = Ok (ens a i s).
Proof.
  unfold ens, ensure_dir, dir_at, index.
  destruct (heap s !! a) as [P|]; [|discriminate]. simpl.
  intros ->. simpl. by destruct od.
Qed.

Lemma ensure_dir_Ok_inv a i s s' :
  ensure_dir a i s = Ok s' -> s' = ens a i s.
Proof. intros H. unfold ens. by rewrite H. Qed.

Lemma ens_present a i s d : dir_at s a i = Some (Some d) -> ens a i s = s.
Proof.
  unfold ens, ensure_dir, dir_at, index.
  destruct (heap s !! a) as [P|]; [|discriminate]. simpl. by intros ->.
Qed.

Lemma ens_fields a i s :
  processes (ens a i s) = processes s /\
  current (ens a i s) = current s /\
  ptbr (ens a i s) = ptbr s /\
  mapcounts (ens a i s) = mapcounts s /\
  length (heap (ens a i s)) = length (heap s).
Proof.
  unfold ens, ensure_dir, index. destruct (heap s !! a) as [P|]; [|done].
  simpl. destruct (ptable P !! i) as [[d|]|]; try done.
  simpl. by rewrite length_insert.
Qed.

Lemma processes_ens a i s : processes (ens a i s) = processes s.
Proof. apply ens_fields. Qed.
Lemma current_ens a i s : current (ens a i s) = current s.
Proof. apply ens_fields. Qed.
Lemma ptbr_ens a i s : ptbr (ens a i s) = ptbr s.
Proof. apply ens_fields. Qed.
Lemma mapcounts_ens a i s : mapcounts (ens a i s) = mapcounts s.
Proof. apply ens_fields. Qed.
Lemma length_heap_ens a i s : length (heap (ens a i s)) = length (heap s).
Proof. apply ens_fields. Qed.

Lemma heap_ens_ne a i s b : a <> b -> heap (ens a i s) !! b = heap s !! b.
Proof.
  intros Hab. unfold ens, ensure_dir, index.
  destruct (heap s !! a) as [P|]; [|done].
  simpl. destruct (ptable P !! i) as [[d|]|]; try done.
  simpl. by rewrite list_lookup_insert_ne.
Qed.

Lemma heap_ens_pid a i s b :
  pid <$> heap (ens a i s) !! b = pid <$> heap s !! b.
Proof.
  destruct (decide (a = b)) as [<-|Hab]; [|by rewrite heap_ens_ne].
  unfold ens, ensure_dir, index.
  destruct (heap s !! a) as [P|] eqn:Ha; [|simpl; by rewrite Ha].
  simpl. destruct (ptable P !! i) as [[d|]|]; simpl; rewrite ?Ha; try done.
  simpl. rewrite list_lookup_insert_eq; [done|]. by eapply lookup_lt_Some.
Qed.

Lemma dir_at_ens_absent a i s :
  dir_at s a i = Some None ->
  dir_at (ens a i s) a i = Some (Some (malloc_directory a i)).
Proof.
  unfold ens, ensure_dir, dir_at, index.
  destruct (heap s !! a) as [P|] eqn:HP; [|discriminate]. simpl.
  intros Hi. rewrite Hi. simpl.
  rewrite list_lookup_insert_eq by (by eapply lookup_lt_Some). simpl.
  rewrite list_lookup_insert_eq by (by eapply lookup_lt_Some). done.
Qed.

Lemma dir_at_ens_ne a i s a' i' :
  (a, i) <> (a', i') -> dir_at (ens a i s) a' i' = dir_at s a' i'.
Proof.
  intros Hne. unfold dir_at at 1.
  destruct (decide (a = a')) as [<-|Ha]; [|by rewrite heap_ens_ne].
  unfold ens, ensure_dir, dir_at, index.
  destruct (heap s !! a) as [P|] eqn:HP; [|simpl; by rewrite HP]. simpl.
  destruct (ptable P !! i) as [[d|]|] eqn:Hi; simpl; rewrite ?HP; try done.
  rewrite list_lookup_insert_eq by (by eapply lookup_lt_Some). simpl.
  rewrite list_lookup_insert_ne; [done|]. congruence.
Qed.

Lemma pte_at_ens_ne a i s a' i' j' :
  (a, i) <> (a', i') -> pte_at (ens a i s) a' i' j' = pte_at s a' i' j'.
Proof. intros H. apply pte_at_same_dir. by apply dir_at_ens_ne. Qed.

Lemma length_malloc_directory a i :
  length (malloc_directory a i) = NR_PTES_PER_PAGE.
Proof. unfold malloc_directory. by rewrite length_fmap, length_seq. Qed.

Lemma malloc_directory_lookup a i j :
  j < NR_PTES_PER_PAGE ->
  malloc_directory a i !! j = Some (fresh_pte a i j).
Proof.
  intros Hj. unfold malloc_directory.
  by rewrite list_lookup_fmap, lookup_seq_lt.
Qed.

Lemma malloc_directory_lookup_inv a i j x :
  malloc_directory a i !! j = Some x ->
  j < NR_PTES_PER_PAGE /\ x = fresh_pte a i j.
Proof.
  intros H. assert (j < NR_PTES_PER_PAGE) as Hj.
  { apply lookup_lt_Some in H. by rewrite length_malloc_directory in H. }
  rewrite malloc_directory_lookup in H by done. split; congruence.
Qed.

(** After [ensure_dir] the entry can be read, provided the slot exists
    and a directory already there has the right size. *)
Lemma pte_at_ens a i j s od :
  dir_at s a i = Some od ->
  (forall d, od = Some d -> length d = NR_PTES_PER_PAGE) ->
  j < NR_PTES_PER_PAGE ->
  exists e, pte_at (ens a i s) a i j = Some e.
Proof.
  intros Hd Hlen Hj. destruct od as [d|].
  - rewrite (ens_present _ _ _ _ Hd), (dir_pte_at _ _ _ _ _ Hd).
    apply lookup_lt_is_Some. rewrite (Hlen d); done.
  - rewrite (dir_pte_at _ _ _ _ _ (dir_at_ens_absent _ _ _ Hd)).
    exists (fresh_pte a i j). by apply malloc_directory_lookup.
Qed.

Lemma ens_idem a i s od :
  dir_at s a i = Some od -> ens a i (ens a i s) = ens a i s.
Proof.
  intros H. destruct od as [d|].
  - by rewrite !(ens_present _ _ _ _ H).
  - by rewrite (ens_present _ _ _ _ (dir_at_ens_absent _ _ _ H)).
Qed.

Lemma dir_at_ens_src p i t ds :
  dir_at t (ptbr t) i = Some (Some ds) ->
  dir_at (ens p i t) (ptbr t) i = Some (Some ds).
Proof.
  intros H. destruct (decide (p = ptbr t)) as [->|Hne].
  - by rewrite (ens_present _ _ _ _ H).
  - rewrite dir_at_ens_ne; [done | congruence].
Qed.

Lemma pte_at_ens_cong p i j t s0 :
  dir_at t p i = dir_at s0 p i ->
  pte_at (ens p i t) p i j = pte_at (ens p i s0) p i j.
Proof.
  intros H. destruct (dir_at s0 p i) as [[d|]|] eqn:Hd.
  - rewrite (ens_present _ _ _ _ H), (ens_present _ _ _ _ Hd).
    by rewrite (dir_pte_at _ _ _ _ _ H), (dir_pte_at _ _ _ _ _ Hd).
  - by rewrite (dir_pte_at _ _ _ _ _ (dir_at_ens_absent _ _ _ H)),
      (dir_pte_at _ _ _ _ _ (dir_at_ens_absent _ _ _ Hd)).
  - assert (forall u, dir_at u p i = None -> ens p i u = u) as Hout.
    { intros u Hu. unfold ens, ensure_dir, dir_at, index in *.
      destruct (heap u !! p) as [P|]; [|done]. simpl. by rewrite Hu. }
    rewrite (Hout _ H), (Hout _ Hd). unfold pte_at. by rewrite H, Hd.
Qed.

(** *** Well-formed states *)

Lemma wf_vm_ptbr s : wf_vm s = true -> ptbr s < length (heap s).
Proof. intros [_ H%Nat.ltb_lt]%andb_prop. done. Qed.

Lemma wf_vm_table s a P :
  wf_vm s = true -> heap s !! a = Some P ->
  length (ptable P) = NR_OUTER_PTES /\
  forall i d, ptable P !! i = Some (Some d) -> length d = NR_PTES_PER_PAGE.
Proof.
  intros [H _]%andb_prop HP.
  pose proof (forallb_lookup _ _ _ _ H HP) as [Hl Hd]%andb_prop.
  split; [by apply Nat.eqb_eq|].
  intros i d Hi. pose proof (forallb_lookup _ _ _ _ Hd Hi) as Hd'.
  by apply Nat.eqb_eq.
Qed.

Lemma wf_vm_dir_at s a i :
  wf_vm s = true -> a < length (heap s) -> i < NR_OUTER_PTES ->
  exists od, dir_at s a i = Some od /\
             forall d, od = Some d -> length d = NR_PTES_PER_PAGE.
Proof.
  intros Hwf Ha Hi. destruct (lookup_lt_is_Some_2 _ _ Ha) as [P HP].
  destruct (wf_vm_table _ _ _ Hwf HP) as [Hlen Hdirs].
  destruct (lookup_lt_is_Some_2 (ptable P) i) as [od Hod]; [lia|].
  exists od. unfold dir_at. rewrite HP. split; [done|].
  intros d ->. by eapply Hdirs.
Qed.

Lemma frames_ok_pte s a i j e :
  frames_ok s = true -> pte_at s a i j = Some e -> valid e = true ->
  pfn e < length (mapcounts s).
Proof.
  intros Hok (d & Hd & Hj)%pte_at_dir Hv. unfold dir_at in Hd.
  destruct (heap s !! a) as [P|] eqn:HP; [|done].
  pose proof (forallb_lookup _ _ _ _ Hok HP) as Ht.
  pose proof (forallb_lookup _ _ _ _ Ht Hd) as Hdir. simpl in Hdir.
  pose proof (forallb_lookup _ _ _ _ Hdir Hj) as He. simpl in He.
  rewrite Hv in He. simpl in He. by apply Nat.ltb_lt.
Qed.

Lemma wf_table_fresh : wf_table (replicate NR_OUTER_PTES None) = true.
Proof.
  unfold wf_table. rewrite length_replicate, Nat.eqb_refl. simpl.
  induction NR_OUTER_PTES as [|n IH]; simpl; done.
Qed.

(** A process structure whose slots all read as NULL. *)
Lemma malloc_process_null a :
  fresh_slots_null a ->
  ptable (malloc_process a) = replicate NR_OUTER_PTES None.
Proof.
  intros H. unfold malloc_process. simpl.
  rewrite <- (length_seq NR_OUTER_PTES 0) at 2.
  apply const_fmap. intros k i [-> Hk]%lookup_seq. simpl. by rewrite H.
Qed.

Lemma fork_start_null s target :
  fresh_slots_null (length (heap s)) ->
  fork_start target s =
    Vm (heap s ++ [Process target (replicate NR_OUTER_PTES None)])
       (processes s ++ [length (heap s)]) (current s) (ptbr s) (mapcounts s).
Proof. intros H. unfold fork_start. by rewrite (malloc_process_null _ H). Qed.

Lemma wf_vm_fork s target :
  wf_vm s = true ->
  fresh_slots_null (length (heap s)) ->
  wf_vm (fork_start target s) = true.
Proof.
  intros [Hh Hp%Nat.ltb_lt]%andb_prop Hnull.
  rewrite (fork_start_null _ _ Hnull). unfold wf_vm. simpl.
  rewrite forallb_app, Hh. simpl. rewrite wf_table_fresh. simpl.
  apply Nat.ltb_lt. rewrite length_app. simpl. lia.
Qed.

(** *** The counters *)

Lemma incr_mapcount_Some f s c :
  mapcounts s !! f = Some c ->
  incr_mapcount f s = Ok (set_mapcounts (<[f := wrap32 (c + 1)]> (mapcounts
      s)) s).
Proof. intros H. unfold incr_mapcount. by rewrite (index_Some _ _ _ H). Qed.

Lemma decr_mapcount_Some f s c :
  mapcounts s !! f = Some c ->
  decr_mapcount f s = Ok (set_mapcounts (<[f := wrap32 (c - 1)]> (mapcounts
      s)) s).
Proof. intros H. unfold decr_mapcount. by rewrite (index_Some _ _ _ H). Qed.

Lemma poke_set_mapcounts a i j x mc s :
  poke a i j x (set_mapcounts mc s) = set_mapcounts mc (poke a i j x s).
Proof.
  unfold poke. simpl. destruct (heap s !! a) as [P|]; [|done].
  by destruct (ptable P !! i) as [[d|]|].
Qed.

Lemma pte_at_set_mapcounts mc s a i j :
  pte_at (set_mapcounts mc s) a i j = pte_at s a i j.
Proof. done. Qed.

Lemma modify_set_mapcounts a i j f x mc s d :
  pte_at s a i j = Some d ->
  modify_pte a i j f (set_mapcounts mc (poke a i j x s)) =
    Ok (set_mapcounts mc (poke a i j (f x) s)).
Proof.
  intros H. pose proof (pte_at_poke_eq _ _ _ x _ _ H) as H'.
  rewrite (modify_pte_Some a i j f (set_mapcounts mc (poke a i j x s)) x H').
  by rewrite poke_set_mapcounts, poke_poke.
Qed.

Lemma set_mapcounts_poke_id a i j x s :
  set_mapcounts (mapcounts s) (poke a i j x s) = poke a i j x s.
Proof. rewrite <- poke_set_mapcounts. f_equal. by destruct s. Qed.

Create Rewrite HintDb vm.
Hint Rewrite ptbr_poke ptbr_ens mapcounts_poke mapcounts_ens
  processes_poke processes_ens current_poke current_ens
  length_heap_poke length_heap_ens : vm.

(** *** Counting references *)

Lemma refcounts_exactb_true s : refcounts_exactb s = true -> refcounts_exact s.
Proof.
  intros H f c Hc. unfold refcounts_exactb in H.
  assert (imap (fun f c => (f, c)) (mapcounts s) !! f = Some (f, c)) as Hfc.
  { by rewrite list_lookup_imap, Hc. }
  pose proof (forallb_lookup _ _ _ _ H Hfc) as Heq. simpl in Heq.
  by apply Z.eqb_eq.
Qed.

Lemma refcounts_exact_32 s :
  refcounts_exact s ->
  (forall f c, mapcounts s !! f = Some c -> (c < 2 ^ 32)%Z) ->
  refcounts_exact32 s.
Proof.
  intros Hexact Hrange f c Hc. pose proof (Hexact _ _ Hc).
  pose proof (Hrange _ _ Hc). rewrite wrap32_small; lia.
Qed.

Lemma sum_map_insert {A : Type} (g : A -> nat) (l : list A) (i : nat) (x y :
    A) :
  l !! i = Some x ->
  sum_list (map g (<[i := y]> l)) + g x = sum_list (map g l) + g y.
Proof.
  revert i. induction l as [|z l IH]; intros [|i]; simpl; try discriminate.
  - intros [= ->]. lia.
  - intros H. specialize (IH _ H). lia.
Qed.

Lemma count_directory_insert f (d : pte_directory) j e x :
  d !! j = Some e ->
  count_directory f (<[j := x]> d) + (if maps_frame f e then 1 else 0)
  = count_directory f d + (if maps_frame f x then 1 else 0).
Proof.
  intros H. unfold count_directory.
  exact (sum_map_insert (fun e => if maps_frame f e then 1 else 0) _ _ _ x H).
Qed.

Lemma count_table_insert f (t : pagetable) i od od' :
  t !! i = Some od ->
  count_table f (<[i := od']> t)
  + match od with Some d => count_directory f d | None => 0 end
  = count_table f t
    + match od' with Some d => count_directory f d | None => 0 end.
Proof.
  intros H. unfold count_table.
  exact (sum_map_insert
           (fun od => match od with
                      | Some d => count_directory f d
                      | None => 0
                      end) _ _ _ od' H).
Qed.

Lemma count_refs_insert f s a P t :
  heap s !! a = Some P ->
  count_refs (set_heap (<[a := Process (pid P) t]> (heap s)) s) f
  + count_table f (ptable P)
  = count_refs s f + count_table f t.
Proof.
  intros H. unfold count_refs. simpl.
  exact (sum_map_insert (fun P => count_table f (ptable P)) _ _ _
           (Process (pid P) t) H).
Qed.

Lemma count_refs_poke a i j x s e f :
  pte_at s a i j = Some e ->
  count_refs (poke a i j x s) f + (if maps_frame f e then 1 else 0)
  = count_refs s f + (if maps_frame f x then 1 else 0).
Proof.
  intros (d & Hd & Hj)%pte_at_dir. unfold dir_at in Hd. unfold poke.
  destruct (heap s !! a) as [P|] eqn:HP; [|done]. rewrite Hd.
  pose proof (count_refs_insert f s a P
                (<[i := Some (<[j := x]> d)]> (ptable P)) HP) as H1.
  pose proof (count_table_insert f _ _ _ (Some (<[j := x]> d)) Hd) as H2.
  pose proof (count_directory_insert f _ _ _ x Hj) as H3.
  simpl in H2. lia.
Qed.

Lemma count_table_replicate_None f n : count_table f (replicate n None) = 0.
Proof. unfold count_table. induction n as [|n IH]; simpl; done. Qed.

Lemma count_directory_invalid f d :
  (forall j e, d !! j = Some e -> valid e = false) -> count_directory f d = 0.
Proof.
  unfold count_directory. induction d as [|e d IH]; intros H; simpl; [done|].
  unfold maps_frame at 1. rewrite (H 0 e eq_refl). simpl.
  apply IH. intros j e' He'. by apply (H (S j)).
Qed.

Lemma count_directory_malloc f a i :
  (forall j, valid (fresh_pte a i j) = false) ->
  count_directory f (malloc_directory a i) = 0.
Proof.
  intros H. apply count_directory_invalid.
  intros j e [_ ->]%malloc_directory_lookup_inv. apply H.
Qed.

(** A directory in which at most the entry [j] is valid. *)
Lemma count_directory_single f (d : pte_directory) j e :
  d !! j = Some e ->
  (forall j' e', j' <> j -> d !! j' = Some e' -> valid e' = false) ->
  count_directory f d = if maps_frame f e then 1 else 0.
Proof.
  intros He Hothers.
  pose proof (count_directory_insert f d j e zero_pte He) as H.
  rewrite count_directory_invalid in H; [simpl in H; lia|].
  intros j' e' He'. destruct (decide (j' = j)) as [->|Hne].
  - rewrite list_lookup_insert_eq in He' by (by eapply lookup_lt_Some).
    by injection He' as <-.
  - rewrite list_lookup_insert_ne in He' by done. by eapply Hothers.
Qed.

(** A directory that [ensure_dir] allocates brings along the references
    that its fresh entries happen to hold. *)
Lemma count_refs_ens_absent a i s f :
  dir_at s a i = Some None ->
  count_refs (ens a i s) f
    = count_refs s f + count_directory f (malloc_directory a i).
Proof.
  unfold dir_at, ens, ensure_dir, index.
  destruct (heap s !! a) as [P|] eqn:HP; [|done].
  simpl. intros Hi. rewrite Hi. simpl.
  pose proof (count_refs_insert f s a P
                (<[i := Some (malloc_directory a i)]> (ptable P)) HP) as H1.
  pose proof (count_table_insert f _ _ _ (Some (malloc_directory a i)) Hi)
    as H2.
  simpl in H2. lia.
Qed.

Lemma ens_out a i s : dir_at s a i = None -> ens a i s = s.
Proof.
  unfold ens, ensure_dir, dir_at, index.
  destruct (heap s !! a) as [P|]; [|done]. simpl. by intros ->.
Qed.

Lemma count_refs_ens_cases a i s f :
  count_refs (ens a i s) f = count_refs s f \/
  count_refs (ens a i s) f
    = count_refs s f + count_directory f (malloc_directory a i).
Proof.
  destruct (dir_at s a i) as [[d|]|] eqn:Hd.
  - left. by rewrite (ens_present _ _ _ _ Hd).
  - right. by apply count_refs_ens_absent.
  - left. by rewrite (ens_out _ _ _ Hd).
Qed.

Lemma count_refs_ens a i s f :
  (forall j, valid (fresh_pte a i j) = false) ->
  count_refs (ens a i s) f = count_refs s f.
Proof.
  intros H. destruct (count_refs_ens_cases a i s f) as [->| ->]; [done|].
  rewrite count_directory_malloc by done. lia.
Qed.

Lemma count_refs_ens_le a i s f : count_refs s f <= count_refs (ens a i s) f.
Proof. destruct (count_refs_ens_cases a i s f) as [->| ->]; lia. Qed.

(** ** alloc_page *)

(** On the 2-bit masks the test of the code is the write bit; beyond
    them it is not ([6] has bit 1 set and is not taken for a write). *)
Lemma is_write_testbit rw : rw < 4 -> is_write rw = Nat.testbit rw 1.
Proof.
  intros H. destruct rw as [|[|[|[|rw]]]]; try reflexivity. lia.
Qed.

Lemma is_write_beyond_mask : is_write 6 = false /\ Nat.testbit 6 1 = true.
Proof. by split. Qed.

Lemma split_vpn vpn :
  vpn < NR_OUTER_PTES * NR_PTES_PER_PAGE ->
  vpn / NR_PTES_PER_PAGE < NR_OUTER_PTES /\
  vpn mod NR_PTES_PER_PAGE < NR_PTES_PER_PAGE.
Proof.
  intros H. split.
  - apply Nat.Div0.div_lt_upper_bound. lia.
  - apply Nat.mod_upper_bound. destruct NR_PTES_PER_PAGE; lia.
Qed.

(** The state [alloc_page] leaves. *)
Lemma alloc_page_state s vpn rw od e0 f :
  dir_at s (ptbr s) (vpn / NR_PTES_PER_PAGE) = Some od ->
  pte_at (ens (ptbr s) (vpn / NR_PTES_PER_PAGE) s) (ptbr s)
    (vpn / NR_PTES_PER_PAGE) (vpn mod NR_PTES_PER_PAGE) = Some e0 ->
  lowest_free (mapcounts s) f ->
  alloc_page vpn rw s =
    Ok (set_mapcounts (<[f := 1%Z]> (mapcounts s))
          (poke (ptbr s) (vpn / NR_PTES_PER_PAGE) (vpn mod NR_PTES_PER_PAGE)
             (Pte true (is_write rw) f (private e0))
             (ens (ptbr s) (vpn / NR_PTES_PER_PAGE) s)), f).
Proof.
  intros Hod He0 Hlow.
  unfold alloc_page. cbv zeta.
  rewrite (ensure_dir_Ok _ _ _ _ Hod). cbn [bind]. autorewrite with vm.
  rewrite (modify_pte_Some _ _ _ _ _ _ He0). cbn [bind]. autorewrite with vm.
  assert (forall (w : bool) (g : vm), (if w
            then modify_pte (ptbr s) (vpn / NR_PTES_PER_PAGE)
                   (vpn mod NR_PTES_PER_PAGE) (set_writable true) g
            else modify_pte (ptbr s) (vpn / NR_PTES_PER_PAGE)
                   (vpn mod NR_PTES_PER_PAGE) (set_writable false) g)
          = modify_pte (ptbr s) (vpn / NR_PTES_PER_PAGE)
              (vpn mod NR_PTES_PER_PAGE) (set_writable w) g) as Hif
    by (by intros []).
  rewrite Hif. clear Hif.
  rewrite (modify_poke _ _ _ _ _ _ _ He0). cbn [bind]. autorewrite with vm.
  rewrite (proj2 (first_free_Ok _ _) Hlow). cbn [bind].
  rewrite (modify_poke _ _ _ _ _ _ _ He0). cbn [bind].
  erewrite incr_mapcount_Some by (autorewrite with vm; apply Hlow).
  cbn [bind]. by autorewrite with vm.
Qed.

(** C4: whenever some frame has reference count zero, [alloc_page]
    returns the smallest-indexed frame whose count is zero at call time,
    leaves the entry of [vpn] valid and pointing to that frame (the
    directory is allocated when it was absent, and no other slot of the
    table changes), makes it writable exactly when bit 1 of the
    permission is set, and raises that frame's count from 0 to 1.  The
    permission is a 2-bit mask and [vpn] is within the table. *)
Theorem alloc_page_lowest_free s vpn rw :
  wf_vm s = true ->
  vpn < NR_OUTER_PTES * NR_PTES_PER_PAGE ->
  rw < 4 ->
  (exists f, mapcounts s !! f = Some 0%Z) ->
  exists s' f e,
    alloc_page vpn rw s = Ok (s', f) /\
    lowest_free (mapcounts s) f /\
    pte_at s' (ptbr s) (vpn / NR_PTES_PER_PAGE) (vpn mod NR_PTES_PER_PAGE)
      = Some e /\
    valid e = true /\ pfn e = f /\ writable e = Nat.testbit rw 1 /\
    mapcounts s' = <[f := 1%Z]> (mapcounts s) /\
    ptbr s' = ptbr s /\
    (forall i, i <> vpn / NR_PTES_PER_PAGE ->
               dir_at s' (ptbr s) i = dir_at s (ptbr s) i).
Proof.
  intros Hwf Hvpn Hrw [f0 Hf0].
  destruct (split_vpn _ Hvpn) as [Hpd Hpt].
  destruct (wf_vm_dir_at s (ptbr s) _ Hwf (wf_vm_ptbr _ Hwf) Hpd)
    as (od & Hod & Hlen).
  destruct (pte_at_ens _ _ _ _ _ Hod Hlen Hpt) as [e0 He0].
  destruct (first_free_find _ _ Hf0) as [f Hlow%first_free_Ok].
  rewrite (alloc_page_state _ _ _ _ _ _ Hod He0 Hlow).
  eexists _, f, _. split; [reflexivity|]. split; [done|].
  split; [by apply (pte_at_poke_eq _ _ _ _ _ e0)|].
  split; [done|]. split; [done|].
  split; [by apply is_write_testbit|].
  split; [done|]. split; [simpl; by autorewrite with vm|].
  intros i Hi. change (dir_at (set_mapcounts ?mc ?t) ?a ?b) with (dir_at t a b).
  rewrite dir_at_poke_ne by congruence. apply dir_at_ens_ne. congruence.
Qed.

(** The frame returned is always a free one, hence an index into
    [mapcounts]: no call returns the sentinel of line 91. *)
Lemma alloc_page_returns_free s vpn rw s' r :
  alloc_page vpn rw s = Ok (s', r) -> lowest_free (mapcounts s) r.
Proof.
  unfold alloc_page. cbv zeta.
  intros (s1 & H1 & H)%bind_Ok. apply ensure_dir_Ok_inv in H1 as ->.
  apply bind_Ok in H as (s2 & H2 & H).
  apply modify_pte_Ok_inv in H2 as (e2 & _ & ->).
  apply bind_Ok in H as (s3 & H3 & H).
  assert (mapcounts s3 = mapcounts s) as Hmc.
  { destruct (is_write rw);
      apply modify_pte_Ok_inv in H3 as (e3 & _ & ->); by autorewrite with vm. }
  apply bind_Ok in H as (i & Hi & H). rewrite Hmc in Hi.
  apply bind_Ok in H as (s4 & _ & H).
  apply bind_Ok in H as (s5 & _ & [= _ <-]).
  by apply first_free_Ok.
Qed.

(** With no free frame the scan of line 80 leaves the array: the call
    has no defined result. *)
Lemma alloc_page_no_free_frame s vpn rw :
  (forall f c, mapcounts s !! f = Some c -> c <> 0%Z) ->
  exists flt, alloc_page vpn rw s = Undefined flt.
Proof.
  intros Hfull. destruct (alloc_page vpn rw s) as [[s' r]|flt] eqn:H; [|eauto].
  apply alloc_page_returns_free in H as [H _]. by destruct (Hfull _ _ H).
Qed.

(** X15: [alloc_page] on a page that is not mapped keeps the reference
    counts exact, provided that, if it has to allocate the directory,
    the other entries of the memory it gets are not valid: the entry it
    validates is then the one reference of the frame it takes, whose
    counter goes from 0 to 1.  What the entry of [vpn] itself held does
    not matter: lines 70-87 overwrite [valid] and [pfn]. *)
Lemma alloc_page_keeps_refcounts s vpn rw :
  wf_vm s = true ->
  vpn < NR_OUTER_PTES * NR_PTES_PER_PAGE ->
  (exists f, mapcounts s !! f = Some 0%Z) ->
  (forall e, pte_at s (ptbr s) (vpn / NR_PTES_PER_PAGE)
               (vpn mod NR_PTES_PER_PAGE) = Some e -> valid e = false) ->
  (dir_at s (ptbr s) (vpn / NR_PTES_PER_PAGE) = Some None ->
   forall j, j <> vpn mod NR_PTES_PER_PAGE ->
             valid (fresh_pte (ptbr s) (vpn / NR_PTES_PER_PAGE) j) = false) ->
  refcounts_exact s ->
  exists s' f, alloc_page vpn rw s = Ok (s', f) /\ refcounts_exact s'.
Proof.
  intros Hwf Hvpn [f0 Hf0] Hunmapped Hfresh Hexact.
  destruct (split_vpn _ Hvpn) as [Hpd Hpt].
  destruct (wf_vm_dir_at s (ptbr s) _ Hwf (wf_vm_ptbr _ Hwf) Hpd)
    as (od & Hod & Hlen).
  destruct (pte_at_ens _ _ _ _ _ Hod Hlen Hpt) as [e0 He0].
  destruct (first_free_find _ _ Hf0) as [f Hf%first_free_Ok].
  rewrite (alloc_page_state _ _ _ _ _ _ Hod He0 Hf).
  eexists _, f. split; [reflexivity|].
  assert (forall g,
            count_refs (ens (ptbr s) (vpn / NR_PTES_PER_PAGE) s) g
            = count_refs s g + (if maps_frame g e0 then 1 else 0)) as Hens.
  { intros g. destruct od as [d|].
    - rewrite (ens_present _ _ _ _ Hod) in *.
      unfold maps_frame. rewrite (Hunmapped _ He0). simpl. lia.
    - rewrite (count_refs_ens_absent _ _ _ _ Hod). f_equal.
      rewrite (dir_pte_at _ _ _ _ _ (dir_at_ens_absent _ _ _ Hod)) in He0.
      apply (count_directory_single _ _ _ _ He0).
      intros j' e' Hj' [_ ->]%malloc_directory_lookup_inv. by apply Hfresh. }
  intros g c Hg. simpl in Hg.
  change (count_refs (set_mapcounts ?mc ?t) g) with (count_refs t g).
  pose proof (count_refs_poke _ _ _ (Pte true (is_write rw) f (private e0))
                _ _ g He0) as Hcount.
  rewrite Hens in Hcount.
  change (maps_frame g (Pte true (is_write rw) f (private e0)))
    with (f =? g) in Hcount.
  destruct (maps_frame g e0).
  all: destruct Hf as [Hzero _].
  all: destruct (decide (f = g)) as [<-|Hne];
    [ rewrite list_lookup_insert_eq in Hg by (by eapply lookup_lt_Some);
      injection Hg as <-; rewrite Nat.eqb_refl in Hcount;
      specialize (Hexact _ _ Hzero); lia
    | rewrite list_lookup_insert_ne in Hg by done;
      destruct (Nat.eqb_spec f g); [done|];
      specialize (Hexact _ _ Hg); lia ].
Qed.

(** X23: the memory of a directory that [alloc_page] allocates (line
    68) is used as it comes.  When another entry of it happens to read
    as valid, with a frame inside [mapcounts], the call succeeds and
    leaves that entry in the table, a mapping that no counter accounts
    for: the reference counts, exact before the call, are not exact
    after it. *)
Lemma alloc_page_fresh_directory_uncounted s vpn rw j :
  wf_vm s = true ->
  vpn < NR_OUTER_PTES * NR_PTES_PER_PAGE ->
  (exists f, mapcounts s !! f = Some 0%Z) ->
  dir_at s (ptbr s) (vpn / NR_PTES_PER_PAGE) = Some None ->
  j < NR_PTES_PER_PAGE ->
  j <> vpn mod NR_PTES_PER_PAGE ->
  valid (fresh_pte (ptbr s) (vpn / NR_PTES_PER_PAGE) j) = true ->
  pfn (fresh_pte (ptbr s) (vpn / NR_PTES_PER_PAGE) j) < length (mapcounts s) ->
  refcounts_exact s ->
  exists s' f,
    alloc_page vpn rw s = Ok (s', f) /\
    pte_at s' (ptbr s) (vpn / NR_PTES_PER_PAGE) j
      = Some (fresh_pte (ptbr s) (vpn / NR_PTES_PER_PAGE) j) /\
    ~ refcounts_exact s'.
Proof.
  intros Hwf Hvpn [f0 Hf0] Hod Hj Hne Hvalid Hrange Hexact.
  destruct (split_vpn _ Hvpn) as [Hpd Hpt].
  pose proof (dir_at_ens_absent _ _ _ Hod) as Hens.
  pose proof (malloc_directory_lookup (ptbr s) (vpn / NR_PTES_PER_PAGE) _ Hpt)
    as Hpte.
  pose proof (malloc_directory_lookup (ptbr s) (vpn / NR_PTES_PER_PAGE) _ Hj)
    as Hjunk.
  set (e0 := fresh_pte (ptbr s) (vpn / NR_PTES_PER_PAGE)
               (vpn mod NR_PTES_PER_PAGE)) in *.
  set (x := fresh_pte (ptbr s) (vpn / NR_PTES_PER_PAGE) j) in *.
  assert (pte_at (ens (ptbr s) (vpn / NR_PTES_PER_PAGE) s) (ptbr s)
            (vpn / NR_PTES_PER_PAGE) (vpn mod NR_PTES_PER_PAGE) = Some e0)
    as He0 by (by rewrite (dir_pte_at _ _ _ _ _ Hens)).
  destruct (first_free_find _ _ Hf0) as [f Hf%first_free_Ok].
  rewrite (alloc_page_state _ _ _ _ _ _ Hod He0 Hf).
  eexists _, f. split; [reflexivity|]. split.
  { change (pte_at (set_mapcounts ?mc ?t) ?a ?b ?c) with (pte_at t a b c).
    rewrite pte_at_poke_ne by congruence.
    by rewrite (dir_pte_at _ _ _ _ _ Hens). }
  intros Hexact'.
  destruct (lookup_lt_is_Some_2 _ _ Hrange) as [c Hc].
  pose proof (count_refs_poke _ _ _ (Pte true (is_write rw) f (private e0))
                _ _ (pfn x) He0) as Hcount.
  rewrite (count_refs_ens_absent _ _ _ _ Hod) in Hcount.
  pose proof (count_directory_insert (pfn x) _ _ _ zero_pte Hpte) as H1.
  assert (<[vpn mod NR_PTES_PER_PAGE := zero_pte]>
            (malloc_directory (ptbr s) (vpn / NR_PTES_PER_PAGE)) !! j
          = Some x) as Hjunk' by (by rewrite list_lookup_insert_ne).
  pose proof (count_directory_insert (pfn x) _ _ _ zero_pte Hjunk') as H2.
  assert (maps_frame (pfn x) x = true) as Hx
    by (unfold maps_frame; by rewrite Hvalid, Nat.eqb_refl).
  rewrite Hx in H2.
  change (maps_frame (pfn x) zero_pte) with false in H1, H2.
  cbv iota in H1, H2.
  change (maps_frame (pfn x) (Pte true (is_write rw) f (private e0)))
    with (f =? pfn x) in Hcount.
  destruct Hf as [Hzero _].
  destruct (decide (f = pfn x)) as [Heq|Hneq].
  - specialize (Hexact' (pfn x) 1%Z). simpl in Hexact'.
    rewrite <- Heq in Hexact' at 1.
    rewrite list_lookup_insert_eq in Hexact' by (by eapply lookup_lt_Some).
    specialize (Hexact' eq_refl).
    change (count_refs (set_mapcounts ?mc ?t) ?g) with (count_refs t g)
      in Hexact'.
    rewrite (proj2 (Nat.eqb_eq _ _) Heq) in Hcount.
    pose proof (Hexact _ _ Hzero) as Hz. rewrite Heq in Hz.
    destruct (maps_frame (pfn x) e0); lia.
  - specialize (Hexact' (pfn x) c). simpl in Hexact'.
    rewrite list_lookup_insert_ne in Hexact' by done.
    specialize (Hexact' Hc).
    change (count_refs (set_mapcounts ?mc ?t) ?g) with (count_refs t g)
      in Hexact'.
    specialize (Hexact _ _ Hc).
    destruct (Nat.eqb_spec f (pfn x)); [done|].
    destruct (maps_frame (pfn x) e0); lia.
Qed.

(** ** handle_page_fault *)

Lemma cow_fault_test e rw :
  cow_fault e rw = true ->
  valid e = true /\
  negb (writable e) && is_write rw && (private e =? 1)%Z = true.
Proof.
  unfold cow_fault. destruct (valid e), (writable e), (is_write rw),
    (private e =? 1)%Z; simpl; try discriminate. done.
Qed.

(** The test of line 140 passes and the frame is not shared: only
    [writable] changes. *)
Lemma handle_page_fault_exclusive s vpn rw e c :
  pte_at s (ptbr s) (vpn / NR_PTES_PER_PAGE) (vpn mod NR_PTES_PER_PAGE)
    = Some e ->
  negb (writable e) && is_write rw && (private e =? 1)%Z = true ->
  mapcounts s !! pfn e = Some c ->
  (c <= 1)%Z ->
  handle_page_fault vpn rw s =
    Ok (poke (ptbr s) (vpn / NR_PTES_PER_PAGE) (vpn mod NR_PTES_PER_PAGE)
          (set_writable true e) s, true).
Proof.
  intros He Hcond Hc Hle. unfold handle_page_fault. cbv zeta.
  rewrite (read_pte_Some _ _ _ _ _ He). cbn [bind]. rewrite Hcond.
  rewrite (modify_pte_Some _ _ _ _ _ _ He). cbn [bind]. autorewrite with vm.
  apply (pte_at_poke_eq _ _ _ (set_writable true e)) in He.
  rewrite (read_pte_Some _ _ _ _ _ He). cbn [bind]. autorewrite with vm.
  simpl pfn. rewrite (index_Some _ _ _ Hc). cbn [bind].
  destruct (Z.ltb_spec 1 c); [lia | done].
Qed.

(** The test of line 140 passes and the frame is shared: the old frame
    loses a reference, the lowest free frame gains one and backs the
    entry. *)
Lemma handle_page_fault_shared s vpn rw e c f :
  pte_at s (ptbr s) (vpn / NR_PTES_PER_PAGE) (vpn mod NR_PTES_PER_PAGE)
    = Some e ->
  negb (writable e) && is_write rw && (private e =? 1)%Z = true ->
  mapcounts s !! pfn e = Some c ->
  (1 < c < 2 ^ 32)%Z ->
  lowest_free (mapcounts s) f ->
  handle_page_fault vpn rw s =
    Ok (set_mapcounts (<[f := 1%Z]> (<[pfn e := (c - 1)%Z]> (mapcounts s)))
          (poke (ptbr s) (vpn / NR_PTES_PER_PAGE) (vpn mod NR_PTES_PER_PAGE)
             (set_pfn f (set_writable true e)) s), true).
Proof.
  intros He Hcond Hc Hrange Hlow. unfold handle_page_fault. cbv zeta.
  rewrite (read_pte_Some _ _ _ _ _ He). cbn [bind]. rewrite Hcond.
  rewrite (modify_pte_Some _ _ _ _ _ _ He). cbn [bind]. autorewrite with vm.
  apply (pte_at_poke_eq _ _ _ (set_writable true e)) in He.
  rewrite (read_pte_Some _ _ _ _ _ He). cbn [bind]. autorewrite with vm.
  simpl pfn. rewrite (index_Some _ _ _ Hc). cbn [bind].
  destruct (Z.ltb_spec 1 c); [|lia].
  erewrite decr_mapcount_Some by (autorewrite with vm; exact Hc).
  cbn [bind]. simpl mapcounts. autorewrite with vm.
  rewrite wrap32_small by lia.
  assert (lowest_free (<[pfn e := (c - 1)%Z]> (mapcounts s)) f) as Hlow'.
  { apply (lowest_free_insert _ _ _ c); [done | lia | lia | done]. }
  rewrite (proj2 (first_free_Ok _ _) Hlow'). cbn [bind]. simpl ptbr.
  autorewrite with vm.
  match goal with
  | |- context [modify_pte ?a ?i ?j ?g ?t] =>
      rewrite (modify_pte_Some a i j g t _ He)
  end.
  cbn [bind]. rewrite poke_set_mapcounts, poke_poke.
  erewrite incr_mapcount_Some by (simpl; apply Hlow').
  done.
Qed.

Lemma handle_page_fault_no_directory s vpn rw :
  dir_at s (ptbr s) (vpn / NR_PTES_PER_PAGE) = Some None ->
  handle_page_fault vpn rw s = Undefined NullDeref.
Proof.
  unfold handle_page_fault, read_pte, dir_at, index. cbv zeta.
  destruct (heap s !! ptbr s) as [P|]; [|discriminate]. simpl.
  by intros ->.
Qed.

(** Where the entry exists and is valid, the answer is as specified:
    false unless the fault is a copy-on-write fault, and then nothing
    changes.  (The test of line 140 does not look at [valid].) *)
Lemma handle_page_fault_not_cow s vpn rw e :
  pte_at s (ptbr s) (vpn / NR_PTES_PER_PAGE) (vpn mod NR_PTES_PER_PAGE)
    = Some e ->
  valid e = true ->
  cow_fault e rw = false ->
  handle_page_fault vpn rw s = Ok (s, false).
Proof.
  intros He Hv Hcow. unfold handle_page_fault. cbv zeta.
  rewrite (read_pte_Some _ _ _ _ _ He). cbn [bind].
  unfold cow_fault in Hcow. rewrite Hv in Hcow.
  by destruct (writable e), (is_write rw), (private e =? 1)%Z.
Qed.


(** C7: a copy-on-write fault on an entry whose frame has reference
    count exactly 1 returns true, makes the entry writable, and changes
    neither the entry's frame nor any reference count. *)
Theorem cow_fault_refcount_one s vpn rw e :
  pte_at s (ptbr s) (vpn / NR_PTES_PER_PAGE) (vpn mod NR_PTES_PER_PAGE)
    = Some e ->
  cow_fault e rw = true ->
  mapcounts s !! pfn e = Some 1%Z ->
  exists s' e',
    handle_page_fault vpn rw s = Ok (s', true) /\
    pte_at s' (ptbr s) (vpn / NR_PTES_PER_PAGE) (vpn mod NR_PTES_PER_PAGE)
      = Some e' /\
    writable e' = true /\ pfn e' = pfn e /\ valid e' = valid e /\
    mapcounts s' = mapcounts s.
Proof.
  intros He [_ Hcond]%cow_fault_test Hc.
  rewrite (handle_page_fault_exclusive _ _ _ _ _ He Hcond Hc) by lia.
  eexists _, _. split; [reflexivity|].
  split; [by apply (pte_at_poke_eq _ _ _ _ _ e)|].
  by autorewrite with vm.
Qed.

(** X22: a copy-on-write fault on an entry whose frame has reference
    count greater than 1, when some frame is free: the call returns
    true, takes one reference from the old frame, points the entry to
    the lowest-indexed frame whose count is zero, raises that frame's
    count by one, and makes the entry writable; the counts of all other
    frames, and the sum of all counts, are unchanged. *)
Theorem cow_fault_refcount_shared s vpn rw e c :
  pte_at s (ptbr s) (vpn / NR_PTES_PER_PAGE) (vpn mod NR_PTES_PER_PAGE)
    = Some e ->
  cow_fault e rw = true ->
  mapcounts s !! pfn e = Some c ->
  (1 < c < 2 ^ 32)%Z ->
  (exists g, mapcounts s !! g = Some 0%Z) ->
  exists s' f e',
    handle_page_fault vpn rw s = Ok (s', true) /\
    lowest_free (mapcounts s) f /\
    pte_at s' (ptbr s) (vpn / NR_PTES_PER_PAGE) (vpn mod NR_PTES_PER_PAGE)
      = Some e' /\
    pfn e' = f /\ writable e' = true /\ f <> pfn e /\
    mapcounts s' !! pfn e = Some (c - 1)%Z /\
    mapcounts s' !! f = Some (0 + 1)%Z /\
    (forall g, g <> f -> g <> pfn e -> mapcounts s' !! g = mapcounts s !! g) /\
    sum_counts (mapcounts s') = sum_counts (mapcounts s).
Proof.
  intros He [_ Hcond]%cow_fault_test Hc Hrange [g Hg].
  destruct (first_free_find _ _ Hg) as [f Hf%first_free_Ok].
  rewrite (handle_page_fault_shared _ _ _ _ _ _ He Hcond Hc Hrange Hf).
  assert (f <> pfn e) as Hne.
  { destruct Hf as [Hf _]. intros ->. rewrite Hc in Hf. injection Hf. lia. }
  assert (pfn e < length (mapcounts s)) by (by eapply lookup_lt_Some).
  assert (f < length (mapcounts s)) by (eapply lookup_lt_Some, Hf).
  eexists _, f, _. split; [reflexivity|].
  split; [done|].
  split; [by apply (pte_at_poke_eq _ _ _ _ _ e)|].
  split; [done|]. split; [done|]. split; [done|]. simpl mapcounts.
  split.
  { rewrite list_lookup_insert_ne by done.
    by rewrite list_lookup_insert_eq. }
  split; [rewrite list_lookup_insert_eq; [done | by rewrite length_insert]|].
  split.
  { intros g' Hg1 Hg2. by rewrite !list_lookup_insert_ne. }
  rewrite (sum_counts_insert _ _ 0%Z).
  - rewrite (sum_counts_insert _ _ c) by done. lia.
  - rewrite list_lookup_insert_ne by done. apply Hf.
Qed.


(** X17: [handle_page_fault] on a valid entry keeps the reference
    counts exact, whichever way it goes: refused, resolved in place, or
    resolved by moving the entry from the shared frame to a free one,
    with one counter lowered and the other raised. *)
Lemma handle_page_fault_keeps_refcounts s vpn rw e :
  pte_at s (ptbr s) (vpn / NR_PTES_PER_PAGE) (vpn mod NR_PTES_PER_PAGE)
    = Some e ->
  valid e = true ->
  pfn e < length (mapcounts s) ->
  (exists g, mapcounts s !! g = Some 0%Z) ->
  (forall f c, mapcounts s !! f = Some c -> (c < 2 ^ 32)%Z) ->
  refcounts_exact s ->
  exists s' b, handle_page_fault vpn rw s = Ok (s', b) /\ refcounts_exact s'.
Proof.
  intros He Hv Hpfn [g0 Hg0] Hrange Hexact.
  destruct (lookup_lt_is_Some_2 _ _ Hpfn) as [c Hc].
  destruct (cow_fault e rw) eqn:Hcow.
  2: { rewrite (handle_page_fault_not_cow _ _ _ _ He Hv Hcow). eauto. }
  destruct (cow_fault_test _ _ Hcow) as [_ Hcond].
  destruct (Z.le_gt_cases c 1) as [Hle|Hgt].
  - rewrite (handle_page_fault_exclusive _ _ _ _ _ He Hcond Hc Hle).
    eexists _, _. split; [reflexivity|].
    intros g c' Hg. autorewrite with vm in Hg.
    pose proof (count_refs_poke _ _ _ (set_writable true e) _ _ g He) as Hcount.
    unfold maps_frame in Hcount. simpl in Hcount.
    specialize (Hexact _ _ Hg). lia.
  - destruct (first_free_find _ _ Hg0) as [f Hf%first_free_Ok].
    pose proof (Hrange _ _ Hc) as Hc32.
    rewrite (handle_page_fault_shared _ _ _ _ _ _ He Hcond Hc
               (conj Hgt Hc32) Hf).
    eexists _, _. split; [reflexivity|].
    intros g c' Hg. simpl in Hg.
    change (count_refs (set_mapcounts ?mc ?t) g) with (count_refs t g).
    pose proof (count_refs_poke _ _ _ (set_pfn f (set_writable true e))
                  _ _ g He) as Hcount.
    unfold maps_frame in Hcount. simpl in Hcount. rewrite Hv in Hcount.
    simpl in Hcount.
    assert (f <> pfn e) as Hfe.
    { destruct Hf as [Hf _]. intros ->. rewrite Hc in Hf. injection Hf. lia. }
    destruct Hf as [Hzero _].
    destruct (decide (f = g)) as [<-|Hfg].
    + rewrite list_lookup_insert_eq in Hg
        by (rewrite length_insert; by eapply lookup_lt_Some).
      injection Hg as <-. rewrite Nat.eqb_refl in Hcount.
      destruct (Nat.eqb_spec (pfn e) f); [congruence|].
      specialize (Hexact _ _ Hzero). lia.
    + rewrite list_lookup_insert_ne in Hg by done.
      destruct (Nat.eqb_spec f g); [done|].
      destruct (decide (pfn e = g)) as [<-|Heg].
      * rewrite list_lookup_insert_eq in Hg by done. injection Hg as <-.
        rewrite Nat.eqb_refl in Hcount. specialize (Hexact _ _ Hc). lia.
      * rewrite list_lookup_insert_ne in Hg by done.
        destruct (Nat.eqb_spec (pfn e) g); [done|].
        specialize (Hexact _ _ Hg). lia.
Qed.

(** ** free_page *)

Lemma free_page_mapped s vpn e c :
  pte_at s (ptbr s) (vpn / NR_PTES_PER_PAGE) (vpn mod NR_PTES_PER_PAGE)
    = Some e ->
  mapcounts s !! pfn e = Some c ->
  free_page vpn s =
    Ok (set_mapcounts (<[pfn e := wrap32 (c - 1)]> (mapcounts s))
          (poke (ptbr s) (vpn / NR_PTES_PER_PAGE) (vpn mod NR_PTES_PER_PAGE)
             (Pte false false (pfn e) 0%Z) s)).
Proof.
  intros He Hc. unfold free_page. cbv zeta.
  rewrite (modify_pte_Some _ _ _ _ _ _ He). cbn [bind]. autorewrite with vm.
  apply (pte_at_poke_eq _ _ _ (set_valid false e)) in He.
  rewrite (modify_pte_Some _ _ _ _ _ _ He). cbn [bind]. autorewrite with vm.
  apply (pte_at_poke_eq _ _ _ (set_writable false (set_valid false e))) in He.
  rewrite !poke_poke in *.
  rewrite (modify_pte_Some _ _ _ _ _ _ He). cbn [bind]. autorewrite with vm.
  apply (pte_at_poke_eq _ _ _
           (set_private 0 (set_writable false (set_valid false e)))) in He.
  rewrite !poke_poke in *.
  rewrite (read_pte_Some _ _ _ _ _ He). cbn [bind]. simpl pfn.
  erewrite decr_mapcount_Some by (autorewrite with vm; exact Hc).
  by autorewrite with vm.
Qed.

(** C9: for a [vpn] with a valid mapping in the current process,
    [free_page] leaves that entry with [valid], [writable] and [private]
    all cleared and takes exactly one reference from the frame it held
    (in [unsigned int] arithmetic; one less whenever the count was
    positive).  No other counter, no other entry of the current table
    and no other process is touched: an entry of another process that
    names the same frame is as it was. *)
Theorem free_page_valid_mapping s vpn e c :
  pte_at s (ptbr s) (vpn / NR_PTES_PER_PAGE) (vpn mod NR_PTES_PER_PAGE)
    = Some e ->
  valid e = true ->
  mapcounts s !! pfn e = Some c ->
  exists s' e',
    free_page vpn s = Ok s' /\
    pte_at s' (ptbr s) (vpn / NR_PTES_PER_PAGE) (vpn mod NR_PTES_PER_PAGE)
      = Some e' /\
    valid e' = false /\ writable e' = false /\ private e' = 0%Z /\
    mapcounts s' !! pfn e = Some (wrap32 (c - 1)) /\
    ((0 < c < 2 ^ 32)%Z -> mapcounts s' !! pfn e = Some (c - 1)%Z) /\
    (forall g, g <> pfn e -> mapcounts s' !! g = mapcounts s !! g) /\
    (forall a i j,
        (a, i, j) <> (ptbr s, vpn / NR_PTES_PER_PAGE, vpn mod
            NR_PTES_PER_PAGE) ->
        pte_at s' a i j = pte_at s a i j) /\
    (forall a, a <> ptbr s -> heap s' !! a = heap s !! a).
Proof.
  intros He _ Hc. rewrite (free_page_mapped _ _ _ _ He Hc).
  assert (pfn e < length (mapcounts s)) by (by eapply lookup_lt_Some).
  eexists _, _. split; [reflexivity|].
  split; [by apply (pte_at_poke_eq _ _ _ _ _ e)|].
  split; [done|]. split; [done|]. split; [done|]. simpl mapcounts.
  autorewrite with vm.
  split; [by rewrite list_lookup_insert_eq|].
  split.
  { intros Hpos. rewrite list_lookup_insert_eq by done.
    by rewrite wrap32_small by lia. }
  split; [intros g Hg; by rewrite list_lookup_insert_ne|].
  split.
  - intros a i j Hne. rewrite pte_at_set_mapcounts.
    apply pte_at_poke_ne. congruence.
  - intros a Ha. simpl. by apply heap_poke_ne.
Qed.

(** X16: [free_page] on a valid entry keeps the reference counts exact:
    the entry it invalidates is the reference it takes from the
    frame. *)
Lemma free_page_keeps_refcounts s vpn e :
  pte_at s (ptbr s) (vpn / NR_PTES_PER_PAGE) (vpn mod NR_PTES_PER_PAGE)
    = Some e ->
  valid e = true ->
  pfn e < length (mapcounts s) ->
  (forall f c, mapcounts s !! f = Some c -> (c < 2 ^ 32)%Z) ->
  refcounts_exact s ->
  exists s', free_page vpn s = Ok s' /\ refcounts_exact s'.
Proof.
  intros He Hv Hpfn Hrange Hexact.
  destruct (lookup_lt_is_Some_2 _ _ Hpfn) as [c Hc].
  rewrite (free_page_mapped _ _ _ _ He Hc). eexists. split; [reflexivity|].
  intros g c' Hg. simpl in Hg. autorewrite with vm in Hg.
  change (count_refs (set_mapcounts ?mc ?t) g) with (count_refs t g).
  pose proof (count_refs_poke _ _ _ (Pte false false (pfn e) 0) _ _ g He)
    as Hcount.
  unfold maps_frame in Hcount. rewrite Hv in Hcount. simpl in Hcount.
  destruct (decide (pfn e = g)) as [<-|Hne].
  - rewrite list_lookup_insert_eq in Hg by done. injection Hg as <-.
    rewrite Nat.eqb_refl in Hcount.
    pose proof (Hexact _ _ Hc). pose proof (Hrange _ _ Hc).
    rewrite wrap32_small by lia. lia.
  - rewrite list_lookup_insert_ne in Hg by done.
    destruct (Nat.eqb_spec (pfn e) g); [done|]. specialize (Hexact _ _ Hg). lia.
Qed.

(** ** switch_process *)

(** *** Loops *)

Lemma for_loop_invariant (I : nat -> vm -> Prop) body i n s :
  I i s ->
  (forall k t, i <= k < i + n -> I k t ->
               exists t', body k t = Ok (Continue t') /\ I (S k) t') ->
  exists s', for_loop body i n s = Ok s' /\ I (i + n) s'.
Proof.
  revert i s. induction n as [|n IH]; intros i s HI Hstep; simpl.
  - exists s. by rewrite Nat.add_0_r.
  - destruct (Hstep i s) as (t' & -> & HI'); [lia | done |]. cbn [bind].
    destruct (IH (S i) t' HI') as (s' & Hs' & Hpost).
    { intros k t Hk. apply Hstep. lia. }
    exists s'. split; [done|]. by replace (i + S n) with (S i + n) by lia.
Qed.

Lemma for_loop_break body i n s :
  body i s = Ok (Break s) -> for_loop body i n s = Ok s.
Proof. intros H. destruct n; simpl; [done|]. by rewrite H. Qed.

Lemma for_loop_start body i n s s1 :
  0 < n -> body i s = body i s1 ->
  for_loop body i n s = for_loop body i n s1.
Proof. intros Hn H. destruct n; [lia|]. simpl. by rewrite H. Qed.

(** *** The frame of the walks *)

Lemma same_outside_refl p s : same_outside p s s.
Proof. by repeat split. Qed.

Lemma same_outside_trans p s1 s2 s3 :
  same_outside p s1 s2 -> same_outside p s2 s3 -> same_outside p s1 s3.
Proof.
  intros (?&?&?&?&H5&?) (?&?&?&?&H5'&?). repeat split; try congruence.
  intros a Ha. rewrite H5' by done. by apply H5.
Qed.

Lemma same_outside_poke p i j x s : same_outside p s (poke p i j x s).
Proof.
  repeat split; autorewrite with vm; try done.
  - intros a Ha. by apply heap_poke_ne.
  - apply heap_poke_pid.
Qed.

Lemma same_outside_ens p i s : same_outside p s (ens p i s).
Proof.
  repeat split; autorewrite with vm; try done.
  - intros a Ha. by apply heap_ens_ne.
  - apply heap_ens_pid.
Qed.

Lemma same_outside_set_mapcounts p mc s s' :
  same_outside p s s' -> same_outside p s (set_mapcounts mc s').
Proof. done. Qed.

Lemma same_outside_dir p s s' a i :
  same_outside p s s' -> a <> p -> dir_at s' a i = dir_at s a i.
Proof. intros (_&_&_&_&H&_) Ha. apply dir_at_heap. by apply H. Qed.

(** *** One iteration of the inner loops *)

(** Runs the reads and writes of a loop body on the entry [(p, i, j)],
    given the entries [He] of the outgoing table and [Hd] of [p]. *)
Ltac run_body He Hd Hrel :=
  repeat first
    [ rewrite (read_pte_Some _ _ _ _ _ He)
    | rewrite (read_pte_Some _ _ _ _ _ Hd)
    | rewrite (read_poke_eq _ _ _ _ _ _ Hd)
    | rewrite (read_poke_alias _ _ _ _ _ _ _ Hrel Hd)
    | rewrite (read_poke_ne _ _ _ _ _ _ _ Hrel He)
    | rewrite (modify_pte_Some _ _ _ _ _ _ Hd)
    | rewrite (modify_poke _ _ _ _ _ _ _ Hd)
    | progress autorewrite with vm
    | progress cbn [bind negb valid pfn writable private
                    set_valid set_pfn set_writable set_private] ].

Lemma switch_entry_self d : switch_entry d d =
  set_writable false
    (if writable d || (private d =? 1)%Z then set_private 1 d else d).
Proof.
  unfold switch_entry. destruct d as [v w n z]. simpl.
  destruct (w || (z =? 1)%Z), v; reflexivity.
Qed.

Lemma switch_body_step p i j t e d :
  pte_at t (ptbr t) i j = Some e ->
  pte_at t p i j = Some d ->
  switch_body p i j t = Ok (Continue (poke p i j (switch_entry e d) t)).
Proof.
  intros He Hd.
  destruct (pte_at_dir _ _ _ _ _ He) as (ds & Hds & _).
  destruct (pte_at_dir _ _ _ _ _ Hd) as (dd & Hdd & _).
  unfold switch_body. rewrite (read_dir_Some _ _ _ _ Hds). cbn [bind].
  rewrite (ensure_dir_Ok _ _ _ _ Hdd), (ens_present _ _ _ _ Hdd). cbn [bind].
  rewrite (read_pte_Some _ _ _ _ _ He). cbn [bind].
  destruct (decide (ptbr t = p)) as [Heq|Hne].
  - assert (e = d) as <- by (rewrite Heq in He; congruence).
    rewrite switch_entry_self.
    destruct (writable e || (private e =? 1)%Z);
      destruct e as [[] w n z]; run_body He Hd Heq; done.
  - unfold switch_entry. cbv zeta.
    destruct (writable e || (private e =? 1)%Z);
      destruct d as [[] w n z]; run_body He Hd Hne; done.
Qed.

Lemma fork_body_step p i j t e d :
  ptbr t <> p ->
  pte_at t (ptbr t) i j = Some e ->
  pte_at t p i j = Some d ->
  (valid e = true -> pfn e < length (mapcounts t)) ->
  fork_body p i j t =
    Ok (Continue (set_mapcounts (bump e (mapcounts t))
                    (poke p i j (fork_entry e d) t))).
Proof.
  intros Hne He Hd Hpfn.
  destruct (pte_at_dir _ _ _ _ _ He) as (ds & Hds & _).
  destruct (pte_at_dir _ _ _ _ _ Hd) as (dd & Hdd & _).
  unfold fork_body. rewrite (read_dir_Some _ _ _ _ Hds). cbn [bind].
  rewrite (ensure_dir_Ok _ _ _ _ Hdd), (ens_present _ _ _ _ Hdd). cbn [bind].
  rewrite (read_pte_Some _ _ _ _ _ He). cbn [bind].
  unfold fork_entry, bump.
  destruct (valid e) eqn:Hv.
  - destruct (lookup_lt_is_Some_2 (mapcounts t) (pfn e)) as [c Hc]; [auto|].
    rewrite Hc.
    destruct (writable e || (private e =? 1)%Z);
      repeat (progress (run_body He Hd Hne; rewrite ?Hv));
      (erewrite incr_mapcount_Some by (autorewrite with vm; exact Hc));
      cbn [bind]; autorewrite with vm;
      rewrite (modify_set_mapcounts _ _ _ _ _ _ _ _ Hd); done.
  - destruct (writable e || (private e =? 1)%Z);
      repeat (progress (run_body He Hd Hne; rewrite ?Hv));
      by rewrite set_mapcounts_poke_id.
Qed.

(** *** The inner loop over one directory *)

Section inner_loop.

(** A loop body that, at [(i, j)], rewrites the entry of [p] by [g] and
    updates the counters within [R], under a condition [C] on the
    outgoing entry that [R] preserves and a condition [D] on the entry
    rewritten; it keeps [Q]. *)
Variable body : nat -> vm -> result flow.
Variables p i : nat.
Variable g : pte -> pte -> pte.
Variable R : list Z -> list Z -> Prop.
Variable C : pte -> list Z -> Prop.
Variable D : pte -> Prop.
Variable Q : vm -> Prop.
Variable s1 : vm.
Hypothesis R_refl : forall mc, R mc mc.
Hypothesis R_trans : forall m1 m2 m3, R m1 m2 -> R m2 m3 -> R m1 m3.
Hypothesis C_mono : forall e m1 m2, R m1 m2 -> C e m1 -> C e m2.
Hypothesis body_step : forall j t e d,
  ptbr t = ptbr s1 ->
  pte_at t (ptbr t) i j = Some e ->
  pte_at t p i j = Some d ->
  C e (mapcounts t) ->
  D d ->
  Q t ->
  exists mc', body j t = Ok (Continue (set_mapcounts mc' (poke p i j (g e d)
      t)))
              /\ R (mapcounts t) mc'
              /\ Q (set_mapcounts mc' (poke p i j (g e d) t)).
Hypothesis entries : forall j, j < NR_PTES_PER_PAGE ->
  exists e d, pte_at s1 (ptbr s1) i j = Some e /\ pte_at s1 p i j = Some d /\
              C e (mapcounts s1) /\ D d.
Hypothesis Q1 : Q s1.

Lemma inner_loop :
  exists s',
    for_loop body 0 NR_PTES_PER_PAGE s1 = Ok s' /\
    same_outside p s1 s' /\
    R (mapcounts s1) (mapcounts s') /\
    Q s' /\
    (forall i', i' <> i -> dir_at s' p i' = dir_at s1 p i') /\
    (forall j, NR_PTES_PER_PAGE <= j -> pte_at s' p i j = pte_at s1 p i j) /\
    (forall j e d, j < NR_PTES_PER_PAGE ->
                   pte_at s1 (ptbr s1) i j = Some e ->
                   pte_at s1 p i j = Some d ->
                   pte_at s' p i j = Some (g e d)).
Proof using All - (fresh_null).
  apply (for_loop_invariant (fun k t =>
    same_outside p s1 t /\
    R (mapcounts s1) (mapcounts t) /\
    Q t /\
    (forall i', i' <> i -> dir_at t p i' = dir_at s1 p i') /\
    (forall j, k <= j -> pte_at t p i j = pte_at s1 p i j) /\
    (forall j e d, j < k ->
                   pte_at s1 (ptbr s1) i j = Some e ->
                   pte_at s1 p i j = Some d ->
                   pte_at t p i j = Some (g e d)))).
  { split; [apply same_outside_refl|]. split; [done|]. split; [done|].
    split; [done|]. split; [done|]. intros; lia. }
  intros k t Hk (Hout & HR & HQ & Hdirs & Hrest & Hdone).
  destruct (entries k) as (e & d & He & Hd & HC & HD); [lia|].
  assert (ptbr t = ptbr s1) as Hptbr by apply Hout.
  assert (pte_at t p i k = Some d) as Hd' by (by rewrite Hrest).
  assert (pte_at t (ptbr t) i k = Some e) as He'.
  { rewrite Hptbr. destruct (decide (ptbr s1 = p)) as [Heq|Hne].
    - rewrite Heq in *. by rewrite Hrest.
    - rewrite <- He. apply pte_at_same_dir. by eapply same_outside_dir. }
  destruct (body_step k t e d Hptbr He' Hd') as (mc' & -> & HR' & HQ');
    [by eapply C_mono | done | done |].
  eexists. split; [reflexivity|].
  split. { apply same_outside_set_mapcounts.
           eapply same_outside_trans; [done | apply same_outside_poke]. }
  split; [by eapply R_trans|]. split; [done|].
  split. { intros i' Hi'.
           change (dir_at (set_mapcounts ?mc ?u) ?a ?b) with (dir_at u a b).
           rewrite dir_at_poke_ne by congruence. by apply Hdirs. }
  split.
  - intros j Hj. rewrite pte_at_set_mapcounts.
    rewrite pte_at_poke_ne by (intros [= ?]; lia). apply Hrest. lia.
  - intros j e0 d0 Hj He0 Hd0. rewrite pte_at_set_mapcounts.
    destruct (decide (j = k)) as [->|Hjk].
    + rewrite (pte_at_poke_eq _ _ _ _ _ _ Hd'). congruence.
    + rewrite pte_at_poke_ne by congruence. apply Hdone; [lia | done..].
Qed.

End inner_loop.

(** *** The walk over all directories *)

Lemma switch_body_break p i j t :
  dir_at t (ptbr t) i = Some None -> switch_body p i j t = Ok (Break t).
Proof. intros H. unfold switch_body. by rewrite (read_dir_Some _ _ _ _ H). Qed.

Lemma fork_body_break p i j t :
  dir_at t (ptbr t) i = Some None -> fork_body p i j t = Ok (Break t).
Proof. intros H. unfold fork_body. by rewrite (read_dir_Some _ _ _ _ H). Qed.

Lemma switch_body_ens p i j t ds od :
  dir_at t (ptbr t) i = Some (Some ds) -> dir_at t p i = Some od ->
  switch_body p i j t = switch_body p i j (ens p i t).
Proof.
  intros Hs Hd. unfold switch_body. autorewrite with vm.
  rewrite (read_dir_Some _ _ _ _ Hs).
  rewrite (read_dir_Some _ _ _ _ (dir_at_ens_src p _ _ _ Hs)). cbn [bind].
  assert (exists od', dir_at (ens p i t) p i = Some od') as [od' Hd'].
  { destruct od; [rewrite (ens_present _ _ _ _ Hd) |
                  rewrite (dir_at_ens_absent _ _ _ Hd)]; eauto. }
  rewrite (ensure_dir_Ok _ _ _ _ Hd), (ensure_dir_Ok _ _ _ _ Hd').
  by rewrite (ens_idem _ _ _ _ Hd).
Qed.

Lemma fork_body_ens p i j t ds od :
  dir_at t (ptbr t) i = Some (Some ds) -> dir_at t p i = Some od ->
  fork_body p i j t = fork_body p i j (ens p i t).
Proof.
  intros Hs Hd. unfold fork_body. autorewrite with vm.
  rewrite (read_dir_Some _ _ _ _ Hs).
  rewrite (read_dir_Some _ _ _ _ (dir_at_ens_src p _ _ _ Hs)). cbn [bind].
  assert (exists od', dir_at (ens p i t) p i = Some od') as [od' Hd'].
  { destruct od; [rewrite (ens_present _ _ _ _ Hd) |
                  rewrite (dir_at_ens_absent _ _ _ Hd)]; eauto. }
  rewrite (ensure_dir_Ok _ _ _ _ Hd), (ensure_dir_Ok _ _ _ _ Hd').
  by rewrite (ens_idem _ _ _ _ Hd).
Qed.

Section walk.

Variable body : nat -> nat -> vm -> result flow.
Variable p : nat.
Variable g : pte -> pte -> pte.
Variable R : list Z -> list Z -> Prop.
Variable C : pte -> list Z -> Prop.
Variable D : pte -> Prop.
Variable Q : vm -> Prop.
Variable s0 : vm.
Hypothesis R_refl : forall mc, R mc mc.
Hypothesis R_trans : forall m1 m2 m3, R m1 m2 -> R m2 m3 -> R m1 m3.
Hypothesis C_mono : forall e m1 m2, R m1 m2 -> C e m1 -> C e m2.
Hypothesis Q_ens : forall i t, Q t -> Q (ens p i t).
Hypothesis body_break : forall i j t,
  dir_at t (ptbr t) i = Some None -> body i j t = Ok (Break t).
Hypothesis body_ens : forall i j t ds od,
  dir_at t (ptbr t) i = Some (Some ds) -> dir_at t p i = Some od ->
  body i j t = body i j (ens p i t).
Hypothesis body_step : forall i j t e d,
  ptbr t = ptbr s0 ->
  pte_at t (ptbr t) i j = Some e ->
  pte_at t p i j = Some d ->
  C e (mapcounts t) ->
  D d ->
  Q t ->
  exists mc', body i j t = Ok (Continue (set_mapcounts mc' (poke p i j (g e d)
      t)))
              /\ R (mapcounts t) mc'
              /\ Q (set_mapcounts mc' (poke p i j (g e d) t)).
Hypothesis wf0 : wf_vm s0 = true.
Hypothesis p_live : p < length (heap s0).
Hypothesis dirs_fit : NR_PAGEFRAMES / NR_PTES_PER_PAGE <= NR_OUTER_PTES.
Hypothesis C0 : forall i j e,
  i < NR_PAGEFRAMES / NR_PTES_PER_PAGE ->
  pte_at s0 (ptbr s0) i j = Some e -> C e (mapcounts s0).
Hypothesis D0 : forall i j d,
  i < NR_PAGEFRAMES / NR_PTES_PER_PAGE ->
  pte_at (ens p i s0) p i j = Some d -> D d.
Hypothesis Q0 : Q s0.

Lemma walk_tables_spec :
  exists s',
    walk_tables body s0 = Ok s' /\
    same_outside p s0 s' /\
    R (mapcounts s0) (mapcounts s') /\
    Q s' /\
    (forall i, NR_PAGEFRAMES / NR_PTES_PER_PAGE <= i ->
               dir_at s' p i = dir_at s0 p i) /\
    (forall i, dir_at s0 (ptbr s0) i = Some None ->
               dir_at s' p i = dir_at s0 p i) /\
    (forall i j e d,
        i < NR_PAGEFRAMES / NR_PTES_PER_PAGE ->
        pte_at s0 (ptbr s0) i j = Some e ->
        pte_at (ens p i s0) p i j = Some d ->
        pte_at s' p i j = Some (g e d)).
Proof using All - (fresh_null).
  unfold walk_tables.
  destruct (for_loop_invariant (fun k t =>
    same_outside p s0 t /\
    R (mapcounts s0) (mapcounts t) /\
    Q t /\
    (forall i, k <= i -> dir_at t p i = dir_at s0 p i) /\
    (forall i, i < k -> dir_at s0 (ptbr s0) i = Some None ->
               dir_at t p i = dir_at s0 p i) /\
    (forall i j e d,
        i < k ->
        pte_at s0 (ptbr s0) i j = Some e ->
        pte_at (ens p i s0) p i j = Some d ->
        pte_at t p i j = Some (g e d)))
    (fun i s => s <- for_loop (body i) 0 NR_PTES_PER_PAGE s ;; Ok (Continue s))
    0 (NR_PAGEFRAMES / NR_PTES_PER_PAGE) s0) as (s' & Hs' & Hpost).
  { split; [apply same_outside_refl|]. split; [done|]. split; [done|].
    split; [done|]. split; intros; lia. }
  { intros k t Hk (Hout & HR & HQ & Hrest & Hnone & Hdone).
    assert (0 < NR_PTES_PER_PAGE) as HN.
    { destruct NR_PTES_PER_PAGE; [simpl in Hk|]; lia. }
    assert (ptbr t = ptbr s0) as Hptbr by apply Hout.
    assert (dir_at t p k = dir_at s0 p k) as Hdst by (apply Hrest; lia).
    assert (dir_at t (ptbr t) k = dir_at s0 (ptbr s0) k) as Hsrc.
    { rewrite Hptbr. destruct (decide (ptbr s0 = p)) as [->|Hne]; [done|].
      by eapply same_outside_dir. }
    destruct (wf_vm_dir_at s0 (ptbr s0) k wf0 (wf_vm_ptbr _ wf0))
      as (ods & Hods & Hlens); [lia|].
    destruct (wf_vm_dir_at s0 p k wf0 p_live) as (odd & Hodd & Hlend); [lia|].
    destruct ods as [ds|].
    - (* the outgoing table has directory k *)
      rewrite Hods in Hsrc. rewrite Hodd in Hdst.
      assert (ptbr (ens p k t) = ptbr s0) as Hptbr1 by (by autorewrite with vm).
      assert (forall j, pte_at (ens p k t) (ptbr s0) k j
                        = pte_at s0 (ptbr s0) k j) as Hsrc1.
      { intros j. rewrite <- Hptbr.
        rewrite (dir_pte_at _ _ _ _ _ (dir_at_ens_src p _ _ _ Hsrc)).
        by rewrite Hptbr, (dir_pte_at _ _ _ _ _ Hods). }
      assert (forall j, pte_at (ens p k t) p k j = pte_at (ens p k s0) p k j)
        as Hdst1.
      { intros j. apply pte_at_ens_cong. by rewrite Hdst, Hodd. }
      destruct (inner_loop (body k) p k g R C D Q (ens p k t)
                  R_refl R_trans C_mono)
        as (t' & Ht' & Hout' & HR' & HQ' & Hdirs' & _ & Hdone').
      { intros j u e d Hu. apply body_step. by rewrite Hu. }
      { intros j Hj. rewrite Hptbr1.
        destruct (lookup_lt_is_Some_2 ds j) as [e He];
          [by rewrite (Hlens ds) |].
        destruct (pte_at_ens p k j s0 _ Hodd Hlend Hj) as [d Hd].
        exists e, d. rewrite Hsrc1, Hdst1, (dir_pte_at _ _ _ _ _ Hods).
        split; [done|]. split; [done|]. autorewrite with vm.
        split; [|apply (D0 k j); [lia | done]].
        apply (C_mono _ _ _ HR). apply (C0 k j); [lia|].
        by rewrite (dir_pte_at _ _ _ _ _ Hods). }
      { by apply Q_ens. }
      rewrite (for_loop_start _ _ _ _ (ens p k t) HN)
        by (by eapply body_ens).
      rewrite Ht'. cbn [bind]. eexists. split; [reflexivity|].
      split. { eapply same_outside_trans; [|exact Hout'].
               eapply same_outside_trans; [exact Hout | apply
                   same_outside_ens]. }
      split. { eapply R_trans; [exact HR|]. revert HR'. by autorewrite with
          vm. }
      split; [done|].
      split. { intros i Hi. rewrite Hdirs' by lia.
               rewrite dir_at_ens_ne by (intros [= ?]; lia). apply Hrest. lia. }
      split.
      + intros i Hi Hnone_i.
        assert (i <> k) as Hik by (intros ->; congruence).
        rewrite Hdirs' by done. rewrite dir_at_ens_ne by congruence.
        apply Hnone; [lia | done].
      + intros i j e d Hi He Hd. destruct (decide (i = k)) as [->|Hik].
        * apply Hdone'.
          -- rewrite (dir_pte_at _ _ _ _ _ Hods) in He.
             apply lookup_lt_Some in He. by rewrite (Hlens ds) in He.
          -- by rewrite Hptbr1, Hsrc1.
          -- by rewrite Hdst1.
        * rewrite (pte_at_same_dir (ens p k t) t' p i (Hdirs' i Hik)).
          rewrite pte_at_ens_ne by congruence. apply Hdone; [lia | done..].
    - (* no directory k in the outgoing table: break *)
      rewrite Hods in Hsrc.
      rewrite (for_loop_break _ _ _ _ (body_break k 0 t Hsrc)). cbn [bind].
      exists t. split; [done|]. split; [done|]. split; [done|]. split; [done|].
      split; [intros i Hi; apply Hrest; lia|]. split.
      + intros i Hi Hnone_i. destruct (decide (i = k)) as [->|Hik].
        * by rewrite Hdst.
        * apply Hnone; [lia | done].
      + intros i j e d Hi He Hd. destruct (decide (i = k)) as [->|Hik].
        * by rewrite (dir_at_None_pte _ _ _ _ Hods) in He.
        * apply Hdone; [lia | done..]. }
  exists s'. split; [done|].
  destruct Hpost as (Hout & HR & HQ & Hrest & Hnone & Hdone). simpl in *.
  split; [done|]. split; [done|]. split; [done|]. split; [done|].
  split; [|done].
  intros i Hi.
  destruct (le_lt_dec (NR_PAGEFRAMES / NR_PTES_PER_PAGE) i); auto.
Qed.

End walk.

(** *** The search of the ready queue *)

(** The process found is the first one of the queue with the pid. *)
Lemma find_process_Some h q target a :
  find_process h q target = Ok (Some a) ->
  exists q1 q2 P,
    q = q1 ++ a :: q2 /\ h !! a = Some P /\ pid P = target /\
    forall b, b ∈ q1 -> exists Q, h !! b = Some Q /\ pid Q <> target.
Proof.
  induction q as [|b q IH]; simpl; [discriminate|].
  destruct (h !! b) as [Q|] eqn:HQ; simpl; [|discriminate].
  destruct (Nat.eqb_spec (pid Q) target) as [Heq|Hne].
  - intros [= ->]. exists [], q, Q. split; [done|]. split; [done|].
    split; [done|]. intros b Hb. by apply elem_of_nil in Hb.
  - intros (q1 & q2 & P & -> & HP & Hpid & Hfirst)%IH.
    exists (b :: q1), q2, P. split; [done|]. split; [done|]. split; [done|].
    intros b' [->|Hb']%elem_of_cons; eauto.
Qed.

Lemma find_process_None h q target :
  find_process h q target = Ok None ->
  forall b, b ∈ q -> exists Q, h !! b = Some Q /\ pid Q <> target.
Proof.
  induction q as [|b q IH]; simpl; [intros _ b Hb; by apply elem_of_nil in Hb|].
  destruct (h !! b) as [Q|] eqn:HQ; simpl; [|discriminate].
  destruct (Nat.eqb_spec (pid Q) target) as [Heq|Hne]; [discriminate|].
  intros H b' [->|Hb']%elem_of_cons; eauto.
Qed.

Lemma find_process_first h q1 q2 target a P :
  h !! a = Some P -> pid P = target ->
  (forall b, b ∈ q1 -> exists Q, h !! b = Some Q /\ pid Q <> target) ->
  find_process h (q1 ++ a :: q2) target = Ok (Some a).
Proof.
  intros HP Hpid. induction q1 as [|b q1 IH]; intros Hfirst; simpl.
  - rewrite HP. simpl. by rewrite (proj2 (Nat.eqb_eq _ _) Hpid).
  - destruct (Hfirst b) as (Q & -> & Hne); [by left|]. simpl.
    rewrite (proj2 (Nat.eqb_neq _ _) Hne). apply IH.
    intros b' Hb'. apply Hfirst. by right.
Qed.


(** *** The two walks *)

Lemma switch_walk s a :
  wf_vm s = true ->
  a < length (heap s) ->
  NR_PAGEFRAMES / NR_PTES_PER_PAGE <= NR_OUTER_PTES ->
  exists s',
    walk_tables (switch_body a) s = Ok s' /\
    same_outside a s s' /\
    mapcounts s' = mapcounts s /\
    (forall i, NR_PAGEFRAMES / NR_PTES_PER_PAGE <= i ->
               dir_at s' a i = dir_at s a i) /\
    (forall i, dir_at s (ptbr s) i = Some None ->
               dir_at s' a i = dir_at s a i) /\
    (forall i j e d,
        i < NR_PAGEFRAMES / NR_PTES_PER_PAGE ->
        pte_at s (ptbr s) i j = Some e ->
        pte_at (ens a i s) a i j = Some d ->
        pte_at s' a i j = Some (switch_entry e d)).
Proof.
  intros Hwf Ha Hfit.
  destruct (walk_tables_spec (switch_body a) a switch_entry
              (fun m m' => m' = m) (fun _ _ => True) (fun _ => True)
              (fun _ => True) s)
    as (s' & Hs' & Hout & Hmc & _ & H); try done.
  - congruence.
  - intros i j t. apply switch_body_break.
  - intros i j t. apply switch_body_ens.
  - intros i j t e d _ He Hd _ _ _. exists (mapcounts t).
    rewrite (switch_body_step _ _ _ _ _ _ He Hd).
    by rewrite set_mapcounts_poke_id.
  - by exists s'.
Qed.

Lemma fork_step_keeps_refcounts c i j e d t :
  pte_at t c i j = Some d ->
  valid d = false ->
  (valid e = true -> pfn e < length (mapcounts t)) ->
  (forall g n, mapcounts t !! g = Some n ->
               n = wrap32 (Z.of_nat (count_refs t g))) ->
  forall g n,
    bump e (mapcounts t) !! g = Some n ->
    n = wrap32 (Z.of_nat (count_refs (poke c i j (fork_entry e d) t) g)).
Proof.
  intros Hd Hvd Hpfn Hexact g n Hg.
  pose proof (count_refs_poke _ _ _ (fork_entry e d) _ _ g Hd) as Hcount.
  assert (maps_frame g (fork_entry e d) = valid e && (pfn e =? g)) as Hm.
  { unfold fork_entry. by destruct (writable e || (private e =? 1)%Z). }
  assert (maps_frame g d = false) as Hmd.
  { unfold maps_frame. by rewrite Hvd. }
  rewrite Hm, Hmd in Hcount. clear Hm Hmd.
  unfold bump in Hg. destruct (valid e) eqn:Hv; simpl in Hcount.
  - destruct (lookup_lt_is_Some_2 (mapcounts t) (pfn e)) as [n0 Hn0]; [auto|].
    rewrite Hn0 in Hg.
    destruct (decide (pfn e = g)) as [<-|Hne].
    + rewrite list_lookup_insert_eq in Hg by auto. injection Hg as <-.
      rewrite Nat.eqb_refl in Hcount. rewrite (Hexact _ _ Hn0), wrap32_succ.
      f_equal. lia.
    + rewrite list_lookup_insert_ne in Hg by done.
      destruct (Nat.eqb_spec (pfn e) g); [done|].
      rewrite (Hexact _ _ Hg). f_equal. lia.
  - rewrite (Hexact _ _ Hg). f_equal. lia.
Qed.

Lemma fork_walk (D : pte -> Prop) (Q : vm -> Prop) s c :
  wf_vm s = true ->
  c < length (heap s) ->
  ptbr s <> c ->
  NR_PAGEFRAMES / NR_PTES_PER_PAGE <= NR_OUTER_PTES ->
  (forall i j e,
      i < NR_PAGEFRAMES / NR_PTES_PER_PAGE ->
      pte_at s (ptbr s) i j = Some e -> valid e = true ->
      pfn e < length (mapcounts s)) ->
  (forall i j d,
      i < NR_PAGEFRAMES / NR_PTES_PER_PAGE ->
      pte_at (ens c i s) c i j = Some d -> D d) ->
  (forall i t, Q t -> Q (ens c i t)) ->
  (forall i j t e d,
      pte_at t c i j = Some d -> D d ->
      (valid e = true -> pfn e < length (mapcounts t)) ->
      Q t ->
      Q (set_mapcounts (bump e (mapcounts t)) (poke c i j (fork_entry e d)
          t))) ->
  Q s ->
  exists s',
    walk_tables (fork_body c) s = Ok s' /\
    same_outside c s s' /\
    length (mapcounts s') = length (mapcounts s) /\
    Q s' /\
    (forall i j e d,
        i < NR_PAGEFRAMES / NR_PTES_PER_PAGE ->
        pte_at s (ptbr s) i j = Some e ->
        pte_at (ens c i s) c i j = Some d ->
        pte_at s' c i j = Some (fork_entry e d)).
Proof.
  intros Hwf Hc Hne Hfit Hpfn Hfresh HQens HQstep HQ.
  destruct (walk_tables_spec (fork_body c) c fork_entry
              (fun m m' => length m' = length m)
              (fun e m => valid e = true -> pfn e < length m)
              D Q s)
    as (s' & Hs' & Hout & Hlen & HQ' & _ & _ & Hent); try done.
  - congruence.
  - intros e m1 m2 Hlen HC Hv. rewrite Hlen. auto.
  - intros i j t. apply fork_body_break.
  - intros i j t. apply fork_body_ens.
  - intros i j t e d Hptbr He Hd HC HD HQt. exists (bump e (mapcounts t)).
    rewrite (fork_body_step _ _ _ _ _ _ (eq_ind_r (fun x => x <> c) Hne Hptbr)
               He Hd HC).
    split; [done|]. split; [|by apply HQstep].
    unfold bump. destruct (valid e); [|done].
    destruct (mapcounts t !! pfn e); [|done]. by rewrite length_insert.
  - by exists s'.
Qed.

Lemma switch_entry_flags e d :
  writable (switch_entry e d) = false /\
  private (switch_entry e d)
    = (if writable e || (private e =? 1)%Z then 1%Z else private d) /\
  (valid d = true ->
   valid (switch_entry e d) = true /\ pfn (switch_entry e d) = pfn d).
Proof.
  unfold switch_entry. destruct d as [v w n z]. simpl.
  destruct (writable e || (private e =? 1)%Z), v; simpl; repeat split;
    try done; discriminate.
Qed.

(** C3 (as amended): when the pid is found in the ready queue,
    [switch_process] makes the first process of the queue with that pid
    current and points [ptbr] to its table.  The queue, the reference
    counts and every other process are left as they were, and so is
    every slot of the target's table beyond the directories walked or
    whose directory the outgoing table lacks.  The target's entries in
    the directories that the outgoing table has are rewritten: each ends
    not writable, is marked private when the outgoing entry is writable
    or private and keeps its mark otherwise, and an entry that was valid
    keeps its frame. *)
Theorem switch_process_existing s target a :
  wf_vm s = true ->
  NR_PAGEFRAMES / NR_PTES_PER_PAGE <= NR_OUTER_PTES ->
  find_process (heap s) (processes s) target = Ok (Some a) ->
  exists s',
    switch_process target s = Ok s' /\
    current s' = a /\ ptbr s' = a /\
    pid <$> heap s' !! a = Some target /\
    processes s' = processes s /\
    mapcounts s' = mapcounts s /\
    (forall b, b <> a -> heap s' !! b = heap s !! b) /\
    (forall i, NR_PAGEFRAMES / NR_PTES_PER_PAGE <= i \/
               dir_at s (ptbr s) i = Some None ->
               dir_at s' a i = dir_at s a i) /\
    (forall i j e,
        i < NR_PAGEFRAMES / NR_PTES_PER_PAGE ->
        pte_at s (ptbr s) i j = Some e ->
        exists d',
          pte_at s' a i j = Some d' /\
          writable d' = false /\
          (writable e || (private e =? 1)%Z = true -> private d' = 1%Z) /\
          forall d, pte_at s a i j = Some d ->
                    (writable e || (private e =? 1)%Z = false ->
                     private d' = private d) /\
                    (valid d = true -> valid d' = true /\ pfn d' = pfn d)).
Proof.
  intros Hwf Hfit Hfind.
  destruct (find_process_Some _ _ _ _ Hfind) as (q1 & q2 & P & Hq & HP & Hpid
      & _).
  assert (a < length (heap s)) as Ha by (by eapply lookup_lt_Some).
  destruct (switch_walk s a Hwf Ha Hfit)
    as (s1 & Hs1 & Hout & Hmc & Hbeyond & Hnone & Hent).
  unfold switch_process. rewrite Hfind. cbn [bind]. rewrite Hs1. cbn [bind].
  destruct Hout as (Hq' & _ & _ & _ & Hheap & Hpid').
  eexists. split; [reflexivity|]. simpl.
  split; [done|]. split; [done|].
  split; [by rewrite Hpid', HP; simpl; rewrite Hpid|].
  split; [done|]. split; [done|]. split; [done|]. split.
  { intros i [Hi|Hi]; [by apply Hbeyond | by apply Hnone]. }
  intros i j e Hi He.
  assert (i < NR_OUTER_PTES) as Hi' by lia.
  destruct (wf_vm_dir_at s a i Hwf Ha Hi') as (od & Hod & Hlen).
  assert (j < NR_PTES_PER_PAGE) as Hj.
  { destruct (pte_at_dir _ _ _ _ _ He) as (ds & Hds & Hjs).
    destruct (wf_vm_dir_at s (ptbr s) i Hwf (wf_vm_ptbr _ Hwf) Hi')
      as (od' & Hod' & Hlen').
    rewrite Hds in Hod'. injection Hod' as <-.
    apply lookup_lt_Some in Hjs. by rewrite (Hlen' ds) in Hjs. }
  destruct (pte_at_ens a i j s od Hod Hlen Hj) as [d0 Hd0].
  exists (switch_entry e d0).
  destruct (switch_entry_flags e d0) as (Hw & Hp & Hv).
  split; [exact (Hent i j e d0 Hi He Hd0)|]. split; [done|].
  split; [intros Hc; by rewrite Hp, Hc|].
  intros d Hd.
  assert (d0 = d) as ->.
  { destruct (pte_at_dir _ _ _ _ _ Hd) as (dd & Hdd & _).
    rewrite (ens_present _ _ _ _ Hdd) in Hd0. congruence. }
  split; [intros Hc; by rewrite Hp, Hc | done].
Qed.

Lemma switch_process_not_found s target :
  find_process (heap s) (processes s) target = Ok None ->
  switch_process target s =
    (s1 <- walk_tables (fork_body (length (heap s))) (fork_start target s) ;;
     Ok (Vm (heap s1) (processes s1) (length (heap s)) (length (heap s))
            (mapcounts s1))).
Proof. intros H. unfold switch_process. by rewrite H. Qed.

Lemma fork_start_facts s target :
  wf_vm s = true ->
  fresh_slots_null (length (heap s)) ->
  wf_vm (fork_start target s) = true /\
  length (heap s) < length (heap (fork_start target s)) /\
  ptbr (fork_start target s) <> length (heap s) /\
  heap (fork_start target s) !! length (heap s)
    = Some (Process target (replicate NR_OUTER_PTES None)) /\
  (forall a, a < length (heap s) ->
             heap (fork_start target s) !! a = heap s !! a) /\
  (forall i j d,
      i < NR_OUTER_PTES ->
      pte_at (ens (length (heap s)) i (fork_start target s))
        (length (heap s)) i j = Some d ->
      d = fresh_pte (length (heap s)) i j) /\
  (forall i j,
      i < NR_OUTER_PTES -> j < NR_PTES_PER_PAGE ->
      pte_at (ens (length (heap s)) i (fork_start target s))
        (length (heap s)) i j = Some (fresh_pte (length (heap s)) i j)).
Proof.
  intros Hwf Hnull. pose proof (wf_vm_ptbr _ Hwf) as Hptbr.
  assert (heap (fork_start target s) !! length (heap s)
          = Some (Process target (replicate NR_OUTER_PTES None))) as Hc.
  { rewrite (fork_start_null _ _ Hnull). simpl. by rewrite list_lookup_middle. }
  assert (forall i, i < NR_OUTER_PTES ->
            dir_at (ens (length (heap s)) i (fork_start target s))
              (length (heap s)) i
            = Some (Some (malloc_directory (length (heap s)) i))) as Hdir.
  { intros i Hi. apply dir_at_ens_absent. unfold dir_at. rewrite Hc. simpl.
    by apply lookup_replicate_2. }
  split; [by apply wf_vm_fork|].
  split; [simpl; rewrite length_app; simpl; lia|].
  split; [simpl; lia|]. split; [done|].
  split; [intros a Ha; simpl; by apply lookup_app_l|].
  split.
  - intros i j d Hi Hd. rewrite (dir_pte_at _ _ _ _ _ (Hdir i Hi)) in Hd.
    by apply malloc_directory_lookup_inv in Hd as [_ ->].
  - intros i j Hi Hj. rewrite (dir_pte_at _ _ _ _ _ (Hdir i Hi)).
    by apply malloc_directory_lookup.
Qed.

(** C2 (as amended): when the pid is not in the ready queue and the
    slots of the process structure that [malloc] returns read as NULL
    (line 210 reads them and nothing has written them),
    [switch_process] appends a new process, makes it current and points
    [ptbr] to its table.  For every entry of the parent in the
    directories walked, the child's entry has the parent's [valid] and
    [pfn] and is not writable; it is marked private when the parent's
    entry is writable or private, and otherwise [private] is not
    written: it holds what [malloc] returned.  No entry of the parent
    (or of any older process) is changed: a writable parent entry stays
    writable and unmarked. *)
Theorem switch_process_fork s target :
  wf_vm s = true ->
  NR_PAGEFRAMES / NR_PTES_PER_PAGE <= NR_OUTER_PTES ->
  find_process (heap s) (processes s) target = Ok None ->
  frames_ok s = true ->
  fresh_slots_null (length (heap s)) ->
  exists s',
    switch_process target s = Ok s' /\
    current s' = length (heap s) /\ ptbr s' = length (heap s) /\
    processes s' = processes s ++ [length (heap s)] /\
    pid <$> heap s' !! length (heap s) = Some target /\
    (forall a, a < length (heap s) -> heap s' !! a = heap s !! a) /\
    (forall i j e,
        i < NR_PAGEFRAMES / NR_PTES_PER_PAGE ->
        pte_at s (ptbr s) i j = Some e ->
        exists d,
          pte_at s' (length (heap s)) i j = Some d /\
          valid d = valid e /\ pfn d = pfn e /\ writable d = false /\
          private d = (if writable e || (private e =? 1)%Z then 1%Z
                       else private (fresh_pte (length (heap s)) i j))).
Proof.
  intros Hwf Hfit Hfind Hpfn Hnull.
  pose proof (fun a i j e => frames_ok_pte s a i j e Hpfn) as Hframes.
  pose proof (wf_vm_ptbr _ Hwf) as Hptbr.
  destruct (fork_start_facts s target Hwf Hnull)
    as (Hwf0 & Hlive & Hne & Hc & Hold & Hfresh & Hzero).
  assert (forall i j, pte_at (fork_start target s) (ptbr s) i j
                      = pte_at s (ptbr s) i j) as Hsrc.
  { intros i j. apply pte_at_same_dir, dir_at_heap. by apply Hold. }
  destruct (fork_walk (fun _ => True) (fun _ => True) (fork_start target s)
              (length (heap s)) Hwf0 Hlive Hne Hfit)
    as (s1 & Hs1 & Hout & _ & _ & Hent); try done.
  { intros i j e Hi. simpl ptbr. rewrite Hsrc. apply Hframes. }
  rewrite (switch_process_not_found _ _ Hfind), Hs1. cbn [bind].
  destruct Hout as (Hq & _ & _ & _ & Hheap & Hpid).
  eexists. split; [reflexivity|]. simpl.
  split; [done|]. split; [done|]. split; [done|].
  split; [by rewrite Hpid, Hc|].
  split. { intros a Ha. rewrite Hheap by lia. by apply Hold. }
  intros i j e Hi He.
  assert (i < NR_OUTER_PTES) as Hi' by lia.
  assert (j < NR_PTES_PER_PAGE) as Hj.
  { destruct (pte_at_dir _ _ _ _ _ He) as (ds & Hds & Hjs).
    destruct (wf_vm_dir_at s (ptbr s) i Hwf Hptbr Hi') as (od' & Hod' & Hlen').
    rewrite Hds in Hod'. injection Hod' as <-.
    apply lookup_lt_Some in Hjs. by rewrite (Hlen' ds) in Hjs. }
  exists (fork_entry e (fresh_pte (length (heap s)) i j)). split.
  { apply (Hent i j e _ Hi); [|by apply Hzero].
    simpl ptbr. by rewrite Hsrc. }
  unfold fork_entry. by destruct (writable e || (private e =? 1)%Z).
Qed.

(** X18: the fork branch keeps the reference counts exact (in
    [unsigned int] arithmetic), provided the memory it gets from
    [malloc] is clear: the slots of the new process structure read as
    NULL and no entry of a directory allocated for it is valid.  Every
    valid entry copied into the child is then counted by line 219. *)
Lemma switch_process_fork_keeps_refcounts s target :
  wf_vm s = true ->
  NR_PAGEFRAMES / NR_PTES_PER_PAGE <= NR_OUTER_PTES ->
  find_process (heap s) (processes s) target = Ok None ->
  frames_ok s = true ->
  fresh_slots_null (length (heap s)) ->
  (forall i j, valid (fresh_pte (length (heap s)) i j) = false) ->
  refcounts_exact32 s ->
  exists s', switch_process target s = Ok s' /\ refcounts_exact32 s'.
Proof.
  intros Hwf Hfit Hfind Hpfn Hnull Hinv Hexact.
  pose proof (fun a i j e => frames_ok_pte s a i j e Hpfn) as Hframes.
  pose proof (wf_vm_ptbr _ Hwf) as Hptbr.
  destruct (fork_start_facts s target Hwf Hnull)
    as (Hwf0 & Hlive & Hne & Hc & Hold & Hfresh & Hzero).
  assert (forall i j, pte_at (fork_start target s) (ptbr s) i j
                      = pte_at s (ptbr s) i j) as Hsrc.
  { intros i j. apply pte_at_same_dir, dir_at_heap. by apply Hold. }
  destruct (fork_walk (fun d => valid d = false) refcounts_exact32
              (fork_start target s) (length (heap s)) Hwf0 Hlive Hne Hfit)
    as (s1 & Hs1 & _ & _ & HQ & _).
  { intros i j e Hi. simpl ptbr. rewrite Hsrc. apply Hframes. }
  { intros i j d Hi Hd. rewrite (Hfresh i j d); [apply Hinv | lia | done]. }
  { intros i t HQ g n. rewrite mapcounts_ens, count_refs_ens by apply Hinv.
    apply HQ. }
  { intros i j t e d Hd Hvd HC HQ g n Hg. simpl in Hg.
    change (count_refs (set_mapcounts ?mc ?u) g) with (count_refs u g).
    by eapply fork_step_keeps_refcounts. }
  { intros g n Hg. rewrite (fork_start_null _ _ Hnull) in *. simpl in Hg.
    rewrite (Hexact _ _ Hg). f_equal. f_equal.
    unfold count_refs. simpl. rewrite map_app, sum_list_with_app. simpl.
    rewrite count_table_replicate_None. lia. }
  rewrite (switch_process_not_found _ _ Hfind), Hs1. cbn [bind].
  eexists. split; [reflexivity|]. exact HQ.
Qed.

(** ** The shape of the states

    None of the operations checks the shape of the state it runs in;
    each of them keeps it. *)

Lemma forallb_insert {A : Type} (f : A -> bool) (l : list A) (i : nat) (x : A) :
  forallb f l = true -> f x = true -> forallb f (<[i := x]> l) = true.
Proof.
  revert i. induction l as [|y l IH]; intros [|i]; simpl; try done.
  - intros [_ H]%andb_prop ->. done.
  - intros [Hy H]%andb_prop Hx. rewrite Hy. simpl. by apply IH.
Qed.

Lemma wf_vm_poke a i j x s : wf_vm s = true -> wf_vm (poke a i j x s) = true.
Proof.
  intros Hwf. unfold poke.
  destruct (heap s !! a) as [P|] eqn:HP; [|done].
  destruct (ptable P !! i) as [[d|]|] eqn:Hd; try done.
  destruct (wf_vm_table _ _ _ Hwf HP) as [Hlen Hdirs].
  apply andb_prop in Hwf as [Hh Hp]. unfold wf_vm. simpl.
  rewrite length_insert, Hp, andb_true_r.
  apply forallb_insert; [done|]. simpl. unfold wf_table.
  rewrite length_insert, Hlen, Nat.eqb_refl. simpl.
  apply forallb_insert.
  - by pose proof (forallb_lookup _ _ _ _ Hh HP) as [_ H]%andb_prop.
  - rewrite length_insert. apply Nat.eqb_eq. by eapply Hdirs.
Qed.

Lemma wf_vm_ens a i s : wf_vm s = true -> wf_vm (ens a i s) = true.
Proof.
  intros Hwf. unfold ens, ensure_dir, index.
  destruct (heap s !! a) as [P|] eqn:HP; [|done]. simpl.
  destruct (ptable P !! i) as [[d|]|] eqn:Hd; try done. simpl.
  destruct (wf_vm_table _ _ _ Hwf HP) as [Hlen Hdirs].
  apply andb_prop in Hwf as [Hh Hp]. unfold wf_vm. simpl.
  rewrite length_insert, Hp, andb_true_r.
  apply forallb_insert; [done|]. simpl. unfold wf_table.
  rewrite length_insert, Hlen, Nat.eqb_refl. simpl.
  apply forallb_insert.
  - by pose proof (forallb_lookup _ _ _ _ Hh HP) as [_ H]%andb_prop.
  - rewrite length_malloc_directory. apply Nat.eqb_refl.
Qed.

Lemma forallb_malloc_directory (f : pte -> bool) a i :
  (forall j, f (fresh_pte a i j) = true) ->
  forallb f (malloc_directory a i) = true.
Proof.
  intros H. unfold malloc_directory.
  induction (seq 0 NR_PTES_PER_PAGE) as [|j l IH]; simpl; [done|].
  by rewrite H.
Qed.

Lemma frames_ok_poke a i j x s :
  frames_ok s = true ->
  (valid x = true -> pfn x < length (mapcounts s)) ->
  frames_ok (poke a i j x s) = true.
Proof.
  intros Hok Hx. unfold poke.
  destruct (heap s !! a) as [P|] eqn:HP; [|done].
  destruct (ptable P !! i) as [[d|]|] eqn:Hd; try done.
  pose proof (forallb_lookup _ _ _ _ Hok HP) as Ht.
  pose proof (forallb_lookup _ _ _ _ Ht Hd) as Hdir. simpl in Hdir.
  unfold frames_ok. simpl.
  apply forallb_insert; [done|]. simpl.
  apply forallb_insert; [done|].
  apply forallb_insert; [done|].
  destruct (valid x); [|done]. simpl. apply Nat.ltb_lt. auto.
Qed.

Lemma frames_ok_ens a i s :
  (forall j, valid (fresh_pte a i j) = false) ->
  frames_ok s = true -> frames_ok (ens a i s) = true.
Proof.
  intros Hinv Hok. unfold ens, ensure_dir, index.
  destruct (heap s !! a) as [P|] eqn:HP; [|done]. simpl.
  destruct (ptable P !! i) as [[d|]|] eqn:Hd; try done. simpl.
  pose proof (forallb_lookup _ _ _ _ Hok HP) as Ht.
  unfold frames_ok. simpl.
  apply forallb_insert; [done|]. simpl.
  apply forallb_insert; [done|].
  apply forallb_malloc_directory. intros j. by rewrite Hinv.
Qed.

Lemma frames_ok_set_mapcounts mc s :
  length mc = length (mapcounts s) ->
  frames_ok (set_mapcounts mc s) = frames_ok s.
Proof. intros H. unfold frames_ok. simpl. by rewrite H. Qed.

Lemma counts_in_range_lookup mc f c :
  counts_in_range mc = true -> mc !! f = Some c -> (0 <= c < 2 ^ 32)%Z.
Proof.
  intros H Hc. pose proof (forallb_lookup _ _ _ _ H Hc) as [H1 H2]%andb_prop.
  split; [by apply Z.leb_le | by apply Z.ltb_lt].
Qed.

Lemma wrap32_range z : (0 <= wrap32 z < 2 ^ 32)%Z.
Proof. unfold wrap32. by apply Z.mod_pos_bound. Qed.

Lemma counts_in_range_insert mc f z :
  counts_in_range mc = true -> (0 <= z < 2 ^ 32)%Z ->
  counts_in_range (<[f := z]> mc) = true.
Proof.
  intros H [H1 H2]. apply forallb_insert; [done|].
  apply andb_true_intro. split; [by apply Z.leb_le | by apply Z.ltb_lt].
Qed.

Lemma counts_in_range_bump e mc :
  counts_in_range mc = true -> counts_in_range (bump e mc) = true.
Proof.
  intros H. unfold bump. destruct (valid e); [|done].
  destruct (mc !! pfn e); [|done].
  apply counts_in_range_insert; [done | apply wrap32_range].
Qed.

Lemma length_bump e mc : length (bump e mc) = length mc.
Proof.
  unfold bump. destruct (valid e); [|done].
  destruct (mc !! pfn e); [|done]. by rewrite length_insert.
Qed.

Lemma vm_ok_true s :
  vm_ok s = true <->
  wf_vm s = true /\ frames_ok s = true /\ counts_in_range (mapcounts s) = true.
Proof.
  unfold vm_ok. rewrite !andb_true_iff. clear fresh_pte fresh_null. tauto.
Qed.

Lemma vm_ok_poke a i j x s :
  vm_ok s = true ->
  (valid x = true -> pfn x < length (mapcounts s)) ->
  vm_ok (poke a i j x s) = true.
Proof.
  intros (Hwf & Hfr & Hrg)%vm_ok_true Hx. apply vm_ok_true.
  split; [by apply wf_vm_poke|]. split; [by apply frames_ok_poke|].
  by autorewrite with vm.
Qed.

Lemma vm_ok_ens a i s :
  (forall j, valid (fresh_pte a i j) = false) ->
  vm_ok s = true -> vm_ok (ens a i s) = true.
Proof.
  intros Hinv (Hwf & Hfr & Hrg)%vm_ok_true. apply vm_ok_true.
  split; [by apply wf_vm_ens|]. split; [by apply frames_ok_ens|].
  by autorewrite with vm.
Qed.

Lemma vm_ok_set_mapcounts mc s :
  vm_ok s = true ->
  length mc = length (mapcounts s) ->
  counts_in_range mc = true ->
  vm_ok (set_mapcounts mc s) = true.
Proof.
  intros (Hwf & Hfr & Hrg)%vm_ok_true Hlen Hmc. apply vm_ok_true.
  split; [done|]. split; [by rewrite frames_ok_set_mapcounts | done].
Qed.

(** ** When the operations are defined, and what they leave alone *)

Lemma ensure_dir_Ok_dir a i s s' :
  ensure_dir a i s = Ok s' -> exists od, dir_at s a i = Some od.
Proof.
  unfold ensure_dir, dir_at, index.
  destruct (heap s !! a) as [P|]; [|discriminate]. simpl.
  destruct (ptable P !! i); [eauto | discriminate].
Qed.

Lemma wf_vm_pte_at s a i j e :
  wf_vm s = true -> pte_at s a i j = Some e ->
  a < length (heap s) /\ i < NR_OUTER_PTES /\ j < NR_PTES_PER_PAGE.
Proof.
  intros Hwf (d & Hd & Hj)%pte_at_dir. unfold dir_at in Hd.
  destruct (heap s !! a) as [P|] eqn:HP; [|done].
  destruct (wf_vm_table _ _ _ Hwf HP) as [Hlen Hdirs].
  split; [by eapply lookup_lt_Some|].
  split; [rewrite <- Hlen; by eapply lookup_lt_Some|].
  rewrite <- (Hdirs _ _ Hd). by eapply lookup_lt_Some.
Qed.

Lemma join_vpn vpn :
  vpn / NR_PTES_PER_PAGE < NR_OUTER_PTES ->
  vpn mod NR_PTES_PER_PAGE < NR_PTES_PER_PAGE ->
  vpn < NR_OUTER_PTES * NR_PTES_PER_PAGE.
Proof.
  intros H1 H2. pose proof (Nat.div_mod_eq vpn NR_PTES_PER_PAGE) as H.
  revert H H1 H2.
  generalize (vpn / NR_PTES_PER_PAGE) (vpn mod NR_PTES_PER_PAGE).
  intros q r -> H1 H2. nia.
Qed.

Lemma valid_entry_counted s a i j e :
  pte_at s a i j = Some e -> valid e = true -> 0 < count_refs s (pfn e).
Proof.
  intros He Hv.
  pose proof (count_refs_poke _ _ _ zero_pte _ _ (pfn e) He) as H.
  unfold maps_frame in H. rewrite Hv, Nat.eqb_refl in H. simpl in H. lia.
Qed.

(** *** alloc_page *)

Lemma alloc_page_Ok_inv s vpn rw s' f :
  alloc_page vpn rw s = Ok (s', f) ->
  exists od e0,
    dir_at s (ptbr s) (vpn / NR_PTES_PER_PAGE) = Some od /\
    pte_at (ens (ptbr s) (vpn / NR_PTES_PER_PAGE) s) (ptbr s)
      (vpn / NR_PTES_PER_PAGE) (vpn mod NR_PTES_PER_PAGE) = Some e0 /\
    lowest_free (mapcounts s) f /\
    s' = set_mapcounts (<[f := 1%Z]> (mapcounts s))
           (poke (ptbr s) (vpn / NR_PTES_PER_PAGE) (vpn mod NR_PTES_PER_PAGE)
              (Pte true (is_write rw) f (private e0))
              (ens (ptbr s) (vpn / NR_PTES_PER_PAGE) s)).
Proof.
  intros H. pose proof (alloc_page_returns_free _ _ _ _ _ H) as Hlow.
  pose proof H as H0. unfold alloc_page in H0. cbv zeta in H0.
  apply bind_Ok in H0 as (s1 & H1 & H0).
  destruct (ensure_dir_Ok_dir _ _ _ _ H1) as [od Hod].
  apply ensure_dir_Ok_inv in H1 as ->.
  apply bind_Ok in H0 as (s2 & H2 & _).
  apply modify_pte_Ok_inv in H2 as (e0 & He0 & _).
  autorewrite with vm in He0.
  rewrite (alloc_page_state _ _ _ _ _ _ Hod He0 Hlow) in H.
  exists od, e0. split; [done|]. split; [done|]. split; [done|]. congruence.
Qed.

(** X1: in a well-formed state [alloc_page] has a defined result exactly
    when [vpn] lies within the table and some frame has reference count
    zero: a [vpn] beyond the table indexes past [outer_ptes] or past the
    directory, and with no free frame the scan of line 80 leaves
    [mapcounts]. *)
Theorem alloc_page_defined s vpn rw :
  wf_vm s = true ->
  (exists s' f, alloc_page vpn rw s = Ok (s', f)) <->
  (vpn < NR_OUTER_PTES * NR_PTES_PER_PAGE /\
   exists f, mapcounts s !! f = Some 0%Z).
Proof.
  intros Hwf. split.
  - intros (s' & f & H).
    destruct (alloc_page_Ok_inv _ _ _ _ _ H) as (od & e0 & Hod & He0 & Hlow &
        _).
    split; [|exists f; apply Hlow].
    destruct (wf_vm_pte_at _ _ _ _ _ (wf_vm_ens _ _ _ Hwf) He0)
      as (_ & Hpd & Hpt).
    by apply join_vpn.
  - intros [Hvpn [f0 Hf0]].
    destruct (split_vpn _ Hvpn) as [Hpd Hpt].
    destruct (wf_vm_dir_at s (ptbr s) _ Hwf (wf_vm_ptbr _ Hwf) Hpd)
      as (od & Hod & Hlen).
    destruct (pte_at_ens _ _ _ _ _ Hod Hlen Hpt) as [e0 He0].
    destruct (first_free_find _ _ Hf0) as [f Hlow%first_free_Ok].
    rewrite (alloc_page_state _ _ _ _ _ _ Hod He0 Hlow). eauto.
Qed.

(** X2: what [alloc_page] leaves alone.  The ready queue, [current] and
    [ptbr], every other process, the pid of the current one, every other
    directory slot of the current table, every other entry of the
    directory of [vpn], and the counter of every frame but the one
    returned are as before the call. *)
Theorem alloc_page_frame s vpn rw s' f :
  alloc_page vpn rw s = Ok (s', f) ->
  processes s' = processes s /\ current s' = current s /\
  ptbr s' = ptbr s /\
  (forall a, a <> ptbr s -> heap s' !! a = heap s !! a) /\
  pid <$> heap s' !! ptbr s = pid <$> heap s !! ptbr s /\
  (forall i, i <> vpn / NR_PTES_PER_PAGE ->
             dir_at s' (ptbr s) i = dir_at s (ptbr s) i) /\
  (forall j e, j <> vpn mod NR_PTES_PER_PAGE ->
               pte_at s (ptbr s) (vpn / NR_PTES_PER_PAGE) j = Some e ->
               pte_at s' (ptbr s) (vpn / NR_PTES_PER_PAGE) j = Some e) /\
  (forall g, g <> f -> mapcounts s' !! g = mapcounts s !! g).
Proof.
  intros (od & e0 & Hod & He0 & Hlow & ->)%alloc_page_Ok_inv. simpl.
  autorewrite with vm.
  split; [done|]. split; [done|]. split; [done|].
  split. { intros a Ha. rewrite heap_poke_ne by done. by apply heap_ens_ne. }
  split. { by rewrite heap_poke_pid, heap_ens_pid. }
  split. { intros i Hi.
           change (dir_at (set_mapcounts ?mc ?t) ?a ?b) with (dir_at t a b).
           rewrite dir_at_poke_ne by congruence. apply dir_at_ens_ne.
           congruence. }
  split.
  - intros j e Hj He. rewrite pte_at_set_mapcounts.
    rewrite pte_at_poke_ne by congruence.
    destruct (pte_at_dir _ _ _ _ _ He) as (d & Hd & _).
    by rewrite (ens_present _ _ _ _ Hd).
  - intros g Hg. by rewrite list_lookup_insert_ne.
Qed.

(** X25: [alloc_page] never writes [private].  After a call the field
    is what the entry held before, and in a directory the call itself
    allocated (line 68) it is what [malloc] returned. *)
Theorem alloc_page_private_unwritten s vpn rw s' f :
  alloc_page vpn rw s = Ok (s', f) ->
  exists e',
    pte_at s' (ptbr s) (vpn / NR_PTES_PER_PAGE) (vpn mod NR_PTES_PER_PAGE)
      = Some e' /\
    private e'
    = match pte_at s (ptbr s) (vpn / NR_PTES_PER_PAGE)
              (vpn mod NR_PTES_PER_PAGE) with
      | Some e => private e
      | None =>
          private (fresh_pte (ptbr s) (vpn / NR_PTES_PER_PAGE)
                     (vpn mod NR_PTES_PER_PAGE))
      end.
Proof.
  intros (od & e0 & Hod & He0 & Hlow & ->)%alloc_page_Ok_inv.
  eexists. rewrite pte_at_set_mapcounts.
  split; [by apply (pte_at_poke_eq _ _ _ _ _ e0)|]. simpl.
  destruct od as [d|].
  - rewrite (ens_present _ _ _ _ Hod) in He0. by rewrite He0.
  - rewrite (dir_at_None_pte _ _ _ _ Hod).
    rewrite (dir_pte_at _ _ _ _ _ (dir_at_ens_absent _ _ _ Hod)) in He0.
    by apply malloc_directory_lookup_inv in He0 as [_ ->].
Qed.

(** X3: [alloc_page] does not look at the entry it overwrites.  Called
    on a page that is already mapped, it points the entry to a fresh
    frame and leaves the counter of the old frame as it was, so that the
    old frame keeps a reference that no entry holds any more: exact
    reference counts do not survive the call. *)
Theorem alloc_page_remap_leaks s vpn rw e s' f :
  pte_at s (ptbr s) (vpn / NR_PTES_PER_PAGE) (vpn mod NR_PTES_PER_PAGE)
    = Some e ->
  valid e = true ->
  pfn e < length (mapcounts s) ->
  refcounts_exact s ->
  alloc_page vpn rw s = Ok (s', f) ->
  f <> pfn e /\
  mapcounts s' !! pfn e = mapcounts s !! pfn e /\
  count_refs s' (pfn e) + 1 = count_refs s (pfn e) /\
  ~ refcounts_exact s'.
Proof.
  intros He Hv Hpfn Hexact
    (od & e0 & Hod & He0 & Hlow & ->)%alloc_page_Ok_inv.
  destruct (pte_at_dir _ _ _ _ _ He) as (d & Hd & _).
  rewrite (ens_present _ _ _ _ Hd) in *.
  rewrite He in He0. injection He0 as <-.
  destruct (lookup_lt_is_Some_2 _ _ Hpfn) as [c Hc].
  pose proof (Hexact _ _ Hc) as Hcount.
  pose proof (valid_entry_counted _ _ _ _ _ He Hv) as Hpos.
  assert (f <> pfn e) as Hne.
  { destruct Hlow as [Hf _]. intros ->. rewrite Hc in Hf. injection Hf. lia. }
  assert (count_refs
            (poke (ptbr s) (vpn / NR_PTES_PER_PAGE) (vpn mod NR_PTES_PER_PAGE)
               (Pte true (is_write rw) f (private e)) s) (pfn e) + 1
          = count_refs s (pfn e)) as Hless.
  { pose proof (count_refs_poke _ _ _ (Pte true (is_write rw) f (private e))
                  _ _ (pfn e) He) as H.
    unfold maps_frame in H. rewrite Hv, Nat.eqb_refl in H. simpl in H.
    destruct (Nat.eqb_spec f (pfn e)); [done|]. lia. }
  split; [done|]. simpl mapcounts.
  split; [by rewrite list_lookup_insert_ne|].
  change (count_refs (set_mapcounts ?mc ?t) ?g) with (count_refs t g).
  split; [done|].
  intros Hexact'. specialize (Hexact' (pfn e) c). simpl in Hexact'.
  rewrite list_lookup_insert_ne in Hexact' by done.
  specialize (Hexact' Hc).
  change (count_refs (set_mapcounts ?mc ?t) ?g) with (count_refs t g) in
      Hexact'.
  lia.
Qed.

(** *** free_page *)

Lemma free_page_run s vpn e :
  pte_at s (ptbr s) (vpn / NR_PTES_PER_PAGE) (vpn mod NR_PTES_PER_PAGE)
    = Some e ->
  free_page vpn s =
    decr_mapcount (pfn e)
      (poke (ptbr s) (vpn / NR_PTES_PER_PAGE) (vpn mod NR_PTES_PER_PAGE)
         (Pte false false (pfn e) 0%Z) s).
Proof.
  intros He. unfold free_page. cbv zeta.
  rewrite (modify_pte_Some _ _ _ _ _ _ He). cbn [bind]. autorewrite with vm.
  apply (pte_at_poke_eq _ _ _ (set_valid false e)) in He.
  rewrite (modify_pte_Some _ _ _ _ _ _ He). cbn [bind]. autorewrite with vm.
  apply (pte_at_poke_eq _ _ _ (set_writable false (set_valid false e))) in He.
  rewrite !poke_poke in *.
  rewrite (modify_pte_Some _ _ _ _ _ _ He). cbn [bind]. autorewrite with vm.
  apply (pte_at_poke_eq _ _ _
           (set_private 0 (set_writable false (set_valid false e)))) in He.
  rewrite !poke_poke in *.
  rewrite (read_pte_Some _ _ _ _ _ He). cbn [bind]. done.
Qed.

Lemma free_page_Ok_inv s vpn s' :
  free_page vpn s = Ok s' ->
  exists e c,
    pte_at s (ptbr s) (vpn / NR_PTES_PER_PAGE) (vpn mod NR_PTES_PER_PAGE)
      = Some e /\
    mapcounts s !! pfn e = Some c /\
    s' = set_mapcounts (<[pfn e := wrap32 (c - 1)]> (mapcounts s))
           (poke (ptbr s) (vpn / NR_PTES_PER_PAGE) (vpn mod NR_PTES_PER_PAGE)
              (Pte false false (pfn e) 0%Z) s).
Proof.
  intros H. pose proof H as H0. unfold free_page in H0. cbv zeta in H0.
  apply bind_Ok in H0 as (s1 & H1 & _).
  apply modify_pte_Ok_inv in H1 as (e & He & _).
  rewrite (free_page_run _ _ _ He) in H. unfold decr_mapcount in H.
  apply bind_Ok in H as (c & Hc%index_Ok & [= <-]).
  autorewrite with vm in *. eauto.
Qed.

(** X4: [free_page] has a defined result exactly when the entry of
    [vpn] exists in the current table (its directory is allocated and
    both indices are within bounds) and the [pfn] stored in it indexes
    [mapcounts].  Whether the entry is valid plays no part: line 113
    decrements the counter of whatever frame number the entry holds. *)
Theorem free_page_defined s vpn :
  (exists s', free_page vpn s = Ok s') <->
  (exists e,
     pte_at s (ptbr s) (vpn / NR_PTES_PER_PAGE) (vpn mod NR_PTES_PER_PAGE)
       = Some e /\
     pfn e < length (mapcounts s)).
Proof.
  split.
  - intros [s' (e & c & He & Hc & _)%free_page_Ok_inv].
    exists e. split; [done|]. by eapply lookup_lt_Some.
  - intros (e & He & Hpfn).
    destruct (lookup_lt_is_Some_2 _ _ Hpfn) as [c Hc].
    rewrite (free_page_mapped _ _ _ _ He Hc). eauto.
Qed.

(** X5: [free_page] leaves the frame number in the entry, so a second
    [free_page] of the same page takes a second reference from that
    frame although the entry is no longer valid (in [unsigned int]
    arithmetic: from a count of 1 the counter ends at [2^32 - 1]).  The
    table is not changed by the second call. *)
Theorem free_page_twice s vpn e c :
  pte_at s (ptbr s) (vpn / NR_PTES_PER_PAGE) (vpn mod NR_PTES_PER_PAGE)
    = Some e ->
  mapcounts s !! pfn e = Some c ->
  exists s1 s2,
    free_page vpn s = Ok s1 /\ free_page vpn s1 = Ok s2 /\
    mapcounts s2 !! pfn e = Some (wrap32 (c - 2)) /\
    (forall g, g <> pfn e -> mapcounts s2 !! g = mapcounts s !! g) /\
    heap s2 = heap s1.
Proof.
  intros He Hc.
  assert (pfn e < length (mapcounts s)) as Hpfn by (by eapply lookup_lt_Some).
  rewrite (free_page_mapped _ _ _ _ He Hc).
  eexists _, _. split; [reflexivity|].
  pose proof (pte_at_poke_eq _ _ _ (Pte false false (pfn e) 0) _ _ He) as He1.
  rewrite (free_page_mapped _ _ (Pte false false (pfn e) 0) (wrap32 (c - 1))).
  2: { simpl ptbr. autorewrite with vm. by rewrite pte_at_set_mapcounts. }
  2: { simpl. by rewrite list_lookup_insert_eq. }
  split; [reflexivity|]. simpl. autorewrite with vm.
  rewrite list_insert_insert_eq.
  split.
  { rewrite list_lookup_insert_eq by done. f_equal. unfold wrap32.
    rewrite Zminus_mod_idemp_l. f_equal. lia. }
  split; [intros g Hg; by rewrite list_lookup_insert_ne|].
  by rewrite poke_set_mapcounts, poke_poke.
Qed.

(** X6: [free_page] followed by [alloc_page] of the same page gives the
    frame back when the page was its only user and no lower frame is
    free: the second call returns the frame just released, every counter
    is as before the first call, and no other entry has changed.  The
    entry itself ends valid, with the permission of the new call and
    with [private] cleared. *)
Theorem free_alloc_round_trip s vpn rw e :
  pte_at s (ptbr s) (vpn / NR_PTES_PER_PAGE) (vpn mod NR_PTES_PER_PAGE)
    = Some e ->
  mapcounts s !! pfn e = Some 1%Z ->
  (forall g, g < pfn e -> mapcounts s !! g <> Some 0%Z) ->
  exists s1 s2,
    free_page vpn s = Ok s1 /\
    alloc_page vpn rw s1 = Ok (s2, pfn e) /\
    mapcounts s2 = mapcounts s /\
    pte_at s2 (ptbr s) (vpn / NR_PTES_PER_PAGE) (vpn mod NR_PTES_PER_PAGE)
      = Some (Pte true (is_write rw) (pfn e) 0) /\
    (forall a i j,
        (a, i, j) <> (ptbr s, vpn / NR_PTES_PER_PAGE, vpn mod
            NR_PTES_PER_PAGE) ->
        pte_at s2 a i j = pte_at s a i j).
Proof.
  intros He Hc Hlow.
  assert (pfn e < length (mapcounts s)) as Hpfn by (by eapply lookup_lt_Some).
  rewrite (free_page_mapped _ _ _ _ He Hc).
  eexists _, _. split; [reflexivity|].
  change (wrap32 (1 - 1)) with 0%Z.
  set (s1 := set_mapcounts _ _).
  pose proof (pte_at_poke_eq _ _ _ (Pte false false (pfn e) 0) _ _ He) as He1.
  assert (pte_at s1 (ptbr s1) (vpn / NR_PTES_PER_PAGE)
            (vpn mod NR_PTES_PER_PAGE) = Some (Pte false false (pfn e) 0))
    as He1'.
  { subst s1. simpl ptbr. autorewrite with vm. by rewrite
      pte_at_set_mapcounts. }
  destruct (pte_at_dir _ _ _ _ _ He1') as (d1 & Hd1 & _).
  assert (lowest_free (mapcounts s1) (pfn e)) as Hlow1.
  { subst s1. simpl. autorewrite with vm. split.
    - by rewrite list_lookup_insert_eq.
    - intros g Hg. rewrite list_lookup_insert_ne by lia. by apply Hlow. }
  rewrite (alloc_page_state s1 vpn rw (Some d1) (Pte false false (pfn e) 0)
             (pfn e) Hd1); [|by rewrite (ens_present _ _ _ _ Hd1) | done].
  rewrite (ens_present _ _ _ _ Hd1).
  split; [reflexivity|]. subst s1. simpl. autorewrite with vm.
  split.
  { rewrite list_insert_insert_eq. by apply list_insert_id. }
  rewrite poke_set_mapcounts, poke_poke.
  split.
  - rewrite !pte_at_set_mapcounts. by apply (pte_at_poke_eq _ _ _ _ _ e).
  - intros a i j Hne. rewrite !pte_at_set_mapcounts.
    apply pte_at_poke_ne. congruence.
Qed.

(** *** handle_page_fault *)

Lemma handle_page_fault_false s vpn rw e :
  pte_at s (ptbr s) (vpn / NR_PTES_PER_PAGE) (vpn mod NR_PTES_PER_PAGE)
    = Some e ->
  fault_test e rw = false ->
  handle_page_fault vpn rw s = Ok (s, false).
Proof.
  intros He Ht. unfold handle_page_fault. cbv zeta.
  rewrite (read_pte_Some _ _ _ _ _ He). cbn [bind].
  unfold fault_test in Ht. by rewrite Ht.
Qed.

Lemma handle_page_fault_no_frame s vpn rw e :
  pte_at s (ptbr s) (vpn / NR_PTES_PER_PAGE) (vpn mod NR_PTES_PER_PAGE)
    = Some e ->
  fault_test e rw = true ->
  mapcounts s !! pfn e = None ->
  handle_page_fault vpn rw s = Undefined OutOfBounds.
Proof.
  intros He Ht Hc. unfold handle_page_fault. cbv zeta.
  rewrite (read_pte_Some _ _ _ _ _ He). cbn [bind].
  unfold fault_test in Ht. rewrite Ht.
  rewrite (modify_pte_Some _ _ _ _ _ _ He). cbn [bind]. autorewrite with vm.
  apply (pte_at_poke_eq _ _ _ (set_writable true e)) in He.
  rewrite (read_pte_Some _ _ _ _ _ He). cbn [bind]. autorewrite with vm.
  simpl pfn. unfold index. by rewrite Hc.
Qed.

(** The frame is shared and no frame is free: the scan of line 148
    leaves [mapcounts]. *)
Lemma handle_page_fault_shared_full s vpn rw e c :
  pte_at s (ptbr s) (vpn / NR_PTES_PER_PAGE) (vpn mod NR_PTES_PER_PAGE)
    = Some e ->
  fault_test e rw = true ->
  mapcounts s !! pfn e = Some c ->
  (1 < c < 2 ^ 32)%Z ->
  (forall g z, mapcounts s !! g = Some z -> z <> 0%Z) ->
  handle_page_fault vpn rw s = Undefined OutOfBounds.
Proof.
  intros He Ht Hc Hrange Hfull. unfold handle_page_fault. cbv zeta.
  rewrite (read_pte_Some _ _ _ _ _ He). cbn [bind].
  unfold fault_test in Ht. rewrite Ht.
  rewrite (modify_pte_Some _ _ _ _ _ _ He). cbn [bind]. autorewrite with vm.
  apply (pte_at_poke_eq _ _ _ (set_writable true e)) in He.
  rewrite (read_pte_Some _ _ _ _ _ He). cbn [bind]. autorewrite with vm.
  simpl pfn. rewrite (index_Some _ _ _ Hc). cbn [bind].
  destruct (Z.ltb_spec 1 c); [|lia].
  erewrite decr_mapcount_Some by (autorewrite with vm; exact Hc).
  cbn [bind]. simpl mapcounts. autorewrite with vm.
  rewrite wrap32_small by lia.
  unfold first_free. rewrite first_free_from_full; [done|].
  intros g z Hg. destruct (decide (pfn e = g)) as [<-|Hne].
  - rewrite list_lookup_insert_eq in Hg by (by eapply lookup_lt_Some).
    injection Hg as <-. lia.
  - rewrite list_lookup_insert_ne in Hg by done. by eapply Hfull.
Qed.

Lemma handle_page_fault_Ok_inv s vpn rw s' b :
  counts_in_range (mapcounts s) = true ->
  handle_page_fault vpn rw s = Ok (s', b) ->
  exists e,
    pte_at s (ptbr s) (vpn / NR_PTES_PER_PAGE) (vpn mod NR_PTES_PER_PAGE)
      = Some e /\
    b = fault_test e rw /\
    ((fault_test e rw = false /\ s' = s) \/
     (fault_test e rw = true /\
      exists c,
        mapcounts s !! pfn e = Some c /\
        (((c <= 1)%Z /\
          s' = poke (ptbr s) (vpn / NR_PTES_PER_PAGE)
                 (vpn mod NR_PTES_PER_PAGE) (set_writable true e) s) \/
         ((1 < c)%Z /\
          exists f,
            lowest_free (mapcounts s) f /\
            s' = set_mapcounts
                   (<[f := 1%Z]> (<[pfn e := (c - 1)%Z]> (mapcounts s)))
                   (poke (ptbr s) (vpn / NR_PTES_PER_PAGE)
                      (vpn mod NR_PTES_PER_PAGE)
                      (set_pfn f (set_writable true e)) s))))).
Proof.
  intros Hrange H. pose proof H as H0.
  unfold handle_page_fault in H0. cbv zeta in H0.
  apply bind_Ok in H0 as (e & He%read_pte_Ok & _).
  exists e. split; [done|].
  destruct (fault_test e rw) eqn:Ht.
  2: { rewrite (handle_page_fault_false _ _ _ _ He Ht) in H.
       injection H as <- <-. auto. }
  destruct (mapcounts s !! pfn e) as [c|] eqn:Hc.
  2: { by rewrite (handle_page_fault_no_frame _ _ _ _ He Ht Hc) in H. }
  pose proof (counts_in_range_lookup _ _ _ Hrange Hc) as Hc32.
  destruct (Z.le_gt_cases c 1) as [Hle|Hgt].
  - rewrite (handle_page_fault_exclusive _ _ _ _ _ He Ht Hc Hle) in H.
    injection H as <- <-. split; [done|]. right. split; [done|].
    exists c. split; [done|]. left. done.
  - destruct (first_free (mapcounts s)) as [f|flt] eqn:Hf.
    + apply first_free_Ok in Hf.
      rewrite (handle_page_fault_shared _ _ _ _ _ f He Ht Hc) in H;
        [|lia | done].
      injection H as <- <-. split; [done|]. right. split; [done|].
      exists c. split; [done|]. right. split; [done|]. eauto.
    + rewrite (handle_page_fault_shared_full _ _ _ _ _ He Ht Hc) in H;
        [done | lia |].
      intros g z Hg ->. destruct (first_free_find _ _ Hg) as [f' Hf'].
      congruence.
Qed.

(** X7: for an entry that exists, [handle_page_fault] returns false
    exactly when the test of line 140 fails, that is on a read access,
    on an entry that is already writable, or on an entry not marked
    private; it then leaves the whole state as it was.  The test does
    not look at [valid]. *)
Theorem handle_page_fault_refuses s vpn rw e :
  pte_at s (ptbr s) (vpn / NR_PTES_PER_PAGE) (vpn mod NR_PTES_PER_PAGE)
    = Some e ->
  (is_write rw = false \/ writable e = true \/ private e <> 1%Z) <->
  handle_page_fault vpn rw s = Ok (s, false).
Proof.
  intros He.
  assert ((is_write rw = false \/ writable e = true \/ private e <> 1%Z)
          <-> fault_test e rw = false) as ->.
  { unfold fault_test. destruct (writable e), (is_write rw),
      (Z.eqb_spec (private e) 1); simpl; split; intros H; try done; auto.
    by destruct H as [H|[H|H]]. }
  split; [by apply handle_page_fault_false|].
  intros H. destruct (fault_test e rw) eqn:Ht; [|done]. exfalso.
  unfold handle_page_fault in H. cbv zeta in H.
  rewrite (read_pte_Some _ _ _ _ _ He) in H. cbn [bind] in H.
  unfold fault_test in Ht. rewrite Ht in H.
  apply bind_Ok in H as (s1 & _ & H).
  apply bind_Ok in H as (e1 & _ & H).
  apply bind_Ok in H as (c & _ & H).
  destruct (1 <? c)%Z; [|discriminate].
  apply bind_Ok in H as (s2 & _ & H).
  apply bind_Ok in H as (i & _ & H).
  apply bind_Ok in H as (s3 & _ & H).
  apply bind_Ok in H as (s4 & _ & H). discriminate.
Qed.

(** X8: a fault that has been resolved is not resolved twice: after
    [handle_page_fault] has returned true for a page, a second call for
    that page returns false and changes nothing, whatever the access. *)
Theorem handle_page_fault_twice s vpn rw s' :
  counts_in_range (mapcounts s) = true ->
  handle_page_fault vpn rw s = Ok (s', true) ->
  forall rw', handle_page_fault vpn rw' s' = Ok (s', false).
Proof.
  intros Hrange (e & He & Hb & Hcase)%handle_page_fault_Ok_inv; [|done].
  intros rw'. destruct Hcase as [[Ht _]|[_ (c & Hc & Hcase)]]; [congruence|].
  destruct Hcase as [[_ ->]|[_ (f & _ & ->)]].
  - apply (handle_page_fault_false _ _ _ (set_writable true e)); [|done].
    autorewrite with vm. by apply (pte_at_poke_eq _ _ _ _ _ e).
  - apply (handle_page_fault_false _ _ _ (set_pfn f (set_writable true e)));
      [|done].
    simpl ptbr. autorewrite with vm. rewrite pte_at_set_mapcounts.
    by apply (pte_at_poke_eq _ _ _ _ _ e).
Qed.

(** X9: with counters that are [unsigned int]s, [handle_page_fault] has
    a defined result exactly when the entry of [vpn] exists and, if the
    test of line 140 passes, the [pfn] of the entry indexes [mapcounts]
    and, if that frame is shared, some frame is free.  Otherwise line
    140 reads through a NULL directory or past an array, line 143 reads
    past [mapcounts], or the scan of line 148 leaves it. *)
Theorem handle_page_fault_defined s vpn rw :
  counts_in_range (mapcounts s) = true ->
  (exists s' b, handle_page_fault vpn rw s = Ok (s', b)) <->
  (exists e,
     pte_at s (ptbr s) (vpn / NR_PTES_PER_PAGE) (vpn mod NR_PTES_PER_PAGE)
       = Some e /\
     (fault_test e rw = true ->
      exists c, mapcounts s !! pfn e = Some c /\
                ((1 < c)%Z -> exists g, mapcounts s !! g = Some 0%Z))).
Proof.
  intros Hrange. split.
  - intros (s' & b & (e & He & _ & Hcase)%handle_page_fault_Ok_inv); [|done].
    exists e. split; [done|]. intros Ht.
    destruct Hcase as [[Hf _]|[_ (c & Hc & Hcase)]]; [congruence|].
    exists c. split; [done|]. intros Hgt.
    destruct Hcase as [[Hle _]|[_ (f & Hlow & _)]]; [lia|].
    exists f. apply Hlow.
  - intros (e & He & Hcase). destruct (fault_test e rw) eqn:Ht.
    2: { rewrite (handle_page_fault_false _ _ _ _ He Ht). eauto. }
    destruct (Hcase eq_refl) as (c & Hc & Hfree).
    pose proof (counts_in_range_lookup _ _ _ Hrange Hc) as Hc32.
    destruct (Z.le_gt_cases c 1) as [Hle|Hgt].
    + rewrite (handle_page_fault_exclusive _ _ _ _ _ He Ht Hc Hle). eauto.
    + destruct (Hfree Hgt) as [g Hg].
      destruct (first_free_find _ _ Hg) as [f Hf%first_free_Ok].
      rewrite (handle_page_fault_shared _ _ _ _ _ f He Ht Hc); [eauto|lia|done].
Qed.

(** ** The flags of entries that are not valid *)

Lemma flags_ok_pte s a i j e :
  flags_ok s = true -> pte_at s a i j = Some e -> entry_ok e = true.
Proof.
  intros Hok (d & Hd & Hj)%pte_at_dir. unfold dir_at in Hd.
  destruct (heap s !! a) as [P|] eqn:HP; [|done].
  pose proof (forallb_lookup _ _ _ _ Hok HP) as Ht.
  pose proof (forallb_lookup _ _ _ _ Ht Hd) as Hdir. simpl in Hdir.
  exact (forallb_lookup _ _ _ _ Hdir Hj).
Qed.

Lemma flags_ok_poke a i j x s :
  flags_ok s = true -> entry_ok x = true -> flags_ok (poke a i j x s) = true.
Proof.
  intros Hok Hx. unfold poke.
  destruct (heap s !! a) as [P|] eqn:HP; [|done].
  destruct (ptable P !! i) as [[d|]|] eqn:Hd; try done.
  pose proof (forallb_lookup _ _ _ _ Hok HP) as Ht.
  pose proof (forallb_lookup _ _ _ _ Ht Hd) as Hdir. simpl in Hdir.
  unfold flags_ok. simpl.
  apply forallb_insert; [done|]. simpl.
  apply forallb_insert; [done|].
  by apply forallb_insert.
Qed.

Lemma fresh_unmarked_entry_ok a i j :
  fresh_unmarked -> entry_ok (fresh_pte a i j) = true.
Proof.
  intros H. destruct (H a i j) as [Hw Hp]. unfold entry_ok.
  rewrite Hw, Hp. apply orb_true_r.
Qed.

Lemma flags_ok_ens a i s :
  fresh_unmarked -> flags_ok s = true -> flags_ok (ens a i s) = true.
Proof.
  intros Hun Hok. unfold ens, ensure_dir, index.
  destruct (heap s !! a) as [P|] eqn:HP; [|done]. simpl.
  destruct (ptable P !! i) as [[d|]|] eqn:Hd; try done. simpl.
  pose proof (forallb_lookup _ _ _ _ Hok HP) as Ht.
  unfold flags_ok. simpl.
  apply forallb_insert; [done|]. simpl.
  apply forallb_insert; [done|].
  apply forallb_malloc_directory. intros j. by apply fresh_unmarked_entry_ok.
Qed.

Lemma flags_ok_fork_start s target :
  fresh_slots_null (length (heap s)) ->
  flags_ok s = true -> flags_ok (fork_start target s) = true.
Proof.
  intros Hnull Hok. rewrite (fork_start_null _ _ Hnull).
  unfold flags_ok. simpl. rewrite forallb_app.
  unfold flags_ok in Hok. rewrite Hok. simpl. rewrite andb_true_r.
  by induction NR_OUTER_PTES.
Qed.

Lemma entry_ok_switch_entry e d :
  entry_ok e = true -> entry_ok d = true ->
  entry_ok (switch_entry e d) = true.
Proof.
  destruct e as [v w n z], d as [v' w' n' z'].
  unfold entry_ok, switch_entry. simpl. intros He Hd.
  destruct v, w, (z =? 1)%Z eqn:Hz, v', w'; simpl in *;
    rewrite ?Hz; simpl; try done.
Qed.

Lemma entry_ok_fork_entry e d :
  entry_ok e = true -> (private d =? 1)%Z = false ->
  entry_ok (fork_entry e d) = true.
Proof.
  destruct e as [v w n z], d as [v' w' n' z'].
  unfold entry_ok, fork_entry. simpl. intros He Hd.
  destruct v, w, (z =? 1)%Z eqn:Hz; simpl in *; rewrite ?Hd; done.
Qed.

(** Where the flags are in order, the test of line 140 is the test for
    a copy-on-write fault. *)
Lemma fault_test_cow e rw :
  entry_ok e = true -> fault_test e rw = cow_fault e rw.
Proof.
  unfold entry_ok, fault_test, cow_fault.
  destruct (valid e), (writable e), (is_write rw), (private e =? 1)%Z; done.
Qed.

(** ** The shape of the states is kept *)

Lemma vm_ok_range s :
  vm_ok s = true -> counts_in_range (mapcounts s) = true.
Proof. by intros (_ & _ & H)%vm_ok_true. Qed.

Lemma alloc_page_keeps_ok s vpn rw s' f :
  fresh_invalid ->
  vm_ok s = true ->
  alloc_page vpn rw s = Ok (s', f) ->
  vm_ok s' = true /\
  length (mapcounts s') = length (mapcounts s) /\
  same_outside (ptbr s) s s'.
Proof.
  intros Hinv Hok (od & e0 & Hod & He0 & Hlow & ->)%alloc_page_Ok_inv.
  assert (f < length (mapcounts s)) as Hf by (eapply lookup_lt_Some, Hlow).
  split; [|split].
  - apply vm_ok_set_mapcounts.
    + apply vm_ok_poke; [apply vm_ok_ens; [intros j; apply Hinv | done]|].
      by autorewrite with vm.
    + autorewrite with vm. by rewrite length_insert.
    + apply counts_in_range_insert; [|lia]. by apply vm_ok_range.
  - simpl. by rewrite length_insert.
  - apply same_outside_set_mapcounts.
    eapply same_outside_trans; [apply same_outside_ens|].
    apply same_outside_poke.
Qed.

Lemma free_page_keeps_ok s vpn s' :
  vm_ok s = true ->
  free_page vpn s = Ok s' ->
  vm_ok s' = true /\
  length (mapcounts s') = length (mapcounts s) /\
  same_outside (ptbr s) s s'.
Proof.
  intros Hok (e & c & He & Hc & ->)%free_page_Ok_inv.
  split; [|split].
  - apply vm_ok_set_mapcounts.
    + by apply vm_ok_poke.
    + autorewrite with vm. by rewrite length_insert.
    + apply counts_in_range_insert; [|apply wrap32_range].
      by apply vm_ok_range.
  - simpl. by rewrite length_insert.
  - apply same_outside_set_mapcounts, same_outside_poke.
Qed.

Lemma handle_page_fault_keeps_ok s vpn rw s' b :
  vm_ok s = true ->
  handle_page_fault vpn rw s = Ok (s', b) ->
  vm_ok s' = true /\
  length (mapcounts s') = length (mapcounts s) /\
  same_outside (ptbr s) s s'.
Proof.
  intros Hok H. pose proof Hok as (Hwf & Hfr & Hrg)%vm_ok_true.
  apply handle_page_fault_Ok_inv in H as (e & He & _ & Hcase); [|done].
  destruct Hcase as [[_ ->]|[_ (c & Hc & Hcase)]].
  { split; [done|]. split; [done|]. apply same_outside_refl. }
  pose proof (counts_in_range_lookup _ _ _ Hrg Hc) as Hc32.
  destruct Hcase as [[_ ->]|[Hgt (f & Hlow & ->)]].
  - split; [|split].
    + apply vm_ok_poke; [done|]. intros _. by eapply lookup_lt_Some.
    + by autorewrite with vm.
    + apply same_outside_poke.
  - assert (f < length (mapcounts s)) as Hf by (eapply lookup_lt_Some, Hlow).
    split; [|split].
    + apply vm_ok_set_mapcounts.
      * by apply vm_ok_poke.
      * autorewrite with vm. by rewrite !length_insert.
      * apply counts_in_range_insert; [|lia].
        apply counts_in_range_insert; [done|lia].
    + simpl. by rewrite !length_insert.
    + apply same_outside_set_mapcounts, same_outside_poke.
Qed.

Lemma vm_ok_switch_to t c :
  vm_ok t = true -> c < length (heap t) ->
  vm_ok (Vm (heap t) (processes t) c c (mapcounts t)) = true.
Proof.
  intros (Hwf & Hfr & Hrg)%vm_ok_true Hc. apply vm_ok_true.
  split; [|done]. apply andb_prop in Hwf as [Hh _].
  unfold wf_vm. simpl. rewrite Hh. simpl. by apply Nat.ltb_lt.
Qed.

Lemma vm_ok_fork_start s target :
  fresh_slots_null (length (heap s)) ->
  vm_ok s = true -> vm_ok (fork_start target s) = true.
Proof.
  intros Hnull (Hwf & Hfr & Hrg)%vm_ok_true. apply vm_ok_true.
  split; [by apply wf_vm_fork|].
  rewrite (fork_start_null _ _ Hnull). split; [|done].
  unfold frames_ok. simpl. rewrite forallb_app.
  unfold frames_ok in Hfr. rewrite Hfr. simpl. rewrite andb_true_r.
  by induction NR_OUTER_PTES.
Qed.

Lemma switch_entry_frame e d n :
  (valid e = true -> pfn e < n) ->
  (valid d = true -> pfn d < n) ->
  valid (switch_entry e d) = true -> pfn (switch_entry e d) < n.
Proof.
  unfold switch_entry. destruct d as [v w m z]. simpl.
  destruct (writable e || (private e =? 1)%Z), v; simpl; auto.
Qed.

(** *** The search of the ready queue, continued *)

Lemma find_process_total h q target :
  Forall (fun a => a < length h) q ->
  exists r, find_process h q target = Ok r.
Proof.
  induction 1 as [|a q Ha _ IH]; simpl; [eauto|].
  destruct (lookup_lt_is_Some_2 _ _ Ha) as [P ->]. simpl.
  destruct (pid P =? target); eauto.
Qed.

Lemma find_process_pids h h' q target :
  (forall a, a ∈ q -> pid <$> h' !! a = pid <$> h !! a) ->
  find_process h' q target = find_process h q target.
Proof.
  induction q as [|a q IH]; intros Hpid; simpl; [done|].
  pose proof (Hpid a ltac:(by left)) as Ha.
  rewrite IH by (intros b Hb; apply Hpid; by right).
  destruct (h !! a) as [P|], (h' !! a) as [P'|]; simpl in *; try done.
  injection Ha as ->. done.
Qed.

Lemma same_outside_pid p s s' a :
  same_outside p s s' -> pid <$> heap s' !! a = pid <$> heap s !! a.
Proof.
  intros (_&_&_&_&Hheap&Hpid). destruct (decide (a = p)) as [->|Hne]; [done|].
  by rewrite Hheap.
Qed.

Lemma queue_ok_same_outside p s s' :
  same_outside p s s' -> queue_ok s -> queue_ok s'.
Proof.
  intros Hout [Hlive Hnd]. pose proof Hout as (Hq & _ & _ & Hlen & _).
  unfold queue_ok, queue_pids. rewrite Hq, Hlen. split; [done|].
  erewrite list_fmap_ext; [exact Hnd|].
  intros k a _. by apply (same_outside_pid p).
Qed.

(** *** The walk of the branch that finds the pid, with an invariant *)

Lemma switch_walk_inv (Q : vm -> Prop) s a :
  wf_vm s = true ->
  a < length (heap s) ->
  NR_PAGEFRAMES / NR_PTES_PER_PAGE <= NR_OUTER_PTES ->
  (forall i t, Q t -> Q (ens a i t)) ->
  (forall i j t e d,
      pte_at t (ptbr t) i j = Some e -> pte_at t a i j = Some d ->
      Q t -> Q (poke a i j (switch_entry e d) t)) ->
  Q s ->
  exists s',
    walk_tables (switch_body a) s = Ok s' /\
    same_outside a s s' /\
    mapcounts s' = mapcounts s /\
    Q s' /\
    (forall i j e d,
        i < NR_PAGEFRAMES / NR_PTES_PER_PAGE ->
        pte_at s (ptbr s) i j = Some e ->
        pte_at (ens a i s) a i j = Some d ->
        pte_at s' a i j = Some (switch_entry e d)).
Proof.
  intros Hwf Ha Hfit HQens HQstep HQ.
  destruct (walk_tables_spec (switch_body a) a switch_entry
              (fun m m' => m' = m) (fun _ _ => True) (fun _ => True) Q s)
    as (s' & Hs' & Hout & Hmc & HQ' & _ & _ & Hent); try done.
  - congruence.
  - intros i j t. apply switch_body_break.
  - intros i j t. apply switch_body_ens.
  - intros i j t e d _ He Hd _ _ HQt. exists (mapcounts t).
    rewrite (switch_body_step _ _ _ _ _ _ He Hd).
    rewrite set_mapcounts_poke_id. split; [done|]. split; [done|].
    by apply (HQstep i j t e d).
  - by exists s'.
Qed.

(** *** The walk of the fork branch, keeping the shape *)

Lemma fork_walk_shape (F0 : Prop) s c :
  fresh_invalid ->
  (F0 -> fresh_unmarked) ->
  vm_ok s = true ->
  (F0 -> flags_ok s = true) ->
  c < length (heap s) ->
  ptbr s <> c ->
  NR_PAGEFRAMES / NR_PTES_PER_PAGE <= NR_OUTER_PTES ->
  (forall i j d,
      i < NR_PAGEFRAMES / NR_PTES_PER_PAGE ->
      pte_at (ens c i s) c i j = Some d -> d = fresh_pte c i j) ->
  exists s',
    walk_tables (fork_body c) s = Ok s' /\
    same_outside c s s' /\
    length (mapcounts s') = length (mapcounts s) /\
    vm_ok s' = true /\
    (F0 -> flags_ok s' = true).
Proof.
  intros Hinv Hun Hok Hfl Hc Hne Hfit Hfresh.
  pose proof Hok as (Hwf & Hfr & Hrg)%vm_ok_true.
  destruct (walk_tables_spec (fork_body c) c fork_entry
              (fun m m' => length m' = length m)
              (fun e m => (valid e = true -> pfn e < length m) /\
                          (F0 -> entry_ok e = true))
              (fun d => F0 -> (private d =? 1)%Z = false)
              (fun t => vm_ok t = true /\ (F0 -> flags_ok t = true)) s)
    as (s' & Hs' & Hout & Hlen & [Hok' Hfl'] & _); try done.
  - congruence.
  - intros e m1 m2 Hlen [HC HE]. split; [|done]. intros Hv.
    rewrite Hlen. auto.
  - intros i t [Hokt Hflt].
    split; [apply vm_ok_ens; [intros j; apply Hinv | done]|].
    intros HF. apply flags_ok_ens; auto.
  - intros i j t. apply fork_body_break.
  - intros i j t. apply fork_body_ens.
  - intros i j t e d Hptbr He Hd [HC HE] HD [Hokt Hflt].
    exists (bump e (mapcounts t)).
    rewrite (fork_body_step _ _ _ _ _ _ (eq_ind_r (fun x => x <> c) Hne Hptbr)
               He Hd HC).
    split; [done|]. split; [apply length_bump|]. split.
    + apply vm_ok_set_mapcounts.
      * apply vm_ok_poke; [done|]. unfold fork_entry.
        by destruct (writable e || (private e =? 1)%Z).
      * autorewrite with vm. apply length_bump.
      * apply counts_in_range_bump. by apply vm_ok_range.
    + intros HF.
      change (flags_ok (set_mapcounts ?mc ?u)) with (flags_ok u).
      apply flags_ok_poke; [by apply Hflt|].
      apply entry_ok_fork_entry; auto.
  - intros i j e Hi He. split.
    + by apply (frames_ok_pte s (ptbr s) i j).
    + intros HF. apply (flags_ok_pte s (ptbr s) i j); [by apply Hfl | done].
  - intros i j d Hi Hd HF. rewrite (Hfresh i j d Hi Hd). apply (Hun HF).
  - by exists s'.
Qed.

(** What a call of [switch_process] does to the shape of the state, in
    either branch. *)
Lemma switch_process_cases s target :
  fresh_invalid ->
  fresh_slots_null (length (heap s)) ->
  vm_ok s = true ->
  NR_PAGEFRAMES / NR_PTES_PER_PAGE <= NR_OUTER_PTES ->
  Forall (fun a => a < length (heap s)) (processes s) ->
  exists s',
    switch_process target s = Ok s' /\
    vm_ok s' = true /\
    (flags_ok s = true -> fresh_unmarked -> flags_ok s' = true) /\
    length (mapcounts s') = length (mapcounts s) /\
    current s' = ptbr s' /\
    ((find_process (heap s) (processes s) target = Ok (Some (ptbr s')) /\
      processes s' = processes s /\
      length (heap s') = length (heap s) /\
      mapcounts s' = mapcounts s /\
      (forall b, b <> ptbr s' -> heap s' !! b = heap s !! b) /\
      (forall b, pid <$> heap s' !! b = pid <$> heap s !! b)) \/
     (find_process (heap s) (processes s) target = Ok None /\
      ptbr s' = length (heap s) /\
      processes s' = processes s ++ [length (heap s)] /\
      length (heap s') = S (length (heap s)) /\
      (forall b, b < length (heap s) -> heap s' !! b = heap s !! b) /\
      pid <$> heap s' !! length (heap s) = Some target)).
Proof.
  intros Hinv Hnull Hok Hfit Hlive.
  pose proof Hok as (Hwf & Hfr & Hrg)%vm_ok_true.
  destruct (find_process_total (heap s) (processes s) target Hlive)
    as [[a|] Hfind].
  - destruct (find_process_Some _ _ _ _ Hfind) as (q1 & q2 & P & _ & HP & _).
    assert (a < length (heap s)) as Ha by (by eapply lookup_lt_Some).
    destruct (switch_walk_inv
                (fun t => vm_ok t = true /\
                          (flags_ok s = true -> fresh_unmarked ->
                           flags_ok t = true))
                s a Hwf Ha Hfit)
      as (s1 & Hs1 & Hout & Hmc & [Hok1 Hfl1] & _); [| |done|].
    { intros i t [Hokt Hflt].
      split; [apply vm_ok_ens; [intros j; apply Hinv | done]|].
      intros HF Hun. apply flags_ok_ens; auto. }
    { intros i j t e d He Hd [Hokt Hflt]. split.
      - apply vm_ok_poke; [done|].
        pose proof Hokt as (_ & Hfrt & _)%vm_ok_true.
        apply switch_entry_frame; intros Hv;
          [by apply (frames_ok_pte t (ptbr t) i j) |
           by apply (frames_ok_pte t a i j)].
      - intros HF Hun. specialize (Hflt HF Hun). apply flags_ok_poke; [done|].
        apply entry_ok_switch_entry;
          [by apply (flags_ok_pte t (ptbr t) i j) |
           by apply (flags_ok_pte t a i j)]. }
    unfold switch_process. rewrite Hfind. cbn [bind]. rewrite Hs1. cbn [bind].
    pose proof Hout as (Hq & _ & _ & Hlen & Hheap & Hpid).
    eexists. split; [reflexivity|].
    split; [apply vm_ok_switch_to; [done | by rewrite Hlen]|].
    split; [exact Hfl1|]. simpl.
    split; [by rewrite Hmc|]. split; [done|]. left.
    split; [done|]. split; [done|]. split; [done|]. split; [done|].
    split; [done|]. intros b. by apply (same_outside_pid a).
  - pose proof (wf_vm_ptbr _ Hwf) as Hptbr.
    destruct (fork_start_facts s target Hwf Hnull)
      as (Hwf0 & Hlive0 & Hne & Hc & Hold & Hfresh & Hzero).
    destruct (fork_walk_shape (flags_ok s = true /\ fresh_unmarked)
                (fork_start target s) (length (heap s)))
      as (s1 & Hs1 & Hout & Hlen & Hok1 & Hfl1); try done.
    { by intros [_ ?]. }
    { by apply vm_ok_fork_start. }
    { intros [HF _]. by apply flags_ok_fork_start. }
    { intros i j d Hi. apply Hfresh. lia. }
    rewrite (switch_process_not_found _ _ Hfind), Hs1. cbn [bind].
    pose proof Hout as (Hq & _ & _ & Hlenh & Hheap & Hpid).
    assert (length (heap s1) = S (length (heap s))) as Hlen1.
    { rewrite Hlenh. simpl. rewrite length_app. simpl. lia. }
    eexists. split; [reflexivity|].
    split; [apply vm_ok_switch_to; [done | lia]|].
    split; [intros HF Hun; by apply Hfl1|]. simpl.
    split; [done|]. split; [done|]. right.
    split; [done|]. split; [done|]. split; [done|]. split; [done|].
    split. { intros b Hb. rewrite Hheap by lia. by apply Hold. }
    by rewrite Hpid, Hc.
Qed.

(** ** More on switch_process *)

(** X10: [switch_process] has a defined result in a well-formed state
    whose valid entries name frames of [mapcounts] and whose ready queue
    holds allocated processes: always when the pid is on the queue, and
    in the fork when the slots of the process structure that [malloc]
    returns read as NULL.  Afterwards [current] and [ptbr] name the same
    process, that process has the pid asked for, and it is the one the
    search of lines 191-198 now finds for that pid.  If the pid was
    found, the process is the one that was found and the queue is as
    before; if not, it is the new process and the queue is the old one
    with the new process appended. *)
Theorem switch_process_selects s target :
  wf_vm s = true ->
  frames_ok s = true ->
  NR_PAGEFRAMES / NR_PTES_PER_PAGE <= NR_OUTER_PTES ->
  Forall (fun a => a < length (heap s)) (processes s) ->
  (find_process (heap s) (processes s) target = Ok None ->
   fresh_slots_null (length (heap s))) ->
  exists s',
    switch_process target s = Ok s' /\
    current s' = ptbr s' /\
    pid <$> heap s' !! current s' = Some target /\
    find_process (heap s') (processes s') target = Ok (Some (current s')) /\
    ((find_process (heap s) (processes s) target = Ok (Some (current s')) /\
      processes s' = processes s) \/
     (find_process (heap s) (processes s) target = Ok None /\
      current s' = length (heap s) /\
      processes s' = processes s ++ [length (heap s)])).
Proof.
  intros Hwf Hfr Hfit Hlive Hnull.
  destruct (find_process_total (heap s) (processes s) target Hlive)
    as [[a|] Hfind].
  - destruct (find_process_Some _ _ _ _ Hfind)
      as (q1 & q2 & P & _ & HP & HpidP & _).
    assert (a < length (heap s)) as Ha by (by eapply lookup_lt_Some).
    destruct (switch_walk s a Hwf Ha Hfit) as (s1 & Hs1 & Hout & _).
    unfold switch_process. rewrite Hfind. cbn [bind]. rewrite Hs1. cbn [bind].
    pose proof Hout as (Hq & _ & _ & _ & _ & Hpid).
    eexists. split; [reflexivity|]. simpl. split; [done|].
    split; [by rewrite Hpid, HP; simpl; rewrite HpidP|].
    split; [|by left].
    rewrite Hq, <- Hfind. apply find_process_pids.
    intros b _. by apply (same_outside_pid a).
  - specialize (Hnull Hfind).
    pose proof (fun a i j e => frames_ok_pte s a i j e Hfr) as Hframes.
    destruct (fork_start_facts s target Hwf Hnull)
      as (Hwf0 & Hlive0 & Hne & Hc & Hold & _ & _).
    assert (forall i j, pte_at (fork_start target s) (ptbr s) i j
                        = pte_at s (ptbr s) i j) as Hsrc.
    { intros i j. apply pte_at_same_dir, dir_at_heap.
      apply Hold. by apply wf_vm_ptbr. }
    destruct (fork_walk (fun _ => True) (fun _ => True) (fork_start target s)
                (length (heap s)) Hwf0 Hlive0 Hne Hfit)
      as (s1 & Hs1 & Hout & _); try done.
    { intros i j e Hi. simpl ptbr. rewrite Hsrc. apply Hframes. }
    rewrite (switch_process_not_found _ _ Hfind), Hs1. cbn [bind].
    destruct Hout as (Hq & _ & _ & _ & Hheap & Hpid).
    eexists. split; [reflexivity|]. simpl. split; [done|].
    rewrite Hpid, Hc. split; [done|]. split; [|by right].
    rewrite Hq. simpl.
    destruct (heap s1 !! length (heap s)) as [P|] eqn:HP;
      [|by rewrite Hc in Hpid].
    rewrite Hc in Hpid. injection Hpid as HpidP.
    apply (find_process_first _ _ [] _ _ P); [done | done |].
    intros b Hb.
    destruct (find_process_None _ _ _ Hfind b Hb) as (Q & HQ & HneQ).
    exists Q. split; [|done].
    assert (b < length (heap s)) as Hb' by (by eapply lookup_lt_Some).
    rewrite Hheap by lia. by rewrite Hold.
Qed.

(** X11: switching to the process that is already running is not a
    no-op.  The walk of lines 229-247 then reads and writes the same
    table: every entry of the directories walked loses [writable], and
    is marked private if it was writable or private; [valid], [pfn] and
    the reference counts are as before. *)
Theorem switch_process_self s target :
  wf_vm s = true ->
  NR_PAGEFRAMES / NR_PTES_PER_PAGE <= NR_OUTER_PTES ->
  find_process (heap s) (processes s) target = Ok (Some (ptbr s)) ->
  exists s',
    switch_process target s = Ok s' /\
    ptbr s' = ptbr s /\
    mapcounts s' = mapcounts s /\
    forall i j e,
      i < NR_PAGEFRAMES / NR_PTES_PER_PAGE ->
      pte_at s (ptbr s) i j = Some e ->
      pte_at s' (ptbr s) i j
        = Some (Pte (valid e) false (pfn e)
                  (if writable e || (private e =? 1)%Z then 1%Z
                   else private e)).
Proof.
  intros Hwf Hfit Hfind.
  destruct (switch_walk s (ptbr s) Hwf (wf_vm_ptbr _ Hwf) Hfit)
    as (s1 & Hs1 & Hout & Hmc & _ & _ & Hent).
  unfold switch_process. rewrite Hfind. cbn [bind]. rewrite Hs1. cbn [bind].
  eexists. split; [reflexivity|]. simpl.
  split; [done|]. split; [done|].
  intros i j e Hi He.
  destruct (pte_at_dir _ _ _ _ _ He) as (d & Hd & _).
  change (pte_at (Vm (heap s1) ?q ?x ?y ?m) ?b ?k ?l) with (pte_at s1 b k l).
  rewrite (Hent i j e e Hi He) by (by rewrite (ens_present _ _ _ _ Hd)).
  rewrite switch_entry_self. destruct e as [v w n z]. simpl.
  by destruct (w || (z =? 1)%Z).
Qed.

Lemma fork_walk_dirs s c :
  wf_vm s = true ->
  c < length (heap s) ->
  ptbr s <> c ->
  NR_PAGEFRAMES / NR_PTES_PER_PAGE <= NR_OUTER_PTES ->
  (forall i j e,
      i < NR_PAGEFRAMES / NR_PTES_PER_PAGE ->
      pte_at s (ptbr s) i j = Some e -> valid e = true ->
      pfn e < length (mapcounts s)) ->
  exists s',
    walk_tables (fork_body c) s = Ok s' /\
    (forall i, NR_PAGEFRAMES / NR_PTES_PER_PAGE <= i ->
               dir_at s' c i = dir_at s c i) /\
    (forall i, dir_at s (ptbr s) i = Some None ->
               dir_at s' c i = dir_at s c i).
Proof.
  intros Hwf Hc Hne Hfit Hpfn.
  destruct (walk_tables_spec (fork_body c) c fork_entry
              (fun m m' => length m' = length m)
              (fun e m => valid e = true -> pfn e < length m)
              (fun _ => True) (fun _ => True) s)
    as (s' & Hs' & _ & _ & _ & Hbeyond & Hnone & _); try done.
  - congruence.
  - intros e m1 m2 Hlen HC Hv. rewrite Hlen. auto.
  - intros i j t. apply fork_body_break.
  - intros i j t. apply fork_body_ens.
  - intros i j t e d Hptbr He Hd HC _ _. exists (bump e (mapcounts t)).
    rewrite (fork_body_step _ _ _ _ _ _ (eq_ind_r (fun x => x <> c) Hne Hptbr)
               He Hd HC).
    split; [done|]. split; [|done]. apply length_bump.
  - by exists s'.
Qed.

(** X12: the fork does not copy the whole table.  Where the parent has
    no directory, and from slot [NR_PAGEFRAMES / NR_PTES_PER_PAGE] on,
    which is where the loop of line 206 stops, the slot of the child is
    never written: it is left as [malloc] returned it.  With slots that
    read as NULL the child thus has no entry for any page of those
    directories, whatever the parent has mapped there. *)
Theorem switch_process_fork_skips s target :
  wf_vm s = true ->
  NR_PAGEFRAMES / NR_PTES_PER_PAGE <= NR_OUTER_PTES ->
  find_process (heap s) (processes s) target = Ok None ->
  frames_ok s = true ->
  fresh_slots_null (length (heap s)) ->
  exists s',
    switch_process target s = Ok s' /\
    forall i,
      i < NR_OUTER_PTES ->
      NR_PAGEFRAMES / NR_PTES_PER_PAGE <= i \/
      dir_at s (ptbr s) i = Some None ->
      dir_at s' (length (heap s)) i
        = ptable (malloc_process (length (heap s))) !! i /\
      dir_at s' (length (heap s)) i = Some None /\
      forall j, pte_at s' (length (heap s)) i j = None.
Proof.
  intros Hwf Hfit Hfind Hpfn Hnull.
  pose proof (wf_vm_ptbr _ Hwf) as Hptbr.
  destruct (fork_start_facts s target Hwf Hnull)
    as (Hwf0 & Hlive & Hne & Hc & Hold & _ & _).
  assert (forall i, dir_at (fork_start target s) (ptbr s) i
                    = dir_at s (ptbr s) i) as Hsrc.
  { intros i. apply dir_at_heap. by apply Hold. }
  destruct (fork_walk_dirs (fork_start target s) (length (heap s))
              Hwf0 Hlive Hne Hfit)
    as (s1 & Hs1 & Hbeyond & Hnone).
  { intros i j e Hi. simpl ptbr.
    rewrite (pte_at_same_dir _ _ _ _ (Hsrc i)). by apply (frames_ok_pte s). }
  rewrite (switch_process_not_found _ _ Hfind), Hs1. cbn [bind].
  eexists. split; [reflexivity|].
  intros i Hi Hcase.
  assert (dir_at (fork_start target s) (length (heap s)) i = Some None)
    as Hfresh.
  { unfold dir_at. rewrite Hc. simpl. by apply lookup_replicate_2. }
  assert (dir_at s1 (length (heap s)) i = Some None) as Hdir.
  { rewrite <- Hfresh. destruct Hcase as [Hge|Hno]; [by apply Hbeyond|].
    apply Hnone. simpl ptbr. by rewrite Hsrc. }
  split.
  { rewrite (malloc_process_null _ Hnull).
    change (dir_at (Vm (heap s1) ?q ?x ?y ?m) ?b ?k) with (dir_at s1 b k).
    rewrite Hdir. symmetry. by apply lookup_replicate_2. }
  split; [done|]. intros j. by apply dir_at_None_pte.
Qed.

(** *** A process structure that is not zero *)

Lemma for_loop_skip_fail body k n i s flt :
  k <= i < k + n ->
  (forall i', k <= i' < i -> body i' s = Ok (Continue s)) ->
  body i s = Undefined flt ->
  for_loop body k n s = Undefined flt.
Proof.
  revert k. induction n as [|n IH]; intros k Hrange Hskip Hfail; [lia|].
  simpl. destruct (decide (k = i)) as [->|Hne].
  - by rewrite Hfail.
  - rewrite Hskip by lia. simpl. apply IH; [lia| |done].
    intros i' Hi'. apply Hskip. lia.
Qed.

(** A slot of the new structure that does not read as NULL is followed
    as it is. *)
Lemma read_pte_wild s a i j P :
  heap s !! a = Some P -> ptable P !! i = Some (Some wild) ->
  read_pte a i j s = Undefined OutOfBounds.
Proof. intros HP Hi. unfold read_pte, index. rewrite HP. simpl. by rewrite Hi.
    Qed.

Lemma fork_body_wild p i j t P d e :
  dir_at t (ptbr t) i = Some (Some d) ->
  d !! j = Some e ->
  heap t !! p = Some P -> ptable P !! i = Some (Some wild) ->
  fork_body p i j t = Undefined OutOfBounds.
Proof.
  intros Hd He HP Hi. unfold fork_body.
  rewrite (read_dir_Some _ _ _ _ Hd).
  assert (ensure_dir p i t = Ok t) as ->.
  { unfold ensure_dir, index. rewrite HP. simpl. by rewrite Hi. }
  cbn [bind].
  assert (pte_at t (ptbr t) i j = Some e) as Hpte
    by (by rewrite (dir_pte_at _ _ _ _ _ Hd)).
  rewrite (read_pte_Some _ _ _ _ _ Hpte). cbn [bind].
  unfold modify_pte.
  destruct (writable e || (private e =? 1)%Z).
  - by rewrite (read_pte_wild _ _ _ _ _ HP Hi).
  - cbn [bind]. rewrite (read_pte_Some _ _ _ _ _ Hpte). cbn [bind].
    by rewrite (read_pte_wild _ _ _ _ _ HP Hi).
Qed.

(** X24: line 210 tests a slot of the process structure of line 201
    that nothing has written.  At the first directory the parent has,
    if that slot does not read as NULL no directory is allocated for the
    child, and the first store of the loop (line 213 or 216) goes
    through the pointer that [malloc] left there: the fork has no
    defined result. *)
Theorem switch_process_fork_wild_pointer s target i d :
  wf_vm s = true ->
  find_process (heap s) (processes s) target = Ok None ->
  i < NR_PAGEFRAMES / NR_PTES_PER_PAGE ->
  (forall i', i' < i -> dir_at s (ptbr s) i' = Some None) ->
  dir_at s (ptbr s) i = Some (Some d) ->
  fresh_null (length (heap s)) i = false ->
  switch_process target s = Undefined OutOfBounds.
Proof.
  intros Hwf Hfind Hi Hbelow Hd Hjunk.
  pose proof (wf_vm_ptbr _ Hwf) as Hptbr.
  assert (forall k, dir_at (fork_start target s) (ptbr s) k
                    = dir_at s (ptbr s) k) as Hsrc.
  { intros k. apply dir_at_heap. simpl. by apply lookup_app_l. }
  assert (0 < NR_PTES_PER_PAGE) as Hpos.
  { destruct NR_PTES_PER_PAGE; [simpl in Hi|]; lia. }
  assert (i < NR_OUTER_PTES /\ length d = NR_PTES_PER_PAGE) as [Hout Hlen].
  { unfold dir_at in Hd. destruct (heap s !! ptbr s) as [P|] eqn:HP; [|done].
    destruct (wf_vm_table _ _ _ Hwf HP) as [HlenP Hdirs].
    split; [|by eapply Hdirs]. rewrite <- HlenP. by eapply lookup_lt_Some. }
  destruct (lookup_lt_is_Some_2 d 0) as [e He]; [lia|].
  rewrite (switch_process_not_found _ _ Hfind).
  unfold walk_tables.
  rewrite (for_loop_skip_fail _ 0 _ i _ OutOfBounds); [done|lia| |].
  - intros i' Hi'. rewrite (for_loop_break _ _ _ _ (fork_body_break _ _ _ _
      (eq_trans (Hsrc i') (Hbelow i' (proj2 Hi'))))). done.
  - destruct NR_PTES_PER_PAGE as [|n] eqn:HN; [lia|]. cbn [for_loop].
    rewrite (fork_body_wild (length (heap s)) i 0 (fork_start target s)
               (Process target (ptable (malloc_process (length (heap s)))))
               d e); [done|by rewrite <- Hd|done| |].
    + simpl. by rewrite list_lookup_middle.
    + simpl. rewrite list_lookup_fmap, lookup_seq_lt by done. simpl.
      by rewrite Hjunk.
Qed.

(** *** References that no counter records *)

Lemma switch_entry_maps e d f :
  maps_frame f d = true -> maps_frame f (switch_entry e d) = true.
Proof.
  unfold maps_frame. intros [Hv Hf]%andb_prop.
  destruct (switch_entry_flags e d) as (_ & _ & H).
  destruct (H Hv) as [-> ->]. by rewrite Hf.
Qed.

Lemma switch_entry_adopts e d :
  valid e = true -> valid d = false ->
  maps_frame (pfn e) (switch_entry e d) = true.
Proof.
  intros He Hd. unfold maps_frame, switch_entry. destruct d as [v w n z].
  simpl in *. subst v.
  destruct (writable e || (private e =? 1)%Z); simpl;
    by rewrite He, Nat.eqb_refl.
Qed.

(** X13: the branch that finds the pid adopts mappings without counting
    them.  Where the outgoing process has a valid entry and the process
    switched to has an entry that is not valid, lines 239-244 copy
    [valid] and [pfn] into the latter and leave [mapcounts] alone: the
    frame is then referred to by more entries than before under the
    same counter, and reference counts that were exact are exact no
    longer.  This holds whatever [malloc] returns for the directories
    that the walk allocates. *)
Theorem switch_process_adopts_uncounted s target a i j e d :
  wf_vm s = true ->
  NR_PAGEFRAMES / NR_PTES_PER_PAGE <= NR_OUTER_PTES ->
  find_process (heap s) (processes s) target = Ok (Some a) ->
  i < NR_PAGEFRAMES / NR_PTES_PER_PAGE ->
  pte_at s (ptbr s) i j = Some e ->
  valid e = true ->
  pte_at s a i j = Some d ->
  valid d = false ->
  exists s',
    switch_process target s = Ok s' /\
    mapcounts s' = mapcounts s /\
    (exists d', pte_at s' a i j = Some d' /\
                valid d' = true /\ pfn d' = pfn e) /\
    count_refs s (pfn e) < count_refs s' (pfn e) /\
    (refcounts_exact s -> pfn e < length (mapcounts s) ->
     ~ refcounts_exact s').
Proof.
  intros Hwf Hfit Hfind Hi He Hv Hd Hvd.
  destruct (find_process_Some _ _ _ _ Hfind) as (q1 & q2 & P & _ & HP & _).
  assert (a < length (heap s)) as Ha by (by eapply lookup_lt_Some).
  destruct (pte_at_dir _ _ _ _ _ Hd) as (dd & Hdd & _).
  destruct (switch_walk_inv
              (fun t => (exists x, pte_at t a i j = Some x) /\
                 forall f,
                   count_refs s f
                   + match pte_at t a i j with
                     | Some x => if maps_frame f x then 1 else 0
                     | None => 0
                     end <= count_refs t f) s a Hwf Ha Hfit)
    as (s1 & Hs1 & Hout & Hmc & [_ HQ] & Hent).
  { intros k t [[x Hx] HQ].
    assert (pte_at (ens a k t) a i j = pte_at t a i j) as Hsame.
    { destruct (decide (k = i)) as [->|Hne];
        [|by rewrite pte_at_ens_ne by congruence].
      destruct (pte_at_dir _ _ _ _ _ Hx) as (dx & Hdx & _).
      by rewrite (ens_present _ _ _ _ Hdx). }
    rewrite Hsame. split; [eauto|]. intros f.
    pose proof (count_refs_ens_le a k t f). specialize (HQ f). lia. }
  { intros i' j' t e' d' He' Hd' [[x Hx] HQ].
    assert (forall f,
              count_refs s f
              + match pte_at (poke a i' j' (switch_entry e' d') t) a i j with
                | Some x => if maps_frame f x then 1 else 0
                | None => 0
                end
              <= count_refs (poke a i' j' (switch_entry e' d') t) f) as HQ'.
    { intros f. specialize (HQ f).
      pose proof (count_refs_poke _ _ _ (switch_entry e' d') _ _ f Hd')
        as Hcount.
      destruct (decide ((i', j') = (i, j))) as [[= -> ->]|Hne].
      - rewrite (pte_at_poke_eq _ _ _ _ _ _ Hd'). rewrite Hd' in HQ. lia.
      - rewrite pte_at_poke_ne by congruence.
        pose proof (switch_entry_maps e' d' f) as Hmono.
        destruct (maps_frame f d'); [rewrite Hmono in Hcount by done|]; lia. }
    split; [|done].
    destruct (decide ((i', j') = (i, j))) as [[= -> ->]|Hne].
    - rewrite (pte_at_poke_eq _ _ _ _ _ _ Hd'). eauto.
    - rewrite pte_at_poke_ne by congruence. eauto. }
  { split; [eauto|]. intros f. rewrite Hd.
    unfold maps_frame. rewrite Hvd. simpl. lia. }
  unfold switch_process. rewrite Hfind. cbn [bind]. rewrite Hs1. cbn [bind].
  eexists. split; [reflexivity|]. simpl. split; [done|].
  assert (pte_at (ens a i s) a i j = Some d) as Hd0
    by (by rewrite (ens_present _ _ _ _ Hdd)).
  pose proof (Hent i j e d Hi He Hd0) as Hnew.
  pose proof (switch_entry_adopts e d Hv Hvd) as Hmaps.
  assert (count_refs s (pfn e) < count_refs s1 (pfn e)) as Hlt.
  { specialize (HQ (pfn e)). rewrite Hnew, Hmaps in HQ. lia. }
  split.
  { exists (switch_entry e d). split; [done|].
    unfold maps_frame in Hmaps. apply andb_prop in Hmaps as [? ?%Nat.eqb_eq].
    done. }
  split; [done|].
  intros Hexact Hpfn Hexact'.
  destruct (lookup_lt_is_Some_2 _ _ Hpfn) as [c Hc].
  pose proof (Hexact _ _ Hc) as H1.
  specialize (Hexact' (pfn e) c). simpl in Hexact'. rewrite Hmc in Hexact'.
  specialize (Hexact' Hc).
  change (count_refs (Vm (heap s1) ?q ?x ?y ?m) ?g) with (count_refs s1 g)
    in Hexact'.
  lia.
Qed.

(** ** Sequences of operations keep the shape *)

Lemma step_keeps_shape o s s' :
  fresh_invalid ->
  (forall a, fresh_slots_null a) ->
  NR_PAGEFRAMES / NR_PTES_PER_PAGE <= NR_OUTER_PTES ->
  vm_ok s = true ->
  queue_ok s ->
  step o s = Ok s' ->
  vm_ok s' = true /\ queue_ok s' /\
  length (mapcounts s') = length (mapcounts s).
Proof.
  intros Hinv Hnull Hfit Hok Hq H.
  destruct o as [vpn rw|vpn|vpn rw|target]; simpl in H.
  - apply bind_Ok in H as ([s1 f] & H & [= <-]).
    destruct (alloc_page_keeps_ok _ _ _ _ _ Hinv Hok H) as (Hok' & Hlen & Hout).
    split; [done|]. split; [|done]. by eapply queue_ok_same_outside.
  - destruct (free_page_keeps_ok _ _ _ Hok H) as (Hok' & Hlen & Hout).
    split; [done|]. split; [|done]. by eapply queue_ok_same_outside.
  - apply bind_Ok in H as ([s1 b] & H & [= <-]).
    destruct (handle_page_fault_keeps_ok _ _ _ _ _ Hok H)
      as (Hok' & Hlen & Hout).
    split; [done|]. split; [|done]. by eapply queue_ok_same_outside.
  - destruct Hq as [Hlive Hnd].
    destruct (switch_process_cases s target Hinv (Hnull _) Hok Hfit Hlive)
      as (s1 & Hs1 & Hok' & _ & Hlen & _ & Hcase).
    rewrite Hs1 in H. injection H as <-.
    split; [done|]. split; [|done]. unfold queue_ok, queue_pids.
    destruct Hcase as [(_ & Hq' & Hlenh & _ & _ & Hpid)|
                       (Hfind & _ & Hq' & Hlenh & Hold & Hpid)].
    + rewrite Hq', Hlenh. split; [done|].
      erewrite list_fmap_ext; [exact Hnd|]. intros k b _. apply Hpid.
    + rewrite Hq', Hlenh. split.
      * apply Forall_app. split; [|repeat constructor].
        eapply Forall_impl; [exact Hlive|]. simpl. lia.
      * rewrite fmap_app. simpl. rewrite Hpid.
        assert ((fun b => pid <$> heap s1 !! b) <$> processes s
                = queue_pids s) as ->.
        { apply list_fmap_ext. intros k b Hb.
          rewrite Hold; [done|].
          rewrite Forall_forall in Hlive. apply Hlive.
          by eapply list_elem_of_lookup_2. }
        apply NoDup_app. split; [done|]. split; [|apply NoDup_singleton].
        intros x Hx ->%list_elem_of_singleton.
        apply list_elem_of_fmap in Hx as (b & Hb & Hin).
        destruct (find_process_None _ _ _ Hfind b Hin) as (Q & HQ & Hne).
        rewrite HQ in Hb. simpl in Hb. congruence.
Qed.

(** X14: provided the memory that [malloc] returns is clear (the
    slots of a process structure read as NULL, no entry of a directory
    is valid), every sequence of operations that has a defined result
    keeps the shape of the state: page tables stay well-formed, every
    valid entry names a frame of [mapcounts], the counters stay
    [unsigned int]s and as many as before, and the ready queue holds
    allocated processes with pairwise distinct pids.  None of this is
    checked by the code. *)
Theorem run_keeps_shape ops s s' :
  fresh_invalid ->
  (forall a, fresh_slots_null a) ->
  NR_PAGEFRAMES / NR_PTES_PER_PAGE <= NR_OUTER_PTES ->
  vm_ok s = true ->
  queue_ok s ->
  run ops s = Ok s' ->
  vm_ok s' = true /\ queue_ok s' /\
  length (mapcounts s') = length (mapcounts s).
Proof.
  intros Hinv Hnull Hfit. revert s.
  induction ops as [|o ops IH]; intros s Hok Hq H.
  - simpl in H. injection H as <-. done.
  - simpl in H. apply bind_Ok in H as (s1 & H1 & H).
    destruct (step_keeps_shape _ _ _ Hinv Hnull Hfit Hok Hq H1)
      as (Hok1 & Hq1 & Hlen1).
    destruct (IH s1 Hok1 Hq1 H) as (Hok' & Hq' & Hlen').
    split; [done|]. split; [done|]. congruence.
Qed.

(** *** The search of the ready queue, characterised *)

Lemma find_process_none_intro h q target :
  (forall b, b ∈ q -> exists Q, h !! b = Some Q /\ pid Q <> target) ->
  find_process h q target = Ok None.
Proof.
  induction q as [|b q IH]; intros Hall; simpl; [done|].
  destruct (Hall b) as (Q & -> & Hne); [by left|]. simpl.
  rewrite (proj2 (Nat.eqb_neq _ _) Hne). apply IH.
  intros b' Hb'. apply Hall. by right.
Qed.

(** X19: the search of lines 191-198 returns a process exactly when it
    is the first one in queue order whose pid is the one asked for, and
    reports that there is none exactly when every queued process has
    another pid. *)
Theorem find_process_first_match h q target :
  (forall a,
      find_process h q target = Ok (Some a) <->
      exists q1 q2 P,
        q = q1 ++ a :: q2 /\ h !! a = Some P /\ pid P = target /\
        forall b, b ∈ q1 -> exists Q, h !! b = Some Q /\ pid Q <> target) /\
  (find_process h q target = Ok None <->
   forall b, b ∈ q -> exists Q, h !! b = Some Q /\ pid Q <> target).
Proof.
  split; [intros a|]; split.
  - apply find_process_Some.
  - intros (q1 & q2 & P & -> & HP & Hpid & Hfirst).
    by apply (find_process_first _ _ _ _ _ P).
  - apply find_process_None.
  - apply find_process_none_intro.
Qed.

(** ** Entries that are not valid stay unmarked *)

Lemma step_keeps_flags o s s' :
  fresh_invalid ->
  (forall a, fresh_slots_null a) ->
  fresh_unmarked ->
  NR_PAGEFRAMES / NR_PTES_PER_PAGE <= NR_OUTER_PTES ->
  vm_ok s = true ->
  queue_ok s ->
  flags_ok s = true ->
  step o s = Ok s' ->
  flags_ok s' = true.
Proof.
  intros Hinv Hnull Hun Hfit Hok Hq Hfl H.
  destruct o as [vpn rw|vpn|vpn rw|target]; simpl in H.
  - apply bind_Ok in H as ([s1 f] & H & [= <-]).
    apply alloc_page_Ok_inv in H as (od & e0 & _ & _ & _ & ->).
    change (flags_ok (set_mapcounts ?mc ?u)) with (flags_ok u).
    apply flags_ok_poke; [by apply flags_ok_ens | done].
  - apply free_page_Ok_inv in H as (e & c & _ & _ & ->).
    change (flags_ok (set_mapcounts ?mc ?u)) with (flags_ok u).
    by apply flags_ok_poke.
  - apply bind_Ok in H as ([s1 b] & H & [= <-]).
    apply handle_page_fault_Ok_inv in H as (e & He & _ & Hcase);
      [|by apply vm_ok_range].
    destruct Hcase as [[_ ->]|[Ht (c & _ & Hcase)]]; [done|].
    assert (valid e = true) as Hv.
    { pose proof (flags_ok_pte _ _ _ _ _ Hfl He) as Hentry.
      rewrite (fault_test_cow _ rw Hentry) in Ht.
      by apply cow_fault_test in Ht as [? _]. }
    destruct Hcase as [[_ ->]|[_ (f & _ & ->)]].
    + apply flags_ok_poke; [done|]. unfold entry_ok. simpl. by rewrite Hv.
    + change (flags_ok (set_mapcounts ?mc ?u)) with (flags_ok u).
      apply flags_ok_poke; [done|]. unfold entry_ok. simpl. by rewrite Hv.
  - destruct Hq as [Hlive _].
    destruct (switch_process_cases s target Hinv (Hnull _) Hok Hfit Hlive)
      as (s1 & Hs1 & _ & Hfl1 & _).
    rewrite Hs1 in H. injection H as <-. by apply Hfl1.
Qed.

(** X20: provided the memory that [malloc] returns is clear (the
    slots of a process structure read as NULL, no entry of a directory
    is valid, writable or marked private), every sequence of operations
    with a defined result keeps this: an entry that is not valid is
    neither writable nor marked private.  [free_page] clears both flags,
    the fork and the switch mark an entry private only where they leave
    it valid, and [handle_page_fault] sets [writable] only on entries
    marked private. *)
Theorem run_keeps_flags ops s s' :
  fresh_invalid ->
  (forall a, fresh_slots_null a) ->
  fresh_unmarked ->
  NR_PAGEFRAMES / NR_PTES_PER_PAGE <= NR_OUTER_PTES ->
  vm_ok s = true ->
  queue_ok s ->
  flags_ok s = true ->
  run ops s = Ok s' ->
  flags_ok s' = true.
Proof.
  intros Hinv Hnull Hun Hfit. revert s.
  induction ops as [|o ops IH]; intros s Hok Hq Hfl H.
  - simpl in H. by injection H as <-.
  - simpl in H. apply bind_Ok in H as (s1 & H1 & H).
    destruct (step_keeps_shape _ _ _ Hinv Hnull Hfit Hok Hq H1)
      as (Hok1 & Hq1 & _).
    apply (IH s1 Hok1 Hq1); [|done].
    exact (step_keeps_flags o s s1 Hinv Hnull Hun Hfit Hok Hq Hfl H1).
Qed.

(** X21: line 140 does not test [valid], and yet, wherever entries that
    are not valid are unmarked, [handle_page_fault] answers as if it
    did: on an entry that exists it returns true exactly on a
    copy-on-write fault, a write access to an entry that is valid, not
    writable and marked private. *)
Theorem handle_page_fault_answers_cow s vpn rw e s' b :
  flags_ok s = true ->
  counts_in_range (mapcounts s) = true ->
  pte_at s (ptbr s) (vpn / NR_PTES_PER_PAGE) (vpn mod NR_PTES_PER_PAGE)
    = Some e ->
  handle_page_fault vpn rw s = Ok (s', b) ->
  b = cow_fault e rw.
Proof.
  intros Hfl Hrange He H.
  apply handle_page_fault_Ok_inv in H as (e' & He' & -> & _); [|done].
  rewrite He in He'. injection He' as <-.
  apply fault_test_cow. by eapply flags_ok_pte.
Qed.

End VM.

(** * Closed instances

    The examples fix the constants at 16 entries per directory, 128 page
    frames and 16 slots in the outer table. *)

(** ** Defects of the code *)

(** C1: the reference counts do not stay exact.  Processes 1 and 2 are
    forked in a row, process 2 maps page 0 (frame 0, count 1), and
    process 1 is switched back to: lines 239-244 copy the mapping into
    the table of process 1 and leave [mapcounts[0]] at 1, although two
    valid entries now name frame 0.  Before the last operation the
    counts are exact. *)
Theorem switch_back_breaks_refcounts :
  refcounts_exact
    (state_after 16 128 16 zeroed_pte zeroed_null [SwitchProcess 1;
        SwitchProcess 2; AllocPage 0 3])
  /\
  exists s,
    run 16 128 16 zeroed_pte zeroed_null switch_back_ops (init_vm 128 16) = Ok
        s /\
    pte_at s 1 0 0 = Some (Pte true false 0 1) /\
    pte_at s 2 0 0 = Some (Pte true true 0 0) /\
    mapcounts s !! 0 = Some 1%Z /\
    count_refs s 0 = 2 /\
    ~ refcounts_exact s.
Proof.
  split; [apply refcounts_exactb_true; by vm_compute|].
  eexists. split; [by vm_compute|].
  split; [by vm_compute|]. split; [by vm_compute|].
  split; [by vm_compute|]. split; [by vm_compute|].
  intros H. specialize (H 0 1%Z eq_refl). vm_compute in H. discriminate.
Qed.

(** C5: with every frame taken, [alloc_page] does not return the
    sentinel: the scan of line 80 has no bound and reads
    [mapcounts[128]], past the end of the array. *)
Theorem alloc_page_exhausted_out_of_bounds :
  exists s,
    run 16 128 16 zeroed_pte zeroed_null (fill_frames 128) (init_vm 128 16) =
        Ok s /\
    forallb (fun c => negb (c =? 0)%Z) (mapcounts s) = true /\
    alloc_page 16 zeroed_pte 128 3 s = Undefined OutOfBounds.
Proof.
  eexists. split; [by vm_compute|]. split; by vm_compute.
Qed.

(** C8: a copy-on-write fault on a shared frame does not always repoint
    the entry.  Process 1 takes all 128 frames and forks: the child's
    entry for page 0 is valid, read-only and private, its frame has
    count 2, the counts are exact, and no frame is free.  The write
    fault passes the test of line 140 and takes the branch of line 143;
    the scan of line 148 has no bound and reads [mapcounts[128]], past
    the end of the array. *)
Theorem cow_fault_exhausted_out_of_bounds :
  exists s,
    run 16 128 16 zeroed_pte zeroed_null (all_shared_ops 128) (init_vm 128 16)
      = Ok s /\
    pte_at s (ptbr s) (0 / 16) (0 mod 16) = Some (Pte true false 0 1) /\
    cow_fault (Pte true false 0 1) 2 = true /\
    mapcounts s !! 0 = Some 2%Z /\
    forallb (fun c => negb (c =? 0)%Z) (mapcounts s) = true /\
    refcounts_exact s /\
    handle_page_fault 16 0 2 s = Undefined OutOfBounds.
Proof.
  eexists. split; [by vm_compute|]. split; [by vm_compute|].
  split; [by vm_compute|]. split; [by vm_compute|]. split; [by vm_compute|].
  split; [apply refcounts_exactb_true; by vm_compute | by vm_compute].
Qed.

(** C6: on a page whose directory is absent, [handle_page_fault] does
    not return false: line 140 dereferences the NULL directory pointer,
    for a read as for a write. *)
Theorem handle_page_fault_absent_directory :
  dir_at (init_vm 128 16) (ptbr (init_vm 128 16)) 0 = Some None /\
  handle_page_fault 16 0 1 (init_vm 128 16) = Undefined NullDeref /\
  handle_page_fault 16 0 2 (init_vm 128 16) = Undefined NullDeref.
Proof. split; [|split]; by vm_compute. Qed.

(** ** The specification's scenario

    Steps 1 to 5 of the end-to-end scenario, run on the embedding. *)
Lemma scenario_steps :
  exists s1 s2 s3 s4,
    alloc_page 16 zeroed_pte 0 3 (init_vm 128 16) = Ok (s1, 0) /\
    alloc_page 16 zeroed_pte 1 1 s1 = Ok (s2, 1) /\
    switch_process 16 128 16 zeroed_pte zeroed_null 99 s2 = Ok s3 /\
    mapcounts s3 !! 0 = Some 2%Z /\ mapcounts s3 !! 1 = Some 2%Z /\
    pte_at s3 1 0 1 = Some (Pte true false 1 0) /\
    handle_page_fault 16 0 2 s3 = Ok (s4, true) /\
    pte_at s4 1 0 0 = Some (Pte true true 2 1) /\
    mapcounts s4 !! 0 = Some 1%Z /\ mapcounts s4 !! 2 = Some 1%Z /\
    handle_page_fault 16 0 2 s4 = Ok (s4, false).
Proof.
  eexists _, _, _, _. split; [by vm_compute|]. split; [by vm_compute|].
  split; [by vm_compute|]. split; [by vm_compute|]. split; [by vm_compute|].
  split; [by vm_compute|]. split; [by vm_compute|]. split; [by vm_compute|].
  split; [by vm_compute|]. split; by vm_compute.
Qed.

(** The fork walks the first [NR_PAGEFRAMES / NR_PTES_PER_PAGE]
    directories only: with 128 frames and 16 entries per directory, a
    page of directory 12 is not inherited. *)
Lemma fork_walks_first_directories :
  exists s s',
    run 16 128 16 zeroed_pte zeroed_null far_page_ops (init_vm 128 16) = Ok s /\
    pte_at s 0 12 8 = Some (Pte true true 0 0) /\
    switch_process 16 128 16 zeroed_pte zeroed_null 1 s = Ok s' /\
    dir_at s' 1 12 = Some None /\
    mapcounts s' !! 0 = Some 1%Z.
Proof.
  eexists _, _. split; [by vm_compute|]. split; [by vm_compute|].
  split; [by vm_compute|]. split; by vm_compute.
Qed.

(** ** Counterexamples to the claims as stated *)

(** C2 does not hold as stated: after the fork of the specification's
    scenario the parent's entry for page 0, writable before, is still
    writable and not marked private; only the child's entry is
    protected. *)
Lemma fork_leaves_parent_entry :
  find_process (heap
      (state_after 16 128 16 zeroed_pte zeroed_null two_pages_ops))
    (processes (state_after 16 128 16 zeroed_pte zeroed_null two_pages_ops))
        99 = Ok None /\
  pte_at (state_after 16 128 16 zeroed_pte zeroed_null two_pages_ops) 0 0 0
    = Some (Pte true true 0 0) /\
  exists s' e,
    switch_process 16 128 16 zeroed_pte zeroed_null 99
        (state_after 16 128 16 zeroed_pte zeroed_null two_pages_ops) = Ok s'
        /\
    pte_at s' 0 0 0 = Some e /\
    writable e = true /\ private e <> 1%Z /\
    pte_at s' 1 0 0 = Some (Pte true false 0 1).
Proof.
  split; [by vm_compute|]. split; [by vm_compute|].
  eexists _, _. split; [by vm_compute|]. split; [by vm_compute|].
  split; [done|]. split; [done|]. by vm_compute.
Qed.

(** C3 does not hold as stated: switching to process 1, which is on the
    ready queue, rewrites its entry for page 0 (writable before, then
    not writable and marked private). *)
Lemma switch_rewrites_target_entry :
  find_process (heap (state_after 16 128 16 zeroed_pte zeroed_null forked_ops))
    (processes (state_after 16 128 16 zeroed_pte zeroed_null forked_ops)) 1 =
        Ok (Some 1) /\
  pte_at (state_after 16 128 16 zeroed_pte zeroed_null forked_ops) 1 0 0
    = Some (Pte true true 0 0) /\
  exists s',
    switch_process 16 128 16 zeroed_pte zeroed_null 1
        (state_after 16 128 16 zeroed_pte zeroed_null forked_ops) = Ok s' /\
    pte_at s' 1 0 0 = Some (Pte true false 0 1) /\
    pte_at s' 1 0 0 <> pte_at
        (state_after 16 128 16 zeroed_pte zeroed_null forked_ops) 1 0 0.
Proof.
  split; [by vm_compute|]. split; [by vm_compute|].
  eexists. split; [by vm_compute|]. split; by vm_compute.
Qed.

(** ** Instances of the theorems *)

(** [alloc_page_lowest_free] on the first allocation of a fresh
    system. *)
Lemma alloc_page_lowest_free_witness :
  wf_vm 16 16 (init_vm 128 16) = true /\
  exists s' f e,
    alloc_page 16 zeroed_pte 0 3 (init_vm 128 16) = Ok (s', f) /\
    lowest_free (mapcounts (init_vm 128 16)) f /\
    pte_at s' (ptbr (init_vm 128 16)) (0 / 16) (0 mod 16) = Some e /\
    valid e = true /\ pfn e = f /\ writable e = Nat.testbit 3 1 /\
    mapcounts s' = <[f := 1%Z]> (mapcounts (init_vm 128 16)) /\
    ptbr s' = ptbr (init_vm 128 16) /\
    (forall i, i <> 0 / 16 ->
               dir_at s' (ptbr (init_vm 128 16)) i
               = dir_at (init_vm 128 16) (ptbr (init_vm 128 16)) i).
Proof.
  split; [reflexivity|].
  apply (alloc_page_lowest_free 16 16 zeroed_pte (init_vm 128 16) 0 3);
    [reflexivity | lia | lia | exists 0; reflexivity].
Defined.

(** [cow_fault_refcount_one] for the parent that is switched back to
    after its child has taken a copy. *)
Lemma cow_fault_refcount_one_witness :
  pte_at (state_after 16 128 16 zeroed_pte zeroed_null sole_owner_ops)
    (ptbr (state_after 16 128 16 zeroed_pte zeroed_null sole_owner_ops)) (0 /
        16) (0 mod 16)
    = Some (Pte true false 0 1) /\
  mapcounts (state_after 16 128 16 zeroed_pte zeroed_null sole_owner_ops) !! 0
      = Some 1%Z /\
  exists s' e',
    handle_page_fault 16 0 2
        (state_after 16 128 16 zeroed_pte zeroed_null sole_owner_ops)
      = Ok (s', true) /\
    pte_at s' (ptbr
        (state_after 16 128 16 zeroed_pte zeroed_null sole_owner_ops)) (0 /
        16) (0 mod 16)
      = Some e' /\
    writable e' = true /\ pfn e' = pfn (Pte true false 0 1) /\
    valid e' = valid (Pte true false 0 1) /\
    mapcounts s' = mapcounts
        (state_after 16 128 16 zeroed_pte zeroed_null sole_owner_ops).
Proof.
  split; [reflexivity|]. split; [reflexivity|].
  apply (cow_fault_refcount_one 16
      (state_after 16 128 16 zeroed_pte zeroed_null sole_owner_ops) 0 2
           (Pte true false 0 1)); reflexivity.
Defined.

(** [cow_fault_refcount_shared] for a child writing to the page it
    shares with its parent. *)
Lemma cow_fault_refcount_shared_witness :
  pte_at (state_after 16 128 16 zeroed_pte zeroed_null forked_ops)
    (ptbr (state_after 16 128 16 zeroed_pte zeroed_null forked_ops)) (0 / 16)
        (0 mod 16)
    = Some (Pte true false 0 1) /\
  mapcounts (state_after 16 128 16 zeroed_pte zeroed_null forked_ops) !! 0 =
      Some 2%Z /\
  exists s' f e',
    handle_page_fault 16 0 2
        (state_after 16 128 16 zeroed_pte zeroed_null forked_ops)
      = Ok (s', true) /\
    lowest_free (mapcounts
        (state_after 16 128 16 zeroed_pte zeroed_null forked_ops)) f /\
    pte_at s' (ptbr (state_after 16 128 16 zeroed_pte zeroed_null forked_ops))
        (0 / 16) (0 mod 16)
      = Some e' /\
    pfn e' = f /\ writable e' = true /\ f <> pfn (Pte true false 0 1) /\
    mapcounts s' !! pfn (Pte true false 0 1) = Some (2 - 1)%Z /\
    mapcounts s' !! f = Some (0 + 1)%Z /\
    (forall g, g <> f -> g <> pfn (Pte true false 0 1) ->
               mapcounts s' !! g
               = mapcounts
                   (state_after 16 128 16 zeroed_pte zeroed_null forked_ops)
                   !! g) /\
    sum_counts (mapcounts s')
      = sum_counts (mapcounts
          (state_after 16 128 16 zeroed_pte zeroed_null forked_ops)).
Proof.
  split; [reflexivity|]. split; [reflexivity|].
  apply (cow_fault_refcount_shared 16
      (state_after 16 128 16 zeroed_pte zeroed_null forked_ops) 0 2
           (Pte true false 0 1) 2%Z);
    [reflexivity | reflexivity | reflexivity | lia | exists 1; reflexivity].
Defined.


(** [free_page_valid_mapping] for a child freeing the page it shares
    with its parent. *)
Lemma free_page_valid_mapping_witness :
  pte_at (state_after 16 128 16 zeroed_pte zeroed_null forked_ops)
    (ptbr (state_after 16 128 16 zeroed_pte zeroed_null forked_ops)) (0 / 16)
        (0 mod 16)
    = Some (Pte true false 0 1) /\
  exists s' e',
    free_page 16 0 (state_after 16 128 16 zeroed_pte zeroed_null forked_ops) =
        Ok s' /\
    pte_at s' (ptbr (state_after 16 128 16 zeroed_pte zeroed_null forked_ops))
        (0 / 16) (0 mod 16)
      = Some e' /\
    valid e' = false /\ writable e' = false /\ private e' = 0%Z /\
    mapcounts s' !! pfn (Pte true false 0 1) = Some (wrap32 (2 - 1)) /\
    ((0 < 2 < 2 ^ 32)%Z ->
     mapcounts s' !! pfn (Pte true false 0 1) = Some (2 - 1)%Z) /\
    (forall g, g <> pfn (Pte true false 0 1) ->
               mapcounts s' !! g
               = mapcounts
                   (state_after 16 128 16 zeroed_pte zeroed_null forked_ops)
                   !! g) /\
    (forall a i j,
        (a, i, j) <> (ptbr
            (state_after 16 128 16 zeroed_pte zeroed_null forked_ops), 0 / 16,
            0 mod 16) ->
        pte_at s' a i j = pte_at
            (state_after 16 128 16 zeroed_pte zeroed_null forked_ops) a i j)
            /\
    (forall a, a <> ptbr
        (state_after 16 128 16 zeroed_pte zeroed_null forked_ops) ->
               heap s' !! a = heap
                   (state_after 16 128 16 zeroed_pte zeroed_null forked_ops)
                   !! a).
Proof.
  split; [reflexivity|].
  apply (free_page_valid_mapping 16
      (state_after 16 128 16 zeroed_pte zeroed_null forked_ops) 0
           (Pte true false 0 1) 2%Z); reflexivity.
Defined.

(** [switch_process_fork] for the fork of the specification's
    scenario. *)
Lemma switch_process_fork_witness :
  wf_vm 16 16 (state_after 16 128 16 zeroed_pte zeroed_null two_pages_ops) =
      true /\
  frames_ok (state_after 16 128 16 zeroed_pte zeroed_null two_pages_ops) =
      true /\
  fresh_slots_null 16 zeroed_null
    (length (heap
        (state_after 16 128 16 zeroed_pte zeroed_null two_pages_ops))) /\
  exists s',
    switch_process 16 128 16 zeroed_pte zeroed_null 99
      (state_after 16 128 16 zeroed_pte zeroed_null two_pages_ops) = Ok s' /\
    current s' = length (heap
        (state_after 16 128 16 zeroed_pte zeroed_null two_pages_ops)) /\
    ptbr s' = length (heap
        (state_after 16 128 16 zeroed_pte zeroed_null two_pages_ops)) /\
    processes s'
      = processes (state_after 16 128 16 zeroed_pte zeroed_null two_pages_ops)
          ++ [length (heap
              (state_after 16 128 16 zeroed_pte zeroed_null two_pages_ops))]
              /\
    pid <$> heap s' !! length (heap
        (state_after 16 128 16 zeroed_pte zeroed_null two_pages_ops))
      = Some 99 /\
    (forall a, a < length (heap
        (state_after 16 128 16 zeroed_pte zeroed_null two_pages_ops)) ->
               heap s' !! a = heap
                   (state_after 16 128 16 zeroed_pte zeroed_null two_pages_ops)
                   !! a) /\
    (forall i j e,
        i < 128 / 16 ->
        pte_at (state_after 16 128 16 zeroed_pte zeroed_null two_pages_ops)
          (ptbr (state_after 16 128 16 zeroed_pte zeroed_null two_pages_ops))
              i j = Some e ->
        exists d,
          pte_at s' (length (heap
              (state_after 16 128 16 zeroed_pte zeroed_null two_pages_ops))) i
              j
            = Some d /\
          valid d = valid e /\ pfn d = pfn e /\ writable d = false /\
          private d
            = (if writable e || (private e =? 1)%Z then 1%Z
               else
                 private
                   (zeroed_pte
                      (length
                         (heap (state_after 16 128 16 zeroed_pte zeroed_null
                                  two_pages_ops))) i j))).
Proof.
  split; [reflexivity|]. split; [reflexivity|].
  split; [intros i Hi; reflexivity|].
  apply (switch_process_fork 16 128 16 zeroed_pte zeroed_null
           (state_after 16 128 16 zeroed_pte zeroed_null two_pages_ops) 99);
    [reflexivity | vm_compute; lia | reflexivity | reflexivity
    | intros i Hi; reflexivity].
Defined.

(** [switch_process_existing] for a switch back to the parent of a
    fork. *)
Lemma switch_process_existing_witness :
  wf_vm 16 16 (state_after 16 128 16 zeroed_pte zeroed_null forked_ops) = true
      /\
  find_process (heap (state_after 16 128 16 zeroed_pte zeroed_null forked_ops))
    (processes (state_after 16 128 16 zeroed_pte zeroed_null forked_ops)) 1 =
        Ok (Some 1) /\
  exists s',
    switch_process 16 128 16 zeroed_pte zeroed_null 1
        (state_after 16 128 16 zeroed_pte zeroed_null forked_ops) = Ok s' /\
    current s' = 1 /\ ptbr s' = 1 /\
    pid <$> heap s' !! 1 = Some 1 /\
    processes s' = processes
        (state_after 16 128 16 zeroed_pte zeroed_null forked_ops) /\
    mapcounts s' = mapcounts
        (state_after 16 128 16 zeroed_pte zeroed_null forked_ops) /\
    (forall b, b <> 1 ->
               heap s' !! b = heap
                   (state_after 16 128 16 zeroed_pte zeroed_null forked_ops)
                   !! b) /\
    (forall i,
        128 / 16 <= i \/
        dir_at (state_after 16 128 16 zeroed_pte zeroed_null forked_ops)
          (ptbr (state_after 16 128 16 zeroed_pte zeroed_null forked_ops)) i =
              Some None ->
        dir_at s' 1 i = dir_at
            (state_after 16 128 16 zeroed_pte zeroed_null forked_ops) 1 i) /\
    (forall i j e,
        i < 128 / 16 ->
        pte_at (state_after 16 128 16 zeroed_pte zeroed_null forked_ops)
          (ptbr (state_after 16 128 16 zeroed_pte zeroed_null forked_ops)) i j
              = Some e ->
        exists d',
          pte_at s' 1 i j = Some d' /\
          writable d' = false /\
          (writable e || (private e =? 1)%Z = true -> private d' = 1%Z) /\
          forall d,
            pte_at (state_after 16 128 16 zeroed_pte zeroed_null forked_ops) 1
                i j = Some d ->
            (writable e || (private e =? 1)%Z = false ->
             private d' = private d) /\
            (valid d = true -> valid d' = true /\ pfn d' = pfn d)).
Proof.
  split; [reflexivity|]. split; [reflexivity|].
  apply (switch_process_existing 16 128 16 zeroed_pte zeroed_null
      (state_after 16 128 16 zeroed_pte zeroed_null forked_ops) 1 1);
    [reflexivity | vm_compute; lia | reflexivity].
Defined.

(** ** Instances of the further properties *)

(** [alloc_page_defined] on a fresh system. *)
Lemma alloc_page_defined_witness :
  wf_vm 16 16 (init_vm 128 16) = true /\
  ((exists s' f, alloc_page 16 zeroed_pte 0 3 (init_vm 128 16) = Ok (s', f)) <->
   (0 < 16 * 16 /\ exists f, mapcounts (init_vm 128 16) !! f = Some 0%Z)).
Proof.
  split; [(vm_compute; reflexivity)|].
  apply (alloc_page_defined 16 16 zeroed_pte (init_vm 128 16) 0 3).
      (vm_compute; reflexivity).
Defined.

(** [alloc_page_frame] for the first allocation of a fresh system. *)
Lemma alloc_page_frame_witness :
  alloc_page 16 zeroed_pte 0 3 (init_vm 128 16)
    = Ok (state_after 16 128 16 zeroed_pte zeroed_null one_page_ops, 0) /\
  processes (state_after 16 128 16 zeroed_pte zeroed_null one_page_ops)
    = processes (init_vm 128 16) /\
  current (state_after 16 128 16 zeroed_pte zeroed_null one_page_ops) =
      current (init_vm 128 16) /\
  ptbr (state_after 16 128 16 zeroed_pte zeroed_null one_page_ops) = ptbr
      (init_vm 128 16) /\
  (forall a, a <> ptbr (init_vm 128 16) ->
             heap (state_after 16 128 16 zeroed_pte zeroed_null one_page_ops)
                 !! a
             = heap (init_vm 128 16) !! a) /\
  pid <$> heap (state_after 16 128 16 zeroed_pte zeroed_null one_page_ops) !!
      ptbr (init_vm 128 16)
    = pid <$> heap (init_vm 128 16) !! ptbr (init_vm 128 16) /\
  (forall i, i <> 0 / 16 ->
             dir_at (state_after 16 128 16 zeroed_pte zeroed_null one_page_ops)
               (ptbr (init_vm 128 16)) i
             = dir_at (init_vm 128 16) (ptbr (init_vm 128 16)) i) /\
  (forall j e, j <> 0 mod 16 ->
               pte_at (init_vm 128 16) (ptbr (init_vm 128 16)) (0 / 16) j
                 = Some e ->
               pte_at
                   (state_after 16 128 16 zeroed_pte zeroed_null one_page_ops)
                 (ptbr (init_vm 128 16)) (0 / 16) j = Some e) /\
  (forall g, g <> 0 ->
             mapcounts
                 (state_after 16 128 16 zeroed_pte zeroed_null one_page_ops)
                 !! g
             = mapcounts (init_vm 128 16) !! g).
Proof.
  split; [(vm_compute; reflexivity)|].
  apply (alloc_page_frame 16 zeroed_pte (init_vm 128 16) 0 3
           (state_after 16 128 16 zeroed_pte zeroed_null one_page_ops) 0).
  (vm_compute; reflexivity).
Defined.

(** [alloc_page_remap_leaks] for a second [alloc_page] of page 0, which
    the first one has mapped to frame 0. *)
Lemma alloc_page_remap_leaks_witness :
  pte_at (state_after 16 128 16 zeroed_pte zeroed_null two_pages_ops)
    (ptbr (state_after 16 128 16 zeroed_pte zeroed_null two_pages_ops)) (0 /
        16) (0 mod 16)
    = Some (Pte true true 0 0) /\
  refcounts_exact (state_after 16 128 16 zeroed_pte zeroed_null two_pages_ops)
      /\
  alloc_page 16 zeroed_pte 0 3
      (state_after 16 128 16 zeroed_pte zeroed_null two_pages_ops)
    = Ok (state_after 16 128 16 zeroed_pte zeroed_null (two_pages_ops ++
        one_page_ops), 2) /\
  2 <> pfn (Pte true true 0 0) /\
  mapcounts (state_after 16 128 16 zeroed_pte zeroed_null (two_pages_ops ++
      one_page_ops))
    !! pfn (Pte true true 0 0)
    = mapcounts (state_after 16 128 16 zeroed_pte zeroed_null two_pages_ops)
        !! pfn (Pte true true 0 0) /\
  count_refs (state_after 16 128 16 zeroed_pte zeroed_null (two_pages_ops ++
      one_page_ops))
    (pfn (Pte true true 0 0)) + 1
    = count_refs (state_after 16 128 16 zeroed_pte zeroed_null two_pages_ops)
        (pfn (Pte true true 0 0)) /\
  ~ refcounts_exact (state_after 16 128 16 zeroed_pte zeroed_null
      (two_pages_ops ++ one_page_ops)).
Proof.
  split; [(vm_compute; reflexivity)|].
  split; [apply refcounts_exactb_true; (vm_compute; reflexivity)|].
  split; [(vm_compute; reflexivity)|].
  apply (alloc_page_remap_leaks 16 zeroed_pte
      (state_after 16 128 16 zeroed_pte zeroed_null two_pages_ops) 0 3
           (Pte true true 0 0)
           (state_after 16 128 16 zeroed_pte zeroed_null (two_pages_ops ++
               one_page_ops)) 2);
    [(vm_compute; reflexivity) | (vm_compute; reflexivity) | vm_compute; lia
    | apply refcounts_exactb_true; (vm_compute; reflexivity) | (vm_compute;
        reflexivity)].
Defined.

(** [free_page_twice] for a page that is the only user of its frame:
    the counter ends at [2^32 - 1]. *)
Lemma free_page_twice_witness :
  exists s1 s2,
    free_page 16 0
        (state_after 16 128 16 zeroed_pte zeroed_null two_pages_ops) = Ok s1
        /\
    free_page 16 0 s1 = Ok s2 /\
    mapcounts s2 !! pfn (Pte true true 0 0) = Some (wrap32 (1 - 2)) /\
    (forall g, g <> pfn (Pte true true 0 0) ->
               mapcounts s2 !! g
               = mapcounts
                   (state_after 16 128 16 zeroed_pte zeroed_null two_pages_ops)
                   !! g) /\
    heap s2 = heap s1.
Proof.
  apply (free_page_twice 16
      (state_after 16 128 16 zeroed_pte zeroed_null two_pages_ops) 0
           (Pte true true 0 0) 1%Z); (vm_compute; reflexivity).
Defined.

(** [free_alloc_round_trip] for page 0 on frame 0, mapped again for
    reading. *)
Lemma free_alloc_round_trip_witness :
  exists s1 s2,
    free_page 16 0
        (state_after 16 128 16 zeroed_pte zeroed_null two_pages_ops) = Ok s1
        /\
    alloc_page 16 zeroed_pte 0 1 s1 = Ok (s2, pfn (Pte true true 0 0)) /\
    mapcounts s2 = mapcounts
        (state_after 16 128 16 zeroed_pte zeroed_null two_pages_ops) /\
    pte_at s2 (ptbr
        (state_after 16 128 16 zeroed_pte zeroed_null two_pages_ops)) (0 / 16)
        (0 mod 16)
      = Some (Pte true (is_write 1) (pfn (Pte true true 0 0)) 0) /\
    (forall a i j,
        (a, i, j)
        <> (ptbr (state_after 16 128 16 zeroed_pte zeroed_null two_pages_ops),
            0 / 16, 0 mod 16) ->
        pte_at s2 a i j = pte_at
            (state_after 16 128 16 zeroed_pte zeroed_null two_pages_ops) a i
            j).
Proof.
  apply (free_alloc_round_trip 16 zeroed_pte
      (state_after 16 128 16 zeroed_pte zeroed_null two_pages_ops) 0 1
           (Pte true true 0 0)); [(vm_compute; reflexivity) | (vm_compute;
               reflexivity) |].
  intros g Hg. simpl in Hg. lia.
Defined.

(** [handle_page_fault_refuses] for a write to a page that is
    writable. *)
Lemma handle_page_fault_refuses_witness :
  (is_write 2 = false \/ writable (Pte true true 0 0) = true \/
   private (Pte true true 0 0) <> 1%Z) <->
  handle_page_fault 16 0 2
      (state_after 16 128 16 zeroed_pte zeroed_null two_pages_ops)
    = Ok (state_after 16 128 16 zeroed_pte zeroed_null two_pages_ops, false).
Proof.
  apply (handle_page_fault_refuses 16
      (state_after 16 128 16 zeroed_pte zeroed_null two_pages_ops) 0 2
           (Pte true true 0 0)).
  (vm_compute; reflexivity).
Defined.

(** [handle_page_fault_twice] for a child that has taken its copy of
    the page it shared with its parent. *)
Lemma handle_page_fault_twice_witness :
  handle_page_fault 16 0 2
      (state_after 16 128 16 zeroed_pte zeroed_null forked_ops)
    = Ok (state_after 16 128 16 zeroed_pte zeroed_null (forked_ops ++
        [HandlePageFault 0 2]), true) /\
  handle_page_fault 16 0 2
    (state_after 16 128 16 zeroed_pte zeroed_null (forked_ops ++
        [HandlePageFault 0 2]))
    = Ok (state_after 16 128 16 zeroed_pte zeroed_null (forked_ops ++
        [HandlePageFault 0 2]), false).
Proof.
  split; [(vm_compute; reflexivity)|].
  apply (handle_page_fault_twice 16
      (state_after 16 128 16 zeroed_pte zeroed_null forked_ops) 0 2
           (state_after 16 128 16 zeroed_pte zeroed_null (forked_ops ++
               [HandlePageFault 0 2])));
    (vm_compute; reflexivity).
Defined.

(** [handle_page_fault_defined] for the child of a fork. *)
Lemma handle_page_fault_defined_witness :
  (exists s' b,
     handle_page_fault 16 0 2
         (state_after 16 128 16 zeroed_pte zeroed_null forked_ops) = Ok (s',
         b))
  <->
  (exists e,
     pte_at (state_after 16 128 16 zeroed_pte zeroed_null forked_ops)
       (ptbr (state_after 16 128 16 zeroed_pte zeroed_null forked_ops)) (0 /
           16) (0 mod 16) = Some e /\
     (fault_test e 2 = true ->
      exists c,
        mapcounts (state_after 16 128 16 zeroed_pte zeroed_null forked_ops) !!
            pfn e = Some c /\
        ((1 < c)%Z ->
         exists g, mapcounts
             (state_after 16 128 16 zeroed_pte zeroed_null forked_ops) !! g
                   = Some 0%Z))).
Proof.
  apply (handle_page_fault_defined 16
      (state_after 16 128 16 zeroed_pte zeroed_null forked_ops) 0 2).
  (vm_compute; reflexivity).
Defined.

(** [switch_process_selects] for a pid that is not on the ready queue
    of the forked system: the call forks. *)
Lemma switch_process_selects_witness :
  wf_vm 16 16 (state_after 16 128 16 zeroed_pte zeroed_null forked_ops) = true
      /\
  frames_ok (state_after 16 128 16 zeroed_pte zeroed_null forked_ops) = true /\
  exists s',
    switch_process 16 128 16 zeroed_pte zeroed_null 3
      (state_after 16 128 16 zeroed_pte zeroed_null forked_ops) = Ok s' /\
    current s' = ptbr s' /\
    pid <$> heap s' !! current s' = Some 3 /\
    find_process (heap s') (processes s') 3 = Ok (Some (current s')) /\
    ((find_process
        (heap (state_after 16 128 16 zeroed_pte zeroed_null forked_ops))
        (processes (state_after 16 128 16 zeroed_pte zeroed_null forked_ops)) 3
      = Ok (Some (current s')) /\
      processes s' = processes
          (state_after 16 128 16 zeroed_pte zeroed_null forked_ops)) \/
     (find_process
        (heap (state_after 16 128 16 zeroed_pte zeroed_null forked_ops))
        (processes (state_after 16 128 16 zeroed_pte zeroed_null forked_ops)) 3
      = Ok None /\
      current s' = length (heap
          (state_after 16 128 16 zeroed_pte zeroed_null forked_ops)) /\
      processes s'
      = processes (state_after 16 128 16 zeroed_pte zeroed_null forked_ops)
          ++ [length (heap
              (state_after 16 128 16 zeroed_pte zeroed_null forked_ops))])).
Proof.
  split; [reflexivity|]. split; [reflexivity|].
  apply (switch_process_selects 16 128 16 zeroed_pte zeroed_null
           (state_after 16 128 16 zeroed_pte zeroed_null forked_ops) 3);
    [reflexivity | reflexivity | vm_compute; lia | |
     intros _ i Hi; reflexivity].
  vm_compute. repeat (apply Forall_cons_2; [lia|]). apply Forall_nil_2.
Defined.

(** [switch_process_self] for a process that is running, is on the
    ready queue and has mapped a page for writing: the entry ends
    read-only and marked private. *)
Lemma switch_process_self_witness :
  find_process
    (heap (state_after 16 128 16 zeroed_pte zeroed_null queued_owner_ops))
    (processes
        (state_after 16 128 16 zeroed_pte zeroed_null queued_owner_ops)) 1
    = Ok (Some (ptbr
        (state_after 16 128 16 zeroed_pte zeroed_null queued_owner_ops))) /\
  pte_at (state_after 16 128 16 zeroed_pte zeroed_null queued_owner_ops)
    (ptbr (state_after 16 128 16 zeroed_pte zeroed_null queued_owner_ops)) 0 0
    = Some (Pte true true 0 0) /\
  exists s',
    switch_process 16 128 16 zeroed_pte zeroed_null 1
      (state_after 16 128 16 zeroed_pte zeroed_null queued_owner_ops) = Ok s' /\
    ptbr s' = ptbr
        (state_after 16 128 16 zeroed_pte zeroed_null queued_owner_ops) /\
    mapcounts s' = mapcounts
        (state_after 16 128 16 zeroed_pte zeroed_null queued_owner_ops) /\
    forall i j e,
      i < 128 / 16 ->
      pte_at (state_after 16 128 16 zeroed_pte zeroed_null queued_owner_ops)
        (ptbr (state_after 16 128 16 zeroed_pte zeroed_null queued_owner_ops))
            i j = Some e ->
      pte_at s' (ptbr
          (state_after 16 128 16 zeroed_pte zeroed_null queued_owner_ops)) i j
        = Some (Pte (valid e) false (pfn e)
                  (if writable e || (private e =? 1)%Z then 1%Z
                   else private e)).
Proof.
  split; [reflexivity|]. split; [reflexivity|].
  apply (switch_process_self 16 128 16 zeroed_pte zeroed_null
           (state_after 16 128 16 zeroed_pte zeroed_null queued_owner_ops) 1);
    [reflexivity | vm_compute; lia | reflexivity].
Defined.

(** [switch_process_fork_skips] for a parent that has mapped a page of
    directory 12, beyond the 8 directories that the fork walks. *)
Lemma switch_process_fork_skips_witness :
  pte_at (state_after 16 128 16 zeroed_pte zeroed_null far_page_ops)
    (ptbr (state_after 16 128 16 zeroed_pte zeroed_null far_page_ops)) 12 8
    = Some (Pte true true 0 0) /\
  exists s',
    switch_process 16 128 16 zeroed_pte zeroed_null 1
      (state_after 16 128 16 zeroed_pte zeroed_null far_page_ops) = Ok s' /\
    forall i,
      i < 16 ->
      128 / 16 <= i \/
      dir_at (state_after 16 128 16 zeroed_pte zeroed_null far_page_ops)
        (ptbr (state_after 16 128 16 zeroed_pte zeroed_null far_page_ops)) i =
            Some None ->
      dir_at s' (length (heap
          (state_after 16 128 16 zeroed_pte zeroed_null far_page_ops))) i
        = ptable
            (malloc_process 16 zeroed_null
               (length
                  (heap (state_after 16 128 16 zeroed_pte zeroed_null
                           far_page_ops)))) !! i /\
      dir_at s' (length (heap
          (state_after 16 128 16 zeroed_pte zeroed_null far_page_ops))) i =
          Some None /\
      forall j, pte_at s' (length (heap
          (state_after 16 128 16 zeroed_pte zeroed_null far_page_ops))) i j =
          None.
Proof.
  split; [reflexivity|].
  apply (switch_process_fork_skips 16 128 16 zeroed_pte zeroed_null
           (state_after 16 128 16 zeroed_pte zeroed_null far_page_ops) 1);
    [reflexivity | vm_compute; lia | reflexivity | reflexivity
    | intros i Hi; reflexivity].
Defined.

(** [switch_process_adopts_uncounted] for a switch back to a parent
    whose child has mapped page 1 since the fork: the parent has an
    entry for page 1 that is not valid, and adopts frame 1. *)
Lemma switch_process_adopts_uncounted_witness :
  pte_at (state_after 16 128 16 zeroed_pte zeroed_null child_page_ops)
    (ptbr (state_after 16 128 16 zeroed_pte zeroed_null child_page_ops)) 0 1
    = Some (Pte true true 1 0) /\
  pte_at (state_after 16 128 16 zeroed_pte zeroed_null child_page_ops) 1 0 1
    = Some (Pte false false 0 0) /\
  exists s',
    switch_process 16 128 16 zeroed_pte zeroed_null 1
      (state_after 16 128 16 zeroed_pte zeroed_null child_page_ops) = Ok s' /\
    mapcounts s' = mapcounts
        (state_after 16 128 16 zeroed_pte zeroed_null child_page_ops) /\
    (exists d', pte_at s' 1 0 1 = Some d' /\
                valid d' = true /\ pfn d' = pfn (Pte true true 1 0)) /\
    count_refs (state_after 16 128 16 zeroed_pte zeroed_null child_page_ops)
        (pfn (Pte true true 1 0))
      < count_refs s' (pfn (Pte true true 1 0)) /\
    (refcounts_exact
        (state_after 16 128 16 zeroed_pte zeroed_null child_page_ops) ->
     pfn (Pte true true 1 0)
       < length (mapcounts
           (state_after 16 128 16 zeroed_pte zeroed_null child_page_ops)) ->
     ~ refcounts_exact s').
Proof.
  split; [reflexivity|]. split; [reflexivity|].
  apply (switch_process_adopts_uncounted 16 128 16 zeroed_pte zeroed_null
           (state_after 16 128 16 zeroed_pte zeroed_null child_page_ops) 1 1 0
               1 (Pte true true 1 0) (Pte false false 0 0));
    [reflexivity | vm_compute; lia | reflexivity | vm_compute; lia
    | reflexivity | reflexivity | reflexivity | reflexivity].
Defined.

(** [run_keeps_shape] for the operations that lead to the forked
    system, on memory that is zero when allocated. *)
Lemma run_keeps_shape_witness :
  fresh_invalid zeroed_pte /\
  (forall a, fresh_slots_null 16 zeroed_null a) /\
  run 16 128 16 zeroed_pte zeroed_null forked_ops (init_vm 128 16)
    = Ok (state_after 16 128 16 zeroed_pte zeroed_null forked_ops) /\
  vm_ok 16 16 (state_after 16 128 16 zeroed_pte zeroed_null forked_ops) = true
      /\
  queue_ok (state_after 16 128 16 zeroed_pte zeroed_null forked_ops) /\
  length (mapcounts (state_after 16 128 16 zeroed_pte zeroed_null forked_ops))
    = length (mapcounts (init_vm 128 16)).
Proof.
  split; [intros a i j; reflexivity|].
  split; [intros a i Hi; reflexivity|].
  split; [vm_compute; reflexivity|].
  apply (run_keeps_shape 16 128 16 zeroed_pte zeroed_null forked_ops (init_vm
      128 16)
           (state_after 16 128 16 zeroed_pte zeroed_null forked_ops));
    [intros a i j; reflexivity | intros a i Hi; reflexivity
    | vm_compute; lia | vm_compute; reflexivity | |
     vm_compute; reflexivity].
  split; constructor.
Defined.

(** [alloc_page_keeps_refcounts] for the first page of a fresh system,
    whose directory has to be allocated. *)
Lemma alloc_page_keeps_refcounts_witness :
  dir_at (init_vm 128 16) (ptbr (init_vm 128 16)) (0 / 16) = Some None /\
  refcounts_exact (init_vm 128 16) /\
  exists s' f,
    alloc_page 16 zeroed_pte 0 3 (init_vm 128 16) = Ok (s', f) /\
    refcounts_exact s'.
Proof.
  split; [reflexivity|].
  split; [apply refcounts_exactb_true; vm_compute; reflexivity|].
  apply (alloc_page_keeps_refcounts 16 16 zeroed_pte (init_vm 128 16) 0 3);
    [reflexivity | lia | exists 0; reflexivity | | |
     apply refcounts_exactb_true; vm_compute; reflexivity].
  - intros e He. vm_compute in He. discriminate.
  - intros _ j _. reflexivity.
Defined.

(** [alloc_page_private_unwritten] for the first allocation of the
    first process on memory that has been used before: the entry is
    valid and writable, and its [private] field holds the 5 that was
    there. *)
Lemma alloc_page_private_unwritten_witness :
  alloc_page 16 stale_pte 0 3 (init_vm 128 16)
  = Ok (state_after 16 128 16 stale_pte stale_null one_page_ops, 0) /\
  pte_at (state_after 16 128 16 stale_pte stale_null one_page_ops)
    (ptbr (init_vm 128 16)) (0 / 16) (0 mod 16)
  = Some (Pte true true 0 5) /\
  exists e',
    pte_at (state_after 16 128 16 stale_pte stale_null one_page_ops)
      (ptbr (init_vm 128 16)) (0 / 16) (0 mod 16) = Some e' /\
    private e'
    = match pte_at (init_vm 128 16) (ptbr (init_vm 128 16)) (0 / 16)
              (0 mod 16) with
      | Some e => private e
      | None => private (stale_pte (ptbr (init_vm 128 16)) (0 / 16) (0 mod 16))
      end.
Proof.
  split; [vm_compute; reflexivity|]. split; [vm_compute; reflexivity|].
  apply (alloc_page_private_unwritten 16 stale_pte (init_vm 128 16) 0 3
           (state_after 16 128 16 stale_pte stale_null one_page_ops) 0).
  vm_compute; reflexivity.
Defined.

(** [alloc_page_fresh_directory_uncounted] for the first allocation
    of the first process on memory that has been used before: entry 1
    of the new directory maps frame 7, whose counter is 0. *)
Lemma alloc_page_fresh_directory_uncounted_witness :
  refcounts_exact (init_vm 128 16) /\
  valid (stale_pte (ptbr (init_vm 128 16)) (0 / 16) 1) = true /\
  exists s' f,
    alloc_page 16 stale_pte 0 3 (init_vm 128 16) = Ok (s', f) /\
    pte_at s' (ptbr (init_vm 128 16)) (0 / 16) 1
      = Some (stale_pte (ptbr (init_vm 128 16)) (0 / 16) 1) /\
    ~ refcounts_exact s'.
Proof.
  split; [apply refcounts_exactb_true; vm_compute; reflexivity|].
  split; [reflexivity|].
  apply (alloc_page_fresh_directory_uncounted 16 16 stale_pte
           (init_vm 128 16) 0 3 1);
    [reflexivity | lia | exists 0; reflexivity | reflexivity | lia
    | vm_compute; lia | reflexivity | vm_compute; lia
    | apply refcounts_exactb_true; vm_compute; reflexivity].
Defined.

(** [switch_process_fork_wild_pointer] for the first fork, after one
    allocation, on memory that has been used before. *)
Lemma switch_process_fork_wild_pointer_witness :
  stale_null (length (heap (state_after 16 128 16 stale_pte stale_null
                              one_page_ops))) 0 = false /\
  switch_process 16 128 16 stale_pte stale_null 1
    (state_after 16 128 16 stale_pte stale_null one_page_ops)
  = Undefined OutOfBounds.
Proof.
  split; [reflexivity|].
  apply (switch_process_fork_wild_pointer 16 128 16 stale_pte stale_null
           (state_after 16 128 16 stale_pte stale_null one_page_ops)
           1 0 (Pte true true 0 5 :: replicate 15 (Pte true false 7 5)));
    [vm_compute; reflexivity | reflexivity | vm_compute; lia
    | intros i' Hi'; lia | vm_compute; reflexivity | reflexivity].
Defined.

(** [free_page_keeps_refcounts] for the first page of the first
    process. *)
Lemma free_page_keeps_refcounts_witness :
  exists s',
    free_page 16 0
        (state_after 16 128 16 zeroed_pte zeroed_null two_pages_ops) = Ok s'
        /\
    refcounts_exact s'.
Proof.
  apply (free_page_keeps_refcounts 16
      (state_after 16 128 16 zeroed_pte zeroed_null two_pages_ops) 0
           (Pte true true 0 0));
    [(vm_compute; reflexivity) | (vm_compute; reflexivity) | vm_compute; lia | |
     apply refcounts_exactb_true; (vm_compute; reflexivity)].
  intros f c Hc.
  apply (counts_in_range_lookup
           (mapcounts
               (state_after 16 128 16 zeroed_pte zeroed_null two_pages_ops)) f
               c);
    [(vm_compute; reflexivity) | exact Hc].
Defined.

(** [handle_page_fault_keeps_refcounts] for a child writing to the page
    it shares with its parent. *)
Lemma handle_page_fault_keeps_refcounts_witness :
  exists s' b,
    handle_page_fault 16 0 2
        (state_after 16 128 16 zeroed_pte zeroed_null forked_ops) = Ok (s', b)
        /\
    refcounts_exact s'.
Proof.
  apply (handle_page_fault_keeps_refcounts 16
           (state_after 16 128 16 zeroed_pte zeroed_null forked_ops) 0 2 (Pte
               true false 0 1));
    [(vm_compute; reflexivity) | (vm_compute; reflexivity) | vm_compute; lia |
        exists 1; (vm_compute; reflexivity) | |
     apply refcounts_exactb_true; (vm_compute; reflexivity)].
  intros f c Hc.
  apply (counts_in_range_lookup
           (mapcounts
               (state_after 16 128 16 zeroed_pte zeroed_null forked_ops)) f
               c);
    [(vm_compute; reflexivity) | exact Hc].
Defined.

(** [switch_process_fork_keeps_refcounts] for the fork of the
    specification's scenario, on memory that is zero when allocated. *)
Lemma switch_process_fork_keeps_refcounts_witness :
  fresh_slots_null 16 zeroed_null
    (length (heap
        (state_after 16 128 16 zeroed_pte zeroed_null two_pages_ops))) /\
  exists s',
    switch_process 16 128 16 zeroed_pte zeroed_null 99
      (state_after 16 128 16 zeroed_pte zeroed_null two_pages_ops) = Ok s' /\
    refcounts_exact32 s'.
Proof.
  split; [intros i Hi; reflexivity|].
  apply (switch_process_fork_keeps_refcounts 16 128 16 zeroed_pte zeroed_null
           (state_after 16 128 16 zeroed_pte zeroed_null two_pages_ops) 99);
    [vm_compute; reflexivity | vm_compute; lia | vm_compute; reflexivity
    | vm_compute; reflexivity | intros i Hi; reflexivity
    | intros i j; reflexivity |].
  apply refcounts_exact_32;
    [apply refcounts_exactb_true; vm_compute; reflexivity|].
  intros f c Hc.
  apply (counts_in_range_lookup
           (mapcounts
               (state_after 16 128 16 zeroed_pte zeroed_null two_pages_ops)) f
               c);
    [vm_compute; reflexivity | exact Hc].
Defined.

(** [run_keeps_flags] for the operations that lead to the forked
    system, on memory that is zero when allocated. *)
Lemma run_keeps_flags_witness :
  fresh_unmarked zeroed_pte /\
  run 16 128 16 zeroed_pte zeroed_null forked_ops (init_vm 128 16)
    = Ok (state_after 16 128 16 zeroed_pte zeroed_null forked_ops) /\
  flags_ok (init_vm 128 16) = true /\
  flags_ok (state_after 16 128 16 zeroed_pte zeroed_null forked_ops) = true.
Proof.
  split; [intros a i j; split; reflexivity|].
  split; [vm_compute; reflexivity|]. split; [vm_compute; reflexivity|].
  apply (run_keeps_flags 16 128 16 zeroed_pte zeroed_null forked_ops (init_vm
      128 16)
           (state_after 16 128 16 zeroed_pte zeroed_null forked_ops));
    [intros a i j; reflexivity | intros a i Hi; reflexivity
    | intros a i j; split; reflexivity
    | vm_compute; lia | vm_compute; reflexivity | |
     vm_compute; reflexivity | vm_compute; reflexivity].
  split; constructor.
Defined.

(** [handle_page_fault_answers_cow] for a child writing to the page it
    shares with its parent. *)
Lemma handle_page_fault_answers_cow_witness :
  handle_page_fault 16 0 2
      (state_after 16 128 16 zeroed_pte zeroed_null forked_ops)
    = Ok (state_after 16 128 16 zeroed_pte zeroed_null (forked_ops ++
        [HandlePageFault 0 2]), true) /\
  true = cow_fault (Pte true false 0 1) 2.
Proof.
  split; [vm_compute; reflexivity|].
  apply (handle_page_fault_answers_cow 16
      (state_after 16 128 16 zeroed_pte zeroed_null forked_ops)
           0 2 (Pte true false 0 1)
           (state_after 16 128 16 zeroed_pte zeroed_null (forked_ops ++
               [HandlePageFault 0 2])) true);
    vm_compute; reflexivity.
Defined.
